(** * web-agent: orchestration and recovery engine

    A shallow embedding of the routing functions, the THINK and ACT
    nodes, the todo.md step tracker, the task parser, the page-context
    analyzer, the error detector and the port manager of the repository,
    together with the properties that the specification states about
    them and further properties that the code shows.

    Conventions of the embedding.
    - A Python [str] is a [string]; a character is a code point below 256.
    - The workflow state, a dict, is a [gmap string value]; [state.get(k)]
      is [get state k] and [state.get(k, d)] is [getd state k d].  A node
      returns the dict of the keys it sets, and the graph merges it into
      the running state with [apply_update].
    - An object read through its attributes is a record; an attribute or
      a dict key that may be missing or [None] is an [option] field.
    - The body of a [try] is a function into [option], [None] when it
      raises; the [except] clause supplies the value for [None].
    - Results of calls that leave the process (LLM, browser session,
      file system) are inputs of the modelled function. *)

From Stdlib Require Import ZArith Strings.String Strings.Ascii List Bool Lia.
From Stdlib Require Import Numbers.DecimalString.
From Stdlib Require Import Sorting.Sorted Sorting.Permutation.
From stdpp Require Import base option gmap sets list strings.
Import ListNotations.

Open Scope Z_scope.
Open Scope string_scope.

(** ** Python string primitives *)

Module Py.

(** [str.isspace] on one code point below 256. *)
Definition is_space (c : ascii) : bool :=
  let n := nat_of_ascii c in
  ((9 <=? n) && (n <=? 13) || (28 <=? n) && (n <=? 32)
   || (n =? 133) || (n =? 160))%nat.

(** [str.lower] on one code point below 256. *)
Definition lower_char (c : ascii) : ascii :=
  let n := nat_of_ascii c in
  if ((65 <=? n) && (n <=? 90)
      || (192 <=? n) && (n <=? 222) && negb (n =? 215))%nat
  then ascii_of_nat (n + 32) else c.

Fixpoint lower (s : string) : string :=
  match s with
  | EmptyString => EmptyString
  | String c s' => String (lower_char c) (lower s')
  end.

Fixpoint lstrip (s : string) : string :=
  match s with
  | EmptyString => EmptyString
  | String c s' => if is_space c then lstrip s' else s
  end.

Fixpoint rstrip (s : string) : string :=
  match s with
  | EmptyString => EmptyString
  | String c s' =>
      match rstrip s' with
      | EmptyString => if is_space c then EmptyString else String c EmptyString
      | r => String c r
      end
  end.

(** [s.strip()] *)
Definition strip (s : string) : string := rstrip (lstrip s).

(** [s.startswith(p)] *)
Definition startswith (s p : string) : bool := String.prefix p s.

(** [sub in s] *)
Fixpoint contains (sub s : string) : bool :=
  String.prefix sub s ||
  match s with
  | EmptyString => false
  | String _ s' => contains sub s'
  end.

(** [any(kw in s for kw in kws)] *)
Definition any_in (kws : list string) (s : string) : bool :=
  existsb (fun kw => contains kw s) kws.

(** [s.split(sep)] for a separator of one character. *)
Fixpoint split_char (sep : ascii) (s : string) : list string :=
  match s with
  | EmptyString => [EmptyString]
  | String c s' =>
      if Ascii.eqb c sep then EmptyString :: split_char sep s'
      else match split_char sep s' with
           | [] => [String c EmptyString]
           | h :: t => String c h :: t
           end
  end.

(** [sep.join(l)] *)
Fixpoint join (sep : string) (l : list string) : string :=
  match l with
  | [] => EmptyString
  | [x] => x
  | x :: l' => x +:+ sep +:+ join sep l'
  end.

(** [s[:n]] and [s[a:b]] for [0 <= a], [0 <= b]. *)
Definition take (n : nat) (s : string) : string := String.substring 0 n s.
Definition slice (a b : nat) (s : string) : string :=
  String.substring a (b - a) s.

(** Truth value of a string, of an optional value. *)
Definition truthy_str (s : string) : bool :=
  negb (String.eqb s EmptyString).
Definition truthy_ostr (s : option string) : bool :=
  match s with Some s => truthy_str s | None => false end.
Definition truthy_obool (b : option bool) : bool := default false b.

(** [int(b)] for a [bool]. *)
Definition int_of_bool (b : bool) : Z := if b then 1 else 0.

Definition nl : ascii := ascii_of_nat 10.
Definition nl_str : string := String nl EmptyString.

(** [s.replace(old, new)] for a non-empty [old]: the occurrences of [old]
    are taken from left to right and do not overlap.  [skip] is the
    number of characters of a found occurrence still to pass. *)
Fixpoint replace_from (skip : nat) (old new s : string) : string :=
  match s with
  | EmptyString => EmptyString
  | String c s' =>
      match skip with
      | S k => replace_from k old new s'
      | O =>
          if String.prefix old s
          then new +:+ replace_from (String.length old - 1) old new s'
          else String c (replace_from 0 old new s')
      end
  end.
Definition replace (old new s : string) : string := replace_from 0 old new s.

End Py.

(** ** Regular expressions of the [re] module

    The fragment of the pattern language that the repository uses, with
    the search order of a backtracking matcher: the first alternative
    first, a greedy repetition longest first, a lazy one shortest first.
    A match reports the position where it ends and the spans of the
    capture groups. *)

Module Re.

Inductive regex :=
| Eps
| Chr (c : ascii)                  (* a literal character *)
| Any                              (* [.]: any character but a newline *)
| Space                            (* [\s] *)
| OneOf (cs : list ascii)          (* a character set such as [[xX]] *)
| Bol                              (* [^] *)
| Eol                              (* [$] *)
| Seq (r1 r2 : regex)
| Alt (r1 r2 : regex)              (* [r1|r2] *)
| Star (r : regex)                 (* [r*] *)
| Opt (r : regex)                  (* [r?] *)
| LazyUpTo (n : nat) (r : regex)   (* [r{0,n}?] *)
| Group (i : nat) (r : regex).     (* the [i]-th capturing group *)

(** [r+] *)
Definition Plus (r : regex) : regex := Seq r (Star r).

(** A literal word. *)
Fixpoint Lit (s : string) : regex :=
  match s with
  | EmptyString => Eps
  | String c EmptyString => Chr c
  | String c s' => Seq (Chr c) (Lit s')
  end.

(** [(?:r1|r2|...)] *)
Fixpoint Alts (rs : list regex) : regex :=
  match rs with
  | [] => Eps
  | [r] => r
  | r :: rs' => Alt r (Alts rs')
  end.

(** [r1 r2 ...] in sequence *)
Fixpoint Seqs (rs : list regex) : regex :=
  match rs with
  | [] => Eps
  | [r] => r
  | r :: rs' => Seq r (Seqs rs')
  end.

Definition span : Type := (nat * nat)%type.
Definition caps : Type := list (nat * span).

Definition set_cap (i : nat) (sp : span) (c : caps) : caps := (i, sp) :: c.

Fixpoint get_cap (i : nat) (c : caps) : option span :=
  match c with
  | [] => None
  | (j, sp) :: c' => if Nat.eqb i j then Some sp else get_cap i c'
  end.

(** A continuation receives the rest of the subject, the position reached
    and the captures so far. *)
Definition cont : Type := string -> nat -> caps -> option (nat * caps).

Definition accept : cont := fun _ pos c => Some (pos, c).

Definition one (p : ascii -> bool) (k : cont) : cont :=
  fun s pos c =>
    match s with
    | String b s' => if p b then k s' (S pos) c else None
    | EmptyString => None
    end.

Definition orelse {A} (x y : option A) : option A :=
  match x with Some _ => x | None => y end.

(** Greedy repetition of a step [body]; an iteration that consumes
    nothing ends the repetition. *)
Fixpoint star_loop (body : cont -> cont) (k : cont) (fuel : nat) : cont :=
  fun s pos c =>
    match fuel with
    | O => k s pos c
    | S fuel' =>
        orelse
          (body (fun s' pos' c' =>
                   if Nat.eqb pos' pos then None
                   else star_loop body k fuel' s' pos' c') s pos c)
          (k s pos c)
    end.

(** Lazy repetition, at most [n] times. *)
Fixpoint lazy_loop (body : cont -> cont) (k : cont) (n : nat) : cont :=
  fun s pos c =>
    orelse (k s pos c)
      (match n with
       | O => None
       | S n' => body (lazy_loop body k n') s pos c
       end).

Fixpoint m (r : regex) (k : cont) {struct r} : cont :=
  match r with
  | Eps => k
  | Chr a => one (Ascii.eqb a) k
  | Any => one (fun b => negb (Ascii.eqb b Py.nl)) k
  | Space => one Py.is_space k
  | OneOf cs => one (fun b => existsb (Ascii.eqb b) cs) k
  | Bol => fun s pos c => if Nat.eqb pos 0 then k s pos c else None
  | Eol => fun s pos c =>
             match s with
             | EmptyString => k s pos c
             | String b EmptyString =>
                 if Ascii.eqb b Py.nl then k s pos c else None
             | _ => None
             end
  | Seq r1 r2 => m r1 (m r2 k)
  | Alt r1 r2 => fun s pos c => orelse (m r1 k s pos c) (m r2 k s pos c)
  | Star r' => fun s pos c => star_loop (m r') k (S (String.length s)) s pos c
  | Opt r' => fun s pos c => orelse (m r' k s pos c) (k s pos c)
  | LazyUpTo n r' => lazy_loop (m r') k n
  | Group i r' =>
      fun s pos c =>
        m r' (fun s' pos' c' => k s' pos' (set_cap i (pos, pos') c')) s pos c
  end.

(** A match object: the span of the whole match and of the groups. *)
Record Match := { m_start : nat; m_end : nat; m_caps : caps }.

(** The match that starts at position [pos], where [s] is the subject
    from [pos] on. *)
Definition match_here (r : regex) (s : string) (pos : nat) : option Match :=
  match m r accept s pos [] with
  | Some (e, c) => Some {| m_start := pos; m_end := e; m_caps := c |}
  | None => None
  end.

(** [re.match(r, s)] *)
Definition re_match (r : regex) (s : string) : option Match :=
  match_here r s 0.

(** The leftmost match at or after [pos]. *)
Fixpoint search_from (r : regex) (s : string) (pos : nat) : option Match :=
  match match_here r s pos with
  | Some x => Some x
  | None =>
      match s with
      | EmptyString => None
      | String _ s' => search_from r s' (S pos)
      end
  end.

(** [re.search(r, s)] *)
Definition re_search (r : regex) (s : string) : option Match :=
  search_from r s 0.

Fixpoint drop (n : nat) (s : string) : string :=
  match n, s with
  | O, _ => s
  | S n', String _ s' => drop n' s'
  | S _, EmptyString => EmptyString
  end.

(** The successive non-overlapping matches from [pos] on.  After an empty
    match the scan moves one character on. *)
Fixpoint finditer_from (fuel : nat) (r : regex) (s : string) (pos : nat)
  : list Match :=
  match fuel with
  | O => []
  | S fuel' =>
      match search_from r s pos with
      | None => []
      | Some x =>
          x ::
          (if Nat.ltb (m_start x) (m_end x)
           then finditer_from fuel' r (drop (m_end x - pos) s) (m_end x)
           else match drop (m_start x - pos) s with
                | EmptyString => []
                | String _ s' => finditer_from fuel' r s' (S (m_start x))
                end)
      end
  end.

(** [re.finditer(r, s)] *)
Definition finditer (r : regex) (s : string) : list Match :=
  finditer_from (S (String.length s)) r s 0.

(** [match.group(i)] on subject [s]; group 0 is the whole match. *)
Definition group (s : string) (x : Match) (i : nat) : option string :=
  match i with
  | O => Some (Py.slice (m_start x) (m_end x) s)
  | _ => match get_cap i (m_caps x) with
         | Some (a, b) => Some (Py.slice a b s)
         | None => None
         end
  end.

(** A replacement template: literal text and group references. *)
Inductive titem := TLit (s : string) | TRef (i : nat).

Definition expand (t : list titem) (s : string) (x : Match) : string :=
  fold_right
    (fun it acc =>
       match it with
       | TLit l => l +:+ acc
       | TRef i => default EmptyString (group s x i) +:+ acc
       end) EmptyString t.

(** [re.sub(r, t, s)] *)
Fixpoint sub_matches (t : list titem) (s : string) (from : nat)
  (ms : list Match) : string :=
  match ms with
  | [] => drop from s
  | x :: ms' =>
      Py.slice from (m_start x) s +:+ expand t s x
      +:+ sub_matches t s (m_end x) ms'
  end.

Definition re_sub (r : regex) (t : list titem) (s : string) : string :=
  sub_matches t s 0 (finditer r s).

End Re.

(** ** The todo.md step tracker (web_agent/utils/todo_parser.py) *)

Module TodoParser.
Import Re.

(** A step: [{"index": int, "text": str, "completed": bool}] *)
Record Step := { index : nat; text : string; completed : bool }.

(** [^-\s+\[(x|X)\]\s+(.+)$] *)
Definition completed_re : regex :=
  Seqs [Bol; Chr "-"; Plus Space; Chr "[";
        Group 1 (Alt (Chr "x") (Chr "X")); Chr "]";
        Plus Space; Group 2 (Plus Any); Eol].

(** [^-\s+\[\s*\]\s+(.+)$] *)
Definition pending_re : regex :=
  Seqs [Bol; Chr "-"; Plus Space; Chr "["; Star Space; Chr "]";
        Plus Space; Group 1 (Plus Any); Eol].

(** [^-\s+\[\s*[xX]?\s*\]\s+.+$] *)
Definition task_item_re : regex :=
  Seqs [Bol; Chr "-"; Plus Space; Chr "["; Star Space;
        Opt (OneOf ["x"%char; "X"%char]); Star Space; Chr "]";
        Plus Space; Plus Any; Eol].

(** [^(-\s+\[)\s*[xX]?(\])], replaced by [\1x\2] *)
Definition checkbox_re : regex :=
  Seqs [Bol; Group 1 (Seqs [Chr "-"; Plus Space; Chr "["]); Star Space;
        Opt (OneOf ["x"%char; "X"%char]); Group 2 (Chr "]")].
Definition checked_template : list titem := [TRef 1; TLit "x"; TRef 2].

(** The line opens the task section. *)
Definition opens_tasks (line_stripped : string) : bool :=
  Py.startswith line_stripped "## Tasks" || Py.startswith line_stripped "## Steps".

(** The line is the header of another section. *)
Definition other_section (line_stripped : string) : bool :=
  Py.startswith line_stripped "##"
  && negb (Py.contains "tasks" (Py.lower line_stripped))
  && negb (Py.contains "steps" (Py.lower line_stripped)).

(** The loop of [parse_todo_steps] over the remaining lines; the result
    is the pair of what is appended to [completed_steps] and to
    [pending_steps]. *)
Fixpoint parse_lines (lines : list string) (task_section_started : bool)
  (step_index : nat) : list Step * list Step :=
  match lines with
  | [] => ([], [])
  | line :: rest =>
      let line_stripped := Py.strip line in
      if opens_tasks line_stripped then parse_lines rest true step_index
      else if negb task_section_started
      then parse_lines rest task_section_started step_index
      else if other_section line_stripped then ([], [])
      else
        match re_match completed_re line_stripped with
        | Some x =>
            let step_text :=
              Py.strip (default EmptyString (group line_stripped x 2)) in
            let '(cs, ps) := parse_lines rest task_section_started (S step_index) in
            ({| index := step_index; text := step_text; completed := true |} :: cs, ps)
        | None =>
            match re_match pending_re line_stripped with
            | Some x =>
                let step_text :=
                  Py.strip (default EmptyString (group line_stripped x 1)) in
                let '(cs, ps) := parse_lines rest task_section_started (S step_index) in
                (cs, {| index := step_index; text := step_text; completed := false |} :: ps)
            | None => parse_lines rest task_section_started step_index
            end
        end
  end.

Definition parse_todo_steps (todo_contents : string) : list Step * list Step :=
  if negb (Py.truthy_str todo_contents)
     || negb (Py.truthy_str (Py.strip todo_contents))
  then ([], [])
  else parse_lines (Py.split_char Py.nl todo_contents) false 0.

Definition get_current_step (todo_contents : string) : option Step :=
  let '(_, pending_steps) := parse_todo_steps todo_contents in
  match pending_steps with
  | [] => None
  | st :: _ => Some st
  end.

(** The integer part of [get_todo_progress]. *)
Record Progress := {
  total : nat; n_completed : nat; n_pending : nat;
  current_step : option Step; all_done : bool }.

Definition get_todo_progress (todo_contents : string) : Progress :=
  let '(completed, pending) := parse_todo_steps todo_contents in
  {| total := (length completed + length pending)%nat;
     n_completed := length completed;
     n_pending := length pending;
     current_step := head pending;
     all_done := Nat.eqb (length pending) 0 |}.

(** The loop of [mark_step_completed]: the lines appended to
    [updated_lines]. *)
Fixpoint mark_lines (lines : list string) (task_section_started : bool)
  (current_step_index : nat) (step_index : nat) : list string :=
  match lines with
  | [] => []
  | line :: rest =>
      let line_stripped := Py.strip line in
      if opens_tasks line_stripped
      then line :: mark_lines rest true current_step_index step_index
      else
        let task_section_started :=
          if Py.startswith line_stripped "##" && task_section_started
          then if negb (Py.contains "tasks" (Py.lower line_stripped))
                  && negb (Py.contains "steps" (Py.lower line_stripped))
               then false else task_section_started
          else task_section_started in
        if negb task_section_started
        then line :: mark_lines rest task_section_started current_step_index step_index
        else
          match re_match task_item_re line_stripped with
          | Some _ =>
              if Nat.eqb current_step_index step_index
              then re_sub checkbox_re checked_template line_stripped
                   :: mark_lines rest task_section_started
                        (S current_step_index) step_index
              else line :: mark_lines rest task_section_started
                             (S current_step_index) step_index
          | None =>
              line :: mark_lines rest task_section_started
                        current_step_index step_index
          end
  end.

(** [step_index] is a step index as [parse_todo_steps] numbers them: a
    natural number. *)
Definition mark_step_completed (todo_contents : string) (step_index : nat)
  : string :=
  Py.join Py.nl_str
    (mark_lines (Py.split_char Py.nl todo_contents) false 0 step_index).

(** The loop of [extract_goal_from_todo] over the lines. *)
Fixpoint goal_of_lines (lines : list string) : option string :=
  match lines with
  | [] => None
  | line :: rest =>
      if Py.startswith (Py.strip line) "## Goal:"
      then
        let goal := Py.strip (Py.replace "## Goal:" EmptyString (Py.strip line)) in
        if Py.truthy_str goal then Some goal else None
      else goal_of_lines rest
  end.

Definition extract_goal_from_todo (todo_contents : string) : option string :=
  goal_of_lines (Py.split_char Py.nl todo_contents).

End TodoParser.

(** ** The task parser (qa_agent/utils/llm_task_parser.py) *)

Module TaskParser.

(** [TodoStructureResponse] *)
Record TodoStructureResponse := {
  title : string;
  goal : string;
  steps : list string }.

(** The todo returned when the task is blank ([goal] is then the text
    "Complete the task") or when the LLM call fails ([goal] is the task). *)
Definition fallback_content (goal : string) : string :=
  "# Task" +:+ Py.nl_str +:+ Py.nl_str +:+ "## Goal: " +:+ goal
  +:+ Py.nl_str +:+ Py.nl_str +:+ "## Tasks:" +:+ Py.nl_str
  +:+ "- [ ] Complete the task" +:+ Py.nl_str.

(** The content built from the answer of the LLM. *)
Definition build_content (response : TodoStructureResponse) : string :=
  let content := "# " +:+ title response +:+ Py.nl_str +:+ Py.nl_str in
  let content :=
    content +:+ "## Goal: " +:+ goal response +:+ Py.nl_str +:+ Py.nl_str in
  let content := content +:+ "## Tasks:" +:+ Py.nl_str in
  fold_left (fun content step => content +:+ "- [ ] " +:+ step +:+ Py.nl_str)
    (steps response) content.

(** [llm] is the structured answer of the LLM call, [None] when the call
    times out or raises. *)
Definition llm_create_todo_structure (task : string)
  (llm : option TodoStructureResponse) : string :=
  if negb (Py.truthy_str task) || negb (Py.truthy_str (Py.strip task))
  then fallback_content "Complete the task"
  else
    match llm with
    | Some response => build_content response
    | None => fallback_content task
    end.

End TaskParser.

(** ** The error detector (qa_agent/utils/error_detector.py) *)

Module ErrorDetector.
Import Re.

(** [@dataclass ExtractedError] *)
Record ExtractedError := {
  error_type : string;
  message : string;
  element_id : option Z;
  field_name : option string;
  severity : string;
  recovery_hint : option string }.

(** [ERROR_PATTERNS], in the order of the dict literal. *)
Definition ERROR_PATTERNS : list (string * list regex) :=
  [ ("already_exists",
      [ (* already (?:registered|exists|in use|taken) *)
        Seq (Lit "already ")
          (Alts [Lit "registered"; Lit "exists"; Lit "in use"; Lit "taken"]);
        (* (?:email|username|account) already *)
        Seq (Alts [Lit "email"; Lit "username"; Lit "account"]) (Lit " already");
        (* (?:this|the) .{0,20}? is already *)
        Seqs [Alts [Lit "this"; Lit "the"]; Chr " "; LazyUpTo 20 Any;
              Lit " is already"];
        (* duplicate entry *)
        Lit "duplicate entry";
        (* already (?:have an account|signed up) *)
        Seq (Lit "already ") (Alts [Lit "have an account"; Lit "signed up"]) ]);
    ("permission_denied",
      [ (* (?:access|permission) denied *)
        Seq (Alts [Lit "access"; Lit "permission"]) (Lit " denied");
        (* (?:you )?(?:do not have|don't have) (?:permission|access) *)
        Seqs [Opt (Lit "you "); Alts [Lit "do not have"; Lit "don't have"];
              Chr " "; Alts [Lit "permission"; Lit "access"]];
        (* unauthorized *)
        Lit "unauthorized";
        (* not (?:authorized|allowed) *)
        Seq (Lit "not ") (Alts [Lit "authorized"; Lit "allowed"]);
        (* forbidden *)
        Lit "forbidden" ]);
    ("not_found",
      [ (* not found *)
        Lit "not found";
        (* (?:could not find|doesn't exist|no such) *)
        Alts [Lit "could not find"; Lit "doesn't exist"; Lit "no such"];
        (* 404 *)
        Lit "404";
        (* page not found *)
        Lit "page not found";
        (* resource not found *)
        Lit "resource not found" ]);
    ("invalid_input",
      [ (* invalid *)
        Lit "invalid";
        (* (?:must be|should be|is) (?:valid|required|filled) *)
        Seqs [Alts [Lit "must be"; Lit "should be"; Lit "is"]; Chr " ";
              Alts [Lit "valid"; Lit "required"; Lit "filled"]];
        (* (?:please|enter a) (?:valid|correct) *)
        Seqs [Alts [Lit "please"; Lit "enter a"]; Chr " ";
              Alts [Lit "valid"; Lit "correct"]];
        (* (?:field is )?required *)
        Seq (Opt (Lit "field is ")) (Lit "required");
        (* (?:must|should) not be empty *)
        Seq (Alts [Lit "must"; Lit "should"]) (Lit " not be empty");
        (* incorrect (?:format|length|pattern) *)
        Seq (Lit "incorrect ") (Alts [Lit "format"; Lit "length"; Lit "pattern"]) ]);
    ("network_error",
      [ (* network error *)
        Lit "network error";
        (* (?:failed to (?:load|connect|fetch)|connection lost) *)
        Alts [Seq (Lit "failed to ") (Alts [Lit "load"; Lit "connect"; Lit "fetch"]);
              Lit "connection lost"];
        (* (?:unable to|can't) connect *)
        Seq (Alts [Lit "unable to"; Lit "can't"]) (Lit " connect");
        (* timeout *)
        Lit "timeout";
        (* offline *)
        Lit "offline";
        (* check your (?:internet|connection) *)
        Seq (Lit "check your ") (Alts [Lit "internet"; Lit "connection"]) ]);
    ("server_error",
      [ (* (?:server|internal|system) error *)
        Seq (Alts [Lit "server"; Lit "internal"; Lit "system"]) (Lit " error");
        (* 500 *)
        Lit "500";
        (* something went wrong *)
        Lit "something went wrong";
        (* try again (?:later|in a moment) *)
        Seq (Lit "try again ") (Alts [Lit "later"; Lit "in a moment"]);
        (* temporarily unavailable *)
        Lit "temporarily unavailable" ]) ].

(** [dict.get] on a table given as a list of pairs. *)
Fixpoint lookup_str {A} (k : string) (d : list (string * A)) : option A :=
  match d with
  | [] => None
  | (k', v) :: d' => if String.eqb k k' then Some v else lookup_str k d'
  end.

Definition _classify_severity (error_type : string) : string :=
  let severity_map :=
    [ ("permission_denied", "high"); ("network_error", "high");
      ("server_error", "high"); ("already_exists", "medium");
      ("not_found", "medium"); ("invalid_input", "medium") ] in
  default "medium" (lookup_str error_type severity_map).

Definition _suggest_recovery (error_type : string) : option string :=
  let recovery_map :=
    [ ("already_exists", "Try using a different value or switch to login");
      ("permission_denied",
        "Check your permissions or sign in with appropriate account");
      ("not_found", "Navigate to the correct page or verify the URL");
      ("invalid_input", "Correct the invalid input and try again");
      ("network_error", "Check your internet connection and retry");
      ("server_error", "Wait a moment and retry the action") ] in
  lookup_str error_type recovery_map.

(** The first error type, in table order, one of whose patterns is found
    in the text. *)
Fixpoint first_matching_type (table : list (string * list regex))
  (message_lower : string) : option string :=
  match table with
  | [] => None
  | (error_type, patterns) :: table' =>
      if existsb (fun p => bool_decide (is_Some (re_search p message_lower)))
           patterns
      then Some error_type
      else first_matching_type table' message_lower
  end.

Definition _classify_error_message (message : string) : string :=
  let message_lower := Py.lower message in
  match first_matching_type ERROR_PATTERNS message_lower with
  | Some error_type => error_type
  | None =>
      if Py.any_in ["validation"; "invalid"; "required"] message_lower
      then "invalid_input"
      else if Py.any_in ["permission"; "denied"; "unauthorized"] message_lower
      then "permission_denied"
      else if Py.any_in ["not found"; "not exist"] message_lower
      then "not_found"
      else if Py.any_in ["network"; "connection"; "timeout"] message_lower
      then "network_error"
      else if Py.any_in ["server"; "error"; "failed"] message_lower
      then "server_error"
      else "generic"
  end.

(** The error built for a text classified as [error_type]. *)
Definition classified (error_type message : string) : ExtractedError :=
  {| error_type := error_type; message := message;
     element_id := None; field_name := None;
     severity := _classify_severity error_type;
     recovery_hint := _suggest_recovery error_type |}.

(** The errors of one pattern: one per match, with 50 characters of
    context on each side. *)
Definition pattern_errors (text text_lower error_type : string) (p : regex)
  : list ExtractedError :=
  map (fun x =>
         let start := (m_start x - 50)%nat in
         let end_ := Nat.min (String.length text) (m_end x + 50) in
         classified error_type (Py.strip (Py.slice start end_ text)))
      (finditer p text_lower).

Definition _scan_for_error_patterns (text : string) : list ExtractedError :=
  let text_lower := Py.lower text in
  flat_map (fun '(error_type, patterns) =>
              flat_map (pattern_errors text text_lower error_type) patterns)
           ERROR_PATTERNS.

(** An element of [dom.clickable_elements]; an attribute that is missing
    or empty is [None]. *)
Record Element := {
  class_name : option string;
  id : option string;
  elem_text : option string;
  elem_element_id : option Z }.

(** A DOM: the text that [_extract_dom_text] obtains from it and, when it
    has the attribute, its clickable elements. *)
Record Dom := {
  dom_text : string;
  clickable_elements : option (list Element) }.

Definition _extract_dom_text (dom : Dom) : string := dom_text dom.

Definition error_indicators : list string :=
  [ "error"; "alert-danger"; "alert-error"; "invalid";
    "validation-error"; "form-error"; "field-error";
    "error-message"; "error-text"; "error-feedback" ].

Definition element_error (elem : Element) : list ExtractedError :=
  let elem_class := default EmptyString (class_name elem) in
  let elem_id := default EmptyString (id elem) in
  let elem_text := default EmptyString (elem_text elem) in
  let combined := Py.lower (elem_class +:+ " " +:+ elem_id +:+ " " +:+ elem_text) in
  if existsb (fun indicator =>
                Py.contains indicator combined
                && Py.truthy_str (Py.strip elem_text)) error_indicators
  then [ {| error_type := "validation"; message := Py.strip elem_text;
            element_id := elem_element_id elem; field_name := None;
            severity := "high";
            recovery_hint := Some "Fix the validation error" |} ]
  else [].

Definition _find_error_elements (dom : Dom) : list ExtractedError :=
  match clickable_elements dom with
  | Some elems => flat_map element_error elems
  | None => []
  end.

(** A console message: a dict that may have a ['text']. *)
Record ConsoleMessage := { msg_text : option string }.

(** The console watchdog of a session, as the two lists it returns:
    [get_recent_errors(count=10)] and [get_validation_errors()]. *)
Record ConsoleWatchdog := {
  recent_errors : list ConsoleMessage;
  validation_errors : list ConsoleMessage }.

Record BrowserSession := { console_watchdog : option ConsoleWatchdog }.

(** What the detector reads of a browser state: its [dom], if any. *)
Record BrowserState := { dom : option Dom }.

Definition console_error (console_err : ConsoleMessage) : ExtractedError :=
  classified
    (_classify_error_message (default EmptyString (msg_text console_err)))
    (Py.take 200 (default "Unknown error" (msg_text console_err))).

Definition validation_error (val_err : ConsoleMessage) : ExtractedError :=
  {| error_type := "invalid_input";
     message := Py.take 200 (default "Validation error" (msg_text val_err));
     element_id := None; field_name := None;
     severity := "medium";
     recovery_hint := Some "Correct the invalid input and try again" |}.

(** The loop over the first validation errors: an error is appended
    unless an error with the same message is already in the list. *)
Fixpoint add_validation_errors (errors : list ExtractedError)
  (val_errs : list ConsoleMessage) : list ExtractedError :=
  match val_errs with
  | [] => errors
  | val_err :: rest =>
      let error := validation_error val_err in
      if existsb (fun e => String.eqb (message e) (message error)) errors
      then add_validation_errors errors rest
      else add_validation_errors (errors ++ [error]) rest
  end.

Definition console_errors_of (browser_session : option BrowserSession)
  : list ExtractedError :=
  match browser_session with
  | Some session =>
      match console_watchdog session with
      | Some watchdog =>
          add_validation_errors
            (map console_error (recent_errors watchdog))
            (firstn 3 (validation_errors watchdog))
      | None => []
      end
  | None => []
  end.

Definition extract_errors_from_dom (browser_state : BrowserState)
  (browser_session : option BrowserSession) : list ExtractedError :=
  let errors := console_errors_of browser_session in
  match errors with
  | _ :: _ => errors
  | [] =>
      match dom browser_state with
      | None => errors
      | Some dom =>
          let dom_text := _extract_dom_text dom in
          _scan_for_error_patterns dom_text ++ _find_error_elements dom
      end
  end.

(** An action result, as far as the detector reads it. *)
Record ActionResult := {
  success : option bool;
  error : option string;
  long_term_memory : option string;
  extracted_content : option string }.

Definition extract_errors_from_action_result (action_result : ActionResult)
  : list ExtractedError :=
  (match error action_result with
   | Some error_msg =>
       if Py.truthy_str error_msg
       then [classified (_classify_error_message error_msg) error_msg]
       else []
   | None => []
   end)
  ++
  (let ltm := default EmptyString (long_term_memory action_result) in
   if Py.truthy_str ltm
      && Py.any_in ["error"; "failed"; "invalid"; "not found"] (Py.lower ltm)
   then let error_type := _classify_error_message ltm in
        [ {| error_type := error_type; message := ltm;
             element_id := None; field_name := None; severity := "medium";
             recovery_hint := _suggest_recovery error_type |} ]
   else [])
  ++
  (let extracted := default EmptyString (extracted_content action_result) in
   if Py.truthy_str extracted
      && Py.any_in ["error:"; "invalid"; "failed"] (Py.lower extracted)
   then let error_type := _classify_error_message extracted in
        [ {| error_type := error_type; message := Py.take 200 extracted;
             element_id := None; field_name := None; severity := "medium";
             recovery_hint := _suggest_recovery error_type |} ]
   else []).

(** [has_page_errors]: the extraction is called without a session. *)
Definition has_page_errors (browser_state : BrowserState) : bool :=
  (0 <? length (extract_errors_from_dom browser_state None))%nat.

(** [by_type[error.error_type].append(error)] on the dict [by_type], whose
    keys are kept in the order in which they were inserted. *)
Fixpoint add_by_type (error : ExtractedError)
  (by_type : list (string * list ExtractedError))
  : list (string * list ExtractedError) :=
  match by_type with
  | [] => [(error_type error, [error])]
  | (ty, type_errors) :: rest =>
      if String.eqb (error_type error) ty
      then (ty, (type_errors ++ [error])%list) :: rest
      else (ty, type_errors) :: add_by_type error rest
  end.

Definition group_by_type (errors : list ExtractedError)
  : list (string * list ExtractedError) :=
  fold_left (fun by_type error => add_by_type error by_type) errors [].

(** [f"{error_type}: {type_errors[0].message[:80]}"]; the list of a type
    holds the error that created the key, so [type_errors[0]] exists. *)
Definition summary_part (entry : string * list ExtractedError) : string :=
  entry.1 +:+ ": "
  +:+ Py.take 80 (default EmptyString (message <$> head entry.2)).

Definition get_error_summary (errors : list ExtractedError) : string :=
  match errors with
  | [] => "No errors detected"
  | _ => Py.join " | " (map summary_part (group_by_type errors))
  end.

End ErrorDetector.

(** ** The page-context analyzer (qa_agent/utils/page_context.py) *)

Module PageContext.

(** [s.find(sep)] *)
Fixpoint find (sep s : string) : option nat :=
  if String.prefix sep s then Some 0%nat
  else match s with
       | EmptyString => None
       | String _ s' => S <$> find sep s'
       end.

(** [s.split(sep)] for a non-empty separator. *)
Fixpoint split_fuel (fuel : nat) (sep s : string) : list string :=
  match fuel with
  | O => [s]
  | S fuel' =>
      match find sep s with
      | None => [s]
      | Some i =>
          Py.take i s :: split_fuel fuel' sep (Re.drop (i + String.length sep) s)
      end
  end.
Definition split (sep s : string) : list string :=
  split_fuel (S (String.length s)) sep s.

(** [browser_state.dom_state]: the selector map, element index to element;
    an element is read through [str(elem_info)] only, and is that string. *)
Record DomState := { selector_map : option (list (Z * string)) }.

(** A [BrowserStateSummary], as far as the analyzer reads it. *)
Record BrowserStateSummary := {
  url : string;
  title : string;
  dom_state : option DomState }.

(** [self.dom_elements] when it is not the empty dict. *)
Record DomInfo := {
  element_count : nat;
  element_types : gmap string nat;
  visible_text_elements : gset string }.

Definition element_type_of (elem_str : string) : string :=
  if Py.contains "Type:" elem_str
  then default EmptyString
         (head (split "}" (default EmptyString (split "Type:" elem_str !! 1%nat))))
  else "unknown".

Definition _get_element_types (selector_map : list (Z * string))
  : gmap string nat :=
  fold_left
    (fun types '(_, elem_info) =>
       let elem_type := element_type_of elem_info in
       <[elem_type := (default 0 (types !! elem_type) + 1)%nat]> types)
    selector_map ∅.

(** The text hints of one element. *)
Definition text_hints (elem_info : string) : list string :=
  let elem_str := Py.lower elem_info in
  (if Py.contains "login" elem_str || Py.contains "sign in" elem_str
   then ["login"] else [])
  ++ (if Py.contains "submit" elem_str || Py.contains "next" elem_str
      then ["submit"] else [])
  ++ (if Py.contains "email" elem_str || Py.contains "username" elem_str
      then ["email_field"] else [])
  ++ (if Py.contains "password" elem_str then ["password_field"] else [])
  ++ (if Py.contains "search" elem_str then ["search"] else []).

(** [list(set(texts))]: the set of the hints. *)
Definition _extract_text_elements (selector_map : list (Z * string))
  : gset string :=
  list_to_set (flat_map (fun '(_, elem_info) => text_hints elem_info) selector_map).

(** [None] is the empty dict [{}]. *)
Definition _extract_dom_info (browser_state : option BrowserStateSummary)
  : option DomInfo :=
  match browser_state with
  | None => None
  | Some bs =>
      match dom_state bs with
      | None => None
      | Some ds =>
          let selector_map := default [] (selector_map ds) in
          Some {| element_count := length selector_map;
                  element_types := _get_element_types selector_map;
                  visible_text_elements := _extract_text_elements selector_map |}
      end
  end.

(** The analyzer object after [__init__]. *)
Record PageContextAnalyzer := {
  self_url : string;
  self_title : string;
  dom_elements : option DomInfo }.

Definition init (browser_state : option BrowserStateSummary)
  : PageContextAnalyzer :=
  {| self_url := match browser_state with Some bs => url bs | None => EmptyString end;
     self_title := match browser_state with Some bs => title bs | None => EmptyString end;
     dom_elements := _extract_dom_info browser_state |}.

Definition page_indicators : list (string * list string) :=
  [ ("auth", ["login"; "signin"; "sign-in"; "auth"; "authenticate"; "account/login"]);
    ("registration", ["signup"; "sign-up"; "register"; "registration"; "join"]);
    ("search", ["search"; "query"; "find"]);
    ("checkout", ["checkout"; "cart"; "payment"; "order"; "purchase"]);
    ("profile", ["profile"; "account"; "user"; "settings"; "preferences"]);
    ("dashboard", ["dashboard"; "home"; "main"; "app"; "admin"]) ].

(** The first page type one of whose keywords occurs in a path segment. *)
Fixpoint match_page_type (indicators : list (string * list string))
  (path_segments : list string) : option string :=
  match indicators with
  | [] => None
  | (page_type, keywords) :: rest =>
      if existsb (fun segment => Py.any_in keywords segment) path_segments
      then Some page_type
      else match_page_type rest path_segments
  end.

Section WithUrlparse.

(** [urlparse(url).path] of the standard library; [None] when it raises. *)
Variable urlparse_path : string -> option string.

Definition path_segments_of (url : string) : list string :=
  match urlparse_path url with
  | Some path =>
      filter (fun s => Py.truthy_str s = true) (Py.split_char "/" (Py.lower path))
  | None => []
  end.

Definition matched_page_type (self : PageContextAnalyzer) : option string :=
  match_page_type page_indicators (path_segments_of (self_url self)).

Definition infer_current_page (self : PageContextAnalyzer) : string :=
  let element_types :=
    match dom_elements self with Some d => element_types d | None => ∅ end in
  let visible_elements : gset string :=
    match dom_elements self with Some d => visible_text_elements d | None => ∅ end in
  let element_count :=
    match dom_elements self with Some d => element_count d | None => 0%nat end in
  let matched_page_type := matched_page_type self in
  let has_password_field := bool_decide ("password" ∈ visible_elements) in
  let has_email_field := bool_decide ("email_field" ∈ visible_elements) in
  let has_username_field := bool_decide ("username" ∈ visible_elements) in
  let has_address_field := bool_decide ("address" ∈ visible_elements) in
  let has_payment_field := bool_decide ("payment" ∈ visible_elements) in
  let has_search_field := bool_decide ("search" ∈ visible_elements) in
  let input_count := default 0%nat (element_types !! "input") in
  let button_count := default 0%nat (element_types !! "button") in
  let form_count := default 0%nat (element_types !! "form") in
  let link_count := default 0%nat (element_types !! "a") in
  let is_type (page_type : string) :=
    bool_decide (matched_page_type = Some page_type) in
  if is_type "auth" then
    if (has_email_field || has_username_field) && has_password_field
       && (0 <? button_count)%nat
    then "login"
    else if (3 <? input_count)%nat && (0 <? button_count)%nat then "signup"
    else "auth_page"
  else if is_type "registration" then "signup"
  else if is_type "search" then "search"
  else if is_type "checkout" then
    if has_email_field || has_address_field || has_payment_field
    then "checkout" else "commerce_page"
  else if is_type "profile" then "profile"
  else if is_type "dashboard" then "dashboard"
  else if (has_email_field || has_username_field) && has_password_field
  then "login"
  else if (3 <=? input_count)%nat && (has_email_field || has_password_field)
  then "signup"
  else if has_address_field || has_payment_field then "checkout"
  else if has_search_field && (10 <? element_count)%nat then "search"
  else if (0 <? form_count)%nat && (2 <=? input_count)%nat then "form_page"
  else if (10 <? link_count)%nat && (20 <? element_count)%nat
  then "content_page"
  else if (5 <=? element_count)%nat && (3 <=? link_count)%nat
          && (2 <=? button_count)%nat
  then "main_page"
  else if (element_count <? 5)%nat then "simple_page"
  else "unknown".

Definition action_keywords : list (string * list string) :=
  [ ("login", ["login"; "sign in"; "signin"; "authenticate"]);
    ("signup", ["signup"; "sign up"; "register"; "create account"; "join"]);
    ("email", ["email"; "enter email"; "type email"; "fill email"]);
    ("password", ["password"; "enter password"; "type password"]);
    ("search", ["search"; "find"; "query"]);
    ("checkout", ["checkout"; "purchase"; "pay"; "submit order"]);
    ("profile", ["profile"; "account"; "settings"]);
    ("navigate", ["go to"; "navigate to"; "visit"]) ].

(** [None] for the action that has no page pattern ([navigate]). *)
Definition action_to_page_patterns : list (string * option (list string)) :=
  [ ("login", Some ["login"; "auth_page"]);
    ("signup", Some ["signup"; "auth_page"; "registration"]);
    ("email", Some ["login"; "signup"; "checkout"; "profile"; "form_page"]);
    ("password", Some ["login"; "signup"; "auth_page"]);
    ("search", Some ["search"; "main_page"; "content_page"]);
    ("checkout", Some ["checkout"; "commerce_page"]);
    ("profile", Some ["profile"; "dashboard"]);
    ("navigate", None) ].

Definition step_actions_of (step_lower : string) : list string :=
  map fst (filter (fun '(_, keywords) => Py.any_in keywords step_lower = true)
             action_keywords).

Definition expected_pages_of (step_actions : list string) : gset string :=
  list_to_set
    (flat_map (fun action =>
                 match ErrorDetector.lookup_str action action_to_page_patterns with
                 | Some (Some page_patterns) => page_patterns
                 | _ => []
                 end) step_actions).

(** The reason returned with the verdict, by the message it formats. *)
Inductive Reason :=
| NavigationAnyPage                         (* Navigation action can be performed from any page *)
| OnCorrectPage (step_actions : list string) (inferred_page : string)
| FoundRequiredElements (present : list string)
| FormPageDetected                          (* Form page detected, can enter email *)
| CommercePageDetected                      (* Commerce page detected, can checkout *)
| InputForSearch                            (* Page has input elements for search *)
| PageMismatch (step_actions : list string) (expected_pages : gset string)
    (inferred_page : string).

Definition str_in (x : string) (l : list string) : bool :=
  existsb (String.eqb x) l.

Definition validate_against_todo_step (self : PageContextAnalyzer)
  (current_step_text : string) : bool * Reason :=
  let step_lower := Py.lower current_step_text in
  let inferred_page := infer_current_page self in
  let key_elements : gset string :=
    match dom_elements self with Some d => visible_text_elements d | None => ∅ end in
  let element_types :=
    match dom_elements self with Some d => element_types d | None => ∅ end in
  let step_actions := step_actions_of step_lower in
  let expected_pages := expected_pages_of step_actions in
  if str_in "navigate" step_actions && (length step_actions =? 1)%nat
  then (true, NavigationAnyPage)
  else if negb (bool_decide (expected_pages = ∅))
          && bool_decide (inferred_page ∈ expected_pages)
  then (true, OnCorrectPage step_actions inferred_page)
  else
    let element_availability :=
      [ ("email", bool_decide ("email_field" ∈ key_elements));
        ("password", bool_decide ("password_field" ∈ key_elements));
        ("search", bool_decide ("search" ∈ key_elements));
        ("address", bool_decide ("address_field" ∈ key_elements));
        ("payment", bool_decide ("payment_field" ∈ key_elements));
        ("username", bool_decide ("username" ∈ key_elements)) ] in
    let required_elements_present :=
      filter (fun action =>
                ErrorDetector.lookup_str action element_availability = Some true)
             step_actions in
    match required_elements_present with
    | _ :: _ => (true, FoundRequiredElements required_elements_present)
    | [] =>
        let count k := default 0%nat (element_types !! k) in
        if str_in "email" step_actions && (0 <? count "form")%nat
        then (true, FormPageDetected)
        else if str_in "checkout" step_actions
                && ((0 <? count "payment")%nat || (1 <? count "form")%nat)
        then (true, CommercePageDetected)
        else if str_in "search" step_actions && (0 <? count "input")%nat
        then (true, InputForSearch)
        else (false, PageMismatch step_actions expected_pages inferred_page)
    end.

Definition action_to_page : list (string * string) :=
  [ ("login", "login"); ("signin", "login"); ("sign in", "login");
    ("signup", "signup"); ("register", "signup"); ("search", "search");
    ("checkout", "checkout"); ("purchase", "checkout"); ("profile", "profile") ].

Definition target_page_of (step_lower : string) : option string :=
  snd <$> List.find (fun '(action_keyword, _) => Py.contains action_keyword step_lower)
            action_to_page.

(** [last_action] is the optional second argument. *)
Definition suggest_recovery (self : PageContextAnalyzer) (current_step : string)
  (last_action : option string) : option string :=
  let '(is_valid, _) := validate_against_todo_step self current_step in
  if is_valid then None
  else
    let current_page := infer_current_page self in
    let step_lower := Py.lower current_step in
    match target_page_of step_lower with
    | Some target_page =>
        if String.eqb current_page target_page then None
        else if String.eqb target_page "login"
                && str_in current_page ["home"; "main_page"; "signup"]
        then Some "Navigate back to login page (look for 'login', 'sign in', or '/login' in navigation)"
        else if String.eqb target_page "signup"
                && str_in current_page ["home"; "main_page"; "login"]
        then Some "Navigate to signup page (look for 'sign up', 'register', or '/signup' in navigation)"
        else if String.eqb target_page "search"
                && str_in current_page ["home"; "main_page"; "dashboard"]
        then Some "Navigate to or open search (look for search box or '/search' page)"
        else if String.eqb target_page "checkout"
                && str_in current_page ["main_page"; "home"; "content_page"]
        then Some "Navigate to checkout (look for cart or checkout button)"
        else if String.eqb target_page "profile"
                && str_in current_page ["dashboard"; "main_page"]
        then Some "Navigate to profile page (look for profile link in menu or settings)"
        else Some ("Navigate from '" +:+ current_page +:+ "' to '"
                   +:+ target_page +:+ "' page")
    | None =>
        if match last_action with
           | Some la => Py.truthy_str la && Py.contains "click" (Py.lower la)
                        && str_in current_page ["unknown"; "simple_page"]
           | None => false
           end
        then Some "Last click may have failed or navigated unexpectedly. Try clicking the target element again or navigate back."
        else if String.eqb current_page "unknown"
        then Some "Cannot determine current page. Try navigating to the home page or starting fresh."
        else Some ("Currently on '" +:+ current_page +:+ "' page. For action '"
                   +:+ Py.take 50 step_lower
                   +:+ "...', may need to navigate to appropriate page.")
    end.

End WithUrlparse.

(** A reading of [urlparse(url).path] for URLs of the form
    [scheme://host/path?query#fragment], used in the examples. *)
Definition up_to (stops : list ascii) (s : string) : string :=
  (fix go s :=
     match s with
     | EmptyString => EmptyString
     | String c s' => if existsb (Ascii.eqb c) stops then EmptyString
                      else String c (go s')
     end) s.

Definition simple_urlparse_path (url : string) : option string :=
  let rest :=
    match find "://" url with
    | Some i =>
        let after := Re.drop (i + 3) url in
        Re.drop (String.length (up_to ["/"%char; "?"%char; "#"%char] after)) after
    | None => url
    end in
  Some (up_to ["?"%char; "#"%char; ";"%char] rest).

End PageContext.

(** ** The workflow state and its routers (qa_agent/workflow.py) *)

Module Workflow.

(** A normalized tool-call action: [action_type] and, of [params], the
    keys that the nodes read. *)
Record Action := {
  action_type : option string;
  params_index : option Z;
  params_element_index : option Z }.

(** A history entry: [node], [actions] and [verification_status]; the
    other keys of an entry are not read by the modelled code. *)
Record HistoryEntry := {
  step : option Z;
  node : option string;
  entry_actions : option (list Action);
  verification_status : option string }.

(** [page_validation_info] *)
Record PageValidation := {
  is_valid : bool;
  inferred_page : string;
  recovery_suggestion : option string }.

(** [act_feedback] *)
Record ActFeedback := {
  fb_success : bool;
  fb_error : option string;
  fb_page_validation : option PageValidation;
  fb_detected_errors : list ErrorDetector.ExtractedError }.

(** [action_context] *)
Record ActionContext := {
  ctx_action_type : string;
  ctx_action_index : option Z;
  new_elements_count : nat;
  likely_pattern : string }.

(** The values stored in the state: under each key, a value of the kind
    that the code stores there, or [None].  [VOpaque] is a value that
    the modelled code stores but does not look into. *)
Inductive value :=
| VNone
| VBool (b : bool)
| VInt (n : Z)
| VStr (s : string)
| VActions (l : list Action)
| VResults (l : list ErrorDetector.ActionResult)
| VHistory (l : list HistoryEntry)
| VIds (s : gset Z)
| VPageValidation (p : PageValidation)
| VFeedback (f : ActFeedback)
| VContext (c : ActionContext)
| VOpaque.

(** [QAAgentState], and the partial state that a node returns. *)
Abbreviation State := (gmap string value).

(** [state.get(k)] and [state.get(k, d)] *)
Definition get (state : State) (k : string) : value := default VNone (state !! k).
Definition getd (state : State) (k : string) (d : value) : value :=
  default d (state !! k).

(** Truth value of a stored value. *)
Definition truthy (v : value) : bool :=
  match v with
  | VNone => false
  | VBool b => b
  | VInt n => negb (n =? 0)%Z
  | VStr s => Py.truthy_str s
  | VActions l => negb (Nat.eqb (length l) 0)
  | VResults l => negb (Nat.eqb (length l) 0)
  | VHistory l => negb (Nat.eqb (length l) 0)
  | VIds s => negb (bool_decide (s = ∅))
  | VPageValidation _ | VFeedback _ | VContext _ | VOpaque => true
  end.

(** A value used as a number, in a comparison, a sum or [int(...)]: an
    [int] or a [bool]; on [None] and on the other values the operation
    raises, which is [None] here.  (The keys read this way are declared
    as numbers and booleans; a string under them is outside the model.) *)
Definition as_int (v : value) : option Z :=
  match v with
  | VInt n => Some n
  | VBool b => Some (Py.int_of_bool b)
  | _ => None
  end.

(** A value iterated as a history list. *)
Definition as_history (v : value) : option (list HistoryEntry) :=
  match v with VHistory l => Some l | _ => None end.

(** A value used as [if v: for entry in reversed(v)]: a false value is
    not iterated. *)
Definition as_history_if_any (v : value) : option (list HistoryEntry) :=
  match v with
  | VHistory l => Some l
  | _ => if truthy v then None else Some []
  end.

(** [v == s] for a string literal [s]. *)
Definition is_str (v : value) (s : string) : bool :=
  match v with VStr x => String.eqb x s | _ => false end.

(** Modelled from the spec: the reducer of [history] declared in
    [state.py], which is not among the sources; the spec has the history
    as an append-only log, and the nodes return a one-entry list marked
    [# Reducer: accumulate].  The graph merges the keys that a node
    returns into the state: a returned key replaces the stored value,
    and a returned [history] is appended to the stored one. *)
Definition apply_update (state update : State) : State :=
  match update !! "history" with
  | Some (VHistory new) =>
      match as_history (getd state "history" (VHistory [])) with
      | Some old => <["history" := VHistory (old ++ new)]> (update ∪ state)
      | None => update ∪ state
      end
  | _ => update ∪ state
  end.

Inductive Route := Continue | Retry | Done | Replan.

(** The length of the trailing run of failed [verify] entries; the list
    is the history from the most recent entry backward. *)
Fixpoint trailing_verify_failures (reversed_history : list HistoryEntry) : Z :=
  match reversed_history with
  | [] => 0
  | entry :: rest =>
      if bool_decide (node entry = Some "verify")
      then if bool_decide (verification_status entry = Some "fail")
           then 1 + trailing_verify_failures rest
           else 0
      else trailing_verify_failures rest
  end.

Section Routers.

(** [settings] of the configuration module. *)
Variable settings_max_steps : Z.
Variable settings_max_retries : Z.

(** The failure-exhaustion test of both routers; [None] when the
    comparison raises. *)
Definition failures_exhausted (state : State) : option bool :=
  consecutive_failures ← as_int (getd state "consecutive_failures" (VInt 0));
  max_failures ← as_int (getd state "max_failures" (VInt 3));
  final_response_after_failure ←
    as_int (getd state "final_response_after_failure" (VBool true));
  Some (max_failures + final_response_after_failure <=? consecutive_failures)%Z.

Definition steps_exhausted (state : State) : option bool :=
  step_count ← as_int (getd state "step_count" (VInt 0));
  max_steps ← as_int (getd state "max_steps" (VInt settings_max_steps));
  Some (max_steps <=? step_count)%Z.

(** The body of the [try] of [should_continue]; [None] when it raises. *)
Definition should_continue_try (state : State) : option Route :=
  if truthy (get state "completed") then Some Done
  else if truthy (get state "error") then Some Done
  else
    exhausted ← failures_exhausted state;
    if (exhausted : bool) then Some Done
    else
      out_of_steps ← steps_exhausted state;
      if (out_of_steps : bool) then Some Done
      else
        let verification_status := get state "verification_status" in
        if is_str verification_status "pass" then Some Continue
        else if is_str verification_status "fail"
        then
          history ← as_history (getd state "history" (VHistory []));
          let consecutive_failures := trailing_verify_failures (rev history) in
          if (consecutive_failures <? settings_max_retries)%Z
          then Some Retry else Some Done
        else Some Continue.

(** [except Exception: return "done"] *)
Definition should_continue (state : State) : Route :=
  default Done (should_continue_try state).

Definition should_continue_after_think_try (state : State) : option Route :=
  if truthy (get state "completed") then Some Done
  else if truthy (get state "error") then Some Done
  else
    exhausted ← failures_exhausted state;
    if (exhausted : bool) then Some Done
    else
      out_of_steps ← steps_exhausted state;
      if (out_of_steps : bool) then Some Done
      else if truthy (get state "think_output") then Some Continue
      else Some Done.

Definition should_continue_after_think (state : State) : Route :=
  default Done (should_continue_after_think_try state).

End Routers.

(** *** The end of [think_node] (web_agent/nodes/think.py)

    From the point where the tool calls of the LLM are parsed into
    [actions]: the [done] action, the new history entry, the
    action-repetition guard and the returned state.  (The shortcut that
    answers a request for the page title and URL without acting is left
    out.)  An action is a dict with its keys present, hence true as a
    condition. *)

(** [str(n)] *)
Definition str_of_Z (n : Z) : string :=
  NilZero.string_of_int (Z.to_int n).

Definition str_of_ostr (s : option string) : string := default "None" s.
Definition str_of_oZ (n : option Z) : string :=
  match n with Some n => str_of_Z n | None => "None" end.

(** The first action of the most recent [think] entry that has actions. *)
Fixpoint previous_action_of (reversed_history : list HistoryEntry)
  : option Action :=
  match reversed_history with
  | [] => None
  | entry :: rest =>
      if bool_decide (node entry = Some "think")
         && negb (Nat.eqb (length (default [] (entry_actions entry))) 0)
      then head (default [] (entry_actions entry))
      else previous_action_of rest
  end.

Definition is_done (a : Action) : bool :=
  bool_decide (action_type a = Some "done").

(** The keys that [think_node] returns with values computed before the
    modelled part. *)
Definition think_opaque_keys : list (string * value) :=
  [ ("browser_state_summary", VOpaque); ("dom_selector_map", VOpaque);
    ("current_goal", VOpaque); ("previous_url", VOpaque);
    ("previous_element_count", VOpaque); ("completed_goals", VOpaque);
    ("current_goal_index", VOpaque); ("thoughts", VOpaque);
    ("file_system_state", VOpaque) ].

(** The body of the [try], from the parsed [actions] on; [None] when it
    raises. *)
Definition think_node_try (state : State) (step_count : Z)
  (actions : list Action) : option State :=
  if existsb is_done actions
  then Some (list_to_map
               [ ("step_count", VInt step_count); ("actions", VActions actions);
                 ("completed", VBool true);
                 ("browser_state_summary", VOpaque); ("dom_selector_map", VOpaque);
                 ("previous_url", VOpaque); ("previous_element_count", VOpaque);
                 ("history",
                   VHistory [ {| step := Some step_count; node := Some "think";
                                 entry_actions := Some actions;
                                 verification_status := None |} ]);
                 ("current_goal", VOpaque) ])
  else
    existing_history ← as_history_if_any (getd state "history" (VHistory []));
    let new_history_entry :=
      {| step := Some step_count; node := Some "think";
         entry_actions := Some actions; verification_status := None |} in
    let previous_action := previous_action_of (rev existing_history) in
    let current_action := head actions in
    let continue_with (action_repetition_count : Z) : State :=
      list_to_map
        ([ ("step_count", VInt step_count); ("actions", VActions actions);
           ("history", VHistory [new_history_entry]);
           ("action_repetition_count", VInt action_repetition_count) ]
         ++ think_opaque_keys) in
    match previous_action, current_action with
    | Some previous_action, Some current_action =>
        let prev_type := action_type previous_action in
        let curr_type := action_type current_action in
        let prev_index := params_index previous_action in
        let curr_index := params_index current_action in
        if bool_decide (prev_type = curr_type)
           && bool_decide (is_Some prev_index)
           && bool_decide (prev_index = curr_index)
        then
          n ← as_int (getd state "action_repetition_count" (VInt 0));
          let action_repetition_count := n + 1 in
          if (3 <=? action_repetition_count)%Z
          then Some (list_to_map
                       [ ("error",
                           VStr ("Action '" +:+ str_of_ostr curr_type
                                 +:+ "' on index " +:+ str_of_oZ curr_index
                                 +:+ " repeated " +:+ str_of_Z action_repetition_count
                                 +:+ " times without success"));
                         ("completed", VBool true);
                         ("step_count", VInt step_count) ])
          else Some (continue_with action_repetition_count)
        else Some (continue_with 0)
    | _, _ => Some (continue_with 0)
    end.

(** [except Exception as e]; the message of the exception is not
    modelled. *)
Definition think_node_end (state : State) (step_count : Z)
  (actions : list Action) : State :=
  default
    (list_to_map
       [ ("error", VStr "Think node error");
         ("step_count", getd state "step_count" (VInt 0));
         ("actions", VActions []) ])
    (think_node_try state step_count actions).

(** One pass through [think_node] whose LLM call yields [actions]:
    [step_count] is the stored count plus one. *)
Definition think_node (state : State) (actions : list Action) : State :=
  match as_int (getd state "step_count" (VInt 0)) with
  | Some n => think_node_end state (n + 1) actions
  | None =>
      list_to_map
        [ ("error", VStr "Think node error");
          ("step_count", getd state "step_count" (VInt 0));
          ("actions", VActions []) ]
  end.

(** *** The tool calls that [think_node] reads (web_agent/nodes/think.py) *)

(** The [args] of a tool call, as far as the nodes read the params. *)
Record Args := { arg_index : option Z; arg_element_index : option Z }.

(** A tool call of the LLM response, a dict or an object: its [name]
    and its [args]; [tc_args] is [None] when [args] is missing, false or
    not a dict. *)
Record ToolCall := { tc_name : option string; tc_args : option Args }.

(** The empty dict [{}]: every key is missing. *)
Definition no_action : Action :=
  {| action_type := None; params_index := None; params_element_index := None |}.

(** [_tool_call_to_action]; the argument is [None] for [None]. *)
Definition _tool_call_to_action (tool_call : option ToolCall) : Action :=
  match tool_call with
  | None => no_action
  | Some tool_call =>
      let name := tc_name tool_call in
      let args :=
        default {| arg_index := None; arg_element_index := None |}
          (tc_args tool_call) in
      if negb (Py.truthy_ostr name) then no_action
      else {| action_type := name;
              params_index := arg_index args;
              params_element_index := arg_element_index args |}
  end.

(** The [done] action that stands for an answer without tool calls. *)
Definition done_action : Action :=
  {| action_type := Some "done"; params_index := None;
     params_element_index := None |}.

(** The actions that [think_node] reads off the response: the normalized
    tool calls that have an action type or, when there is none and the
    response has content, one [done] action. *)
Definition actions_of_response (raw_tool_calls : list (option ToolCall))
  (assistant_content : option string) : list Action :=
  let actions :=
    List.filter (fun normalized => Py.truthy_ostr (action_type normalized))
      (map _tool_call_to_action raw_tool_calls) in
  if Nat.eqb (length actions) 0 && Py.truthy_ostr assistant_content
  then [done_action] else actions.

(** *** The ACT node (web_agent/nodes/act.py) *)

Definition TOOL_NAMES : list string :=
  [ "navigate"; "search"; "go_back"; "wait"; "click"; "input_text";
    "select_dropdown"; "toggle_checkbox"; "extract_content"; "find_text";
    "screenshot"; "scroll"; "switch_tab"; "close_tab"; "upload_file";
    "write_file"; "read_file"; "send_keys"; "evaluate_javascript"; "done" ].
Definition PAGE_CHANGING_ACTIONS : list string :=
  [ "navigate"; "switch"; "switch_tab"; "go_back" ].
Definition DOM_CHANGING_ACTIONS : list string :=
  [ "click"; "input_text"; "scroll"; "toggle_checkbox"; "select_dropdown" ].

(** The [ActionResult] object that a tool returns. *)
Record ToolResult := {
  tr_error : option string;
  tr_extracted_content : option string;
  tr_long_term_memory : option string }.

(** What the browser session answers during one run of [act_node]. *)
Record ActEnv := {
  (** [get_session] finds the session *)
  session_found : bool;
  (** the keys of the selector map before the actions; [None] when
      reading the state raises *)
  ids_before : option (gset Z);
  (** [tool.ainvoke(params)] for the [i]-th action: an exception or a
      result *)
  ainvoke : nat -> Action -> string + ToolResult;
  (** [final_element_ids] of [detect_dom_changes_adaptively] *)
  detected_ids : gset Z;
  (** the keys of the selector map of the fresh state; [None] when
      fetching it raises *)
  fresh_ids : option (gset Z) }.

(** A stored value used as the previous identifier set: a set, or a false
    value, on which only truth tests are made, and which then acts as the
    empty set; on anything else the set difference raises. *)
Definition as_ids (v : value) : option (gset Z) :=
  match v with
  | VIds s => Some s
  | _ => if truthy v then None else Some ∅
  end.

Definition failed_result (msg : string) : ErrorDetector.ActionResult :=
  {| ErrorDetector.success := Some false;
     ErrorDetector.error := Some msg;
     ErrorDetector.long_term_memory := None;
     ErrorDetector.extracted_content := None |}.

(** The loop over the actions: [(executed_actions, action_results)]. *)
Fixpoint execute_actions (env : ActEnv) (i : nat) (actions : list Action)
  : list Action * list ErrorDetector.ActionResult :=
  match actions with
  | [] => ([], [])
  | action :: rest =>
      let '(executed, results) := execute_actions env (S i) rest in
      match action_type action with
      | None => (executed, results)
      | Some ty =>
          if negb (Py.truthy_str ty) then (executed, results)
          else if negb (PageContext.str_in ty TOOL_NAMES)
          then (executed, failed_result ("Unknown action: " +:+ ty) :: results)
          else
            match ainvoke env i action with
            | inl e => (executed, failed_result e :: results)
            | inr result =>
                (action :: executed,
                 {| ErrorDetector.success :=
                      Some (bool_decide (tr_error result = None));
                    ErrorDetector.error := tr_error result;
                    ErrorDetector.long_term_memory := tr_long_term_memory result;
                    ErrorDetector.extracted_content := tr_extracted_content result |}
                 :: results)
            end
      end
  end.

Definition has_action_in (types : list string) (executed : list Action) : bool :=
  existsb (fun a => match action_type a with
                    | Some ty => PageContext.str_in ty types
                    | None => false
                    end) executed.

(** [a or b] on optional integers: [None] and [0] are false. *)
Definition or_index (a b : option Z) : option Z :=
  match a with
  | Some n => if (n =? 0)%Z then b else a
  | None => b
  end.

Definition likely_pattern_of (n : nat) : string :=
  if (15 <? n)%nat then "modal_or_form_opened"
  else if (5 <? n)%nat then "dropdown_or_menu_opened"
  else if (0 <? n)%nat then "suggestions_or_details_appeared"
  else "no_new_elements".

(** [new_element_ids] as it stands when the action context is built. *)
Definition new_element_ids_of (has_dom_changing_action : bool)
  (previous_element_ids detected current_element_ids : gset Z) : gset Z :=
  let nonempty (s : gset Z) := negb (bool_decide (s = ∅)) in
  let new_element_ids :=
    if has_dom_changing_action && nonempty previous_element_ids
    then detected ∖ previous_element_ids
    else ∅ in
  if negb (nonempty new_element_ids) && nonempty previous_element_ids
  then current_element_ids ∖ previous_element_ids
  else new_element_ids.

Definition action_context_of (executed_actions : list Action)
  (new_element_ids : gset Z) : option ActionContext :=
  match last executed_actions with
  | None => None
  | Some last_action =>
      Some {| ctx_action_type := default "unknown" (action_type last_action);
              ctx_action_index :=
                or_index (params_index last_action)
                         (params_element_index last_action);
              new_elements_count := size new_element_ids;
              likely_pattern := likely_pattern_of (size new_element_ids) |}
  end.

Definition value_of_context (c : option ActionContext) : value :=
  match c with Some c => VContext c | None => VNone end.

(** The keys of the returned state whose values the model does not
    compute. *)
Definition act_opaque_keys : list (string * value) :=
  [ ("tab_count", VOpaque); ("previous_tabs", VOpaque); ("new_tab_id", VOpaque);
    ("new_tab_url", VOpaque); ("page_changed", VOpaque); ("current_url", VOpaque);
    ("browser_state_summary", VOpaque); ("dom_selector_map", VOpaque);
    ("previous_url", VOpaque); ("previous_element_count", VOpaque) ].

(** [act_node]; [None] when an exception leaves the function.  The keys
    [just_switched_tab], [tab_switch_url] and [tab_switch_title], set
    after a tab switch, are left out. *)
Definition act_node (env : ActEnv) (state : State) : option State :=
  if negb (truthy (get state "browser_session_id"))
  then Some (list_to_map
               [ ("error", VStr "No browser session ID - INIT node must run first");
                 ("executed_actions", VActions []); ("action_results", VResults []) ])
  else if negb (session_found env)
  then Some (list_to_map
               [ ("error", VStr "Browser session not found");
                 ("executed_actions", VActions []); ("action_results", VResults []) ])
  else
    let actions := getd state "actions" (VActions []) in
    if negb (truthy actions)
    then Some (list_to_map
                 [ ("executed_actions", VActions []);
                   ("action_results", VResults []) ])
    else
      match actions with
      | VActions actions =>
          previous_element_ids ←
            match ids_before env with
            | Some ids => Some ids
            | None => as_ids (getd state "previous_element_ids" (VIds ∅))
            end;
          let '(executed_actions, action_results) :=
            execute_actions env 1 actions in
          let has_dom_changing_action :=
            has_action_in DOM_CHANGING_ACTIONS executed_actions in
          current_element_ids ← fresh_ids env;
          let new_element_ids :=
            new_element_ids_of has_dom_changing_action previous_element_ids
              (detected_ids env) current_element_ids in
          let action_context := action_context_of executed_actions new_element_ids in
          existing_history ← as_history (getd state "history" (VHistory []));
          let new_history_entry :=
            {| step := as_int (getd state "step_count" (VInt 0));
               node := Some "act"; entry_actions := None;
               verification_status := None |} in
          Some (list_to_map
                  ([ ("executed_actions", VActions executed_actions);
                     ("action_results", VResults action_results);
                     ("actions", VActions []);
                     ("history", VHistory (existing_history ++ [new_history_entry]));
                     ("fresh_state_available", VBool true);
                     ("previous_element_ids", VIds current_element_ids);
                     ("action_context", value_of_context action_context);
                     ("new_element_ids", VIds new_element_ids) ]
                   ++ act_opaque_keys))
      | _ => None
      end.

(** *** The ACT wrapper (web_agent/nodes/act_wrapper.py) *)

Section ActWrapper.

Variable urlparse_path : string -> option string.

Definition NAVIGATION_HINTS : list string :=
  [ "navigate to"; "go to"; "visit"; "http"; "https://" ].
Definition EMPTY_TODO : string := "[empty todo.md, fill it when applicable]".

(** [validate_page_context]; [todo_contents] is what
    [file_system.get_todo_contents()] returns, [None] when it raises. *)
Definition validate_page_context
  (browser_state : option PageContext.BrowserStateSummary)
  (todo_contents : option string) : PageValidation :=
  let skip := {| is_valid := true; inferred_page := "unknown";
                 recovery_suggestion := None |} in
  match todo_contents with
  | None => skip
  | Some todo_contents =>
      if negb (Py.truthy_str todo_contents)
         || String.eqb (Py.strip todo_contents) EMPTY_TODO
      then skip
      else
        match TodoParser.current_step (TodoParser.get_todo_progress todo_contents) with
        | None => skip
        | Some current_step =>
            let current_step_text := TodoParser.text current_step in
            let step_lower := Py.lower current_step_text in
            if Py.any_in NAVIGATION_HINTS step_lower then skip
            else
              let analyzer := PageContext.init browser_state in
              let inferred_page :=
                PageContext.infer_current_page urlparse_path analyzer in
              let '(valid, _) :=
                PageContext.validate_against_todo_step urlparse_path analyzer
                  current_step_text in
              if negb valid
              then {| is_valid := false; inferred_page := inferred_page;
                      recovery_suggestion :=
                        PageContext.suggest_recovery urlparse_path analyzer
                          current_step_text None |}
              else {| is_valid := true; inferred_page := inferred_page;
                      recovery_suggestion := None |}
        end
  end.

(** What the outside answers during one run of [act_wrapper_node]. *)
Record WrapperEnv := {
  (** [get_session]: the session, with its console watchdog *)
  w_session : option ErrorDetector.BrowserSession;
  (** the fresh browser state: its summary and its [dom]; [None] when
      fetching it raises *)
  w_browser_state :
    option (PageContext.BrowserStateSummary * ErrorDetector.BrowserState);
  w_todo_contents : option string;
  (** the actions that [generate_actions_from_think] returns *)
  w_planned_actions : list Action;
  (** the run of the original [act_node] *)
  w_act_env : ActEnv }.

Definition severity_rank (severity : string) : nat :=
  if String.eqb severity "high" then 0
  else if String.eqb severity "medium" then 1
  else if String.eqb severity "low" then 2 else 3.

Fixpoint insert_by_rank (e : ErrorDetector.ExtractedError)
  (l : list ErrorDetector.ExtractedError) : list ErrorDetector.ExtractedError :=
  match l with
  | [] => [e]
  | x :: l' =>
      if (severity_rank (ErrorDetector.severity e)
          <=? severity_rank (ErrorDetector.severity x))%nat
      then e :: l else x :: insert_by_rank e l'
  end.

(** [detected_errors.sort(key=severity_order)]: a stable sort. *)
Definition sort_by_severity (l : list ErrorDetector.ExtractedError)
  : list ErrorDetector.ExtractedError :=
  fold_right insert_by_rank [] l.

Definition upper_ascii (s : string) : string :=
  (fix go s :=
     match s with
     | EmptyString => EmptyString
     | String c s' =>
         let n := nat_of_ascii c in
         String (if (97 <=? n)%nat && (n <=? 122)%nat
                 then ascii_of_nat (n - 32) else c) (go s')
     end) s.

(** [all(r.get("success", False) for r in action_results)
     if action_results else len(executed_actions) > 0] *)
Definition all_succeeded_of (executed_actions : list Action)
  (action_results : list ErrorDetector.ActionResult) : bool :=
  match action_results with
  | [] => negb (Nat.eqb (length executed_actions) 0)
  | _ => forallb (fun r => default false (ErrorDetector.success r)) action_results
  end.

Definition as_actions (v : value) : option (list Action) :=
  match v with VActions l => Some l | _ => None end.
Definition as_results (v : value) : option (list ErrorDetector.ActionResult) :=
  match v with VResults l => Some l | _ => None end.

Definition wrapper_except : State :=
  list_to_map
    [ ("executed_actions", VActions []); ("action_results", VResults []);
      ("act_feedback",
        VFeedback {| fb_success := false; fb_error := Some "str(e)";
                     fb_page_validation :=
                       Some {| is_valid := false; inferred_page := "unknown";
                               recovery_suggestion :=
                                 Some "ACT wrapper encountered an error. Please check logs." |};
                     fb_detected_errors := [] |});
      ("act_error_context", VStr "str(e)");
      ("last_act_result_success", VBool false);
      ("error", VStr "str(e)") ].

(** The body of the [try]; [None] when it raises. *)
Definition act_wrapper_try (env : WrapperEnv) (state : State) : option State :=
  if negb (truthy (get state "browser_session_id")) then None
  else
    browser_session ← w_session env;
    '(summary, browser_state) ← w_browser_state env;
    let page_validation_info :=
      validate_page_context (Some summary) (w_todo_contents env) in
    if negb (is_valid page_validation_info)
       && Py.truthy_ostr (recovery_suggestion page_validation_info)
    then
      let recovery := default EmptyString (recovery_suggestion page_validation_info) in
      Some (list_to_map
              [ ("executed_actions", VActions []); ("action_results", VResults []);
                ("act_feedback",
                  VFeedback {| fb_success := false;
                               fb_error := Some ("Page mismatch: " +:+ recovery);
                               fb_page_validation := Some page_validation_info;
                               fb_detected_errors := [] |});
                ("act_error_context", VStr recovery);
                ("last_act_result_success", VBool false);
                ("page_validation", VPageValidation page_validation_info) ])
    else if Nat.eqb (length (w_planned_actions env)) 0
    then
      Some (list_to_map
              [ ("executed_actions", VActions []); ("action_results", VResults []);
                ("act_feedback",
                  VFeedback {| fb_success := false;
                               fb_error := Some "No actions generated";
                               fb_page_validation := None;
                               fb_detected_errors := [] |});
                ("act_error_context",
                  VStr "LLM could not generate actions from THINK decision");
                ("last_act_result_success", VBool false) ])
    else
      let state_with_actions :=
        <["planned_actions" := VActions (w_planned_actions env)]> state in
      result ← act_node (w_act_env env) state_with_actions;
      executed_actions ← as_actions (getd result "executed_actions" (VActions []));
      action_results ← as_results (getd result "action_results" (VResults []));
      let all_succeeded := all_succeeded_of executed_actions action_results in
      let error_context : option string :=
        if negb all_succeeded
        then head (omap (fun r =>
                           match ErrorDetector.error r with
                           | Some e => if Py.truthy_str e then Some e else None
                           | None => None
                           end) action_results)
        else None in
      let dom_errors :=
        ErrorDetector.extract_errors_from_dom browser_state (Some browser_session) in
      let detected_errors :=
        sort_by_severity
          (dom_errors
           ++ flat_map ErrorDetector.extract_errors_from_action_result action_results) in
      let error_context :=
        match detected_errors with
        | [] => error_context
        | primary_error :: _ =>
            Some ("[" +:+ upper_ascii (ErrorDetector.error_type primary_error) +:+ "] "
                  +:+ ErrorDetector.message primary_error
                  +:+ match ErrorDetector.recovery_hint primary_error with
                      | Some hint =>
                          (* the arrow of the source is written [->] here *)
                          if Py.truthy_str hint then " -> Recovery: " +:+ hint
                          else EmptyString
                      | None => EmptyString
                      end)
        end in
      Some (list_to_map
              [ ("executed_actions", VActions executed_actions);
                ("action_results", VResults action_results);
                ("act_feedback",
                  VFeedback {| fb_success := all_succeeded; fb_error := None;
                               fb_page_validation := Some page_validation_info;
                               fb_detected_errors := detected_errors |});
                ("act_error_context",
                  match error_context with Some e => VStr e | None => VNone end);
                ("last_act_result_success", VBool all_succeeded);
                ("file_system_state", VOpaque);
                ("page_validation", VPageValidation page_validation_info);
                ("inferred_page", VStr (inferred_page page_validation_info));
                ("think_retries", VInt 0);
                ("history", getd result "history" (VHistory [])) ]).

(** [except Exception as e]; the text of the exception is not modelled
    and stands as ["str(e)"] in [wrapper_except]. *)
Definition act_wrapper_node (env : WrapperEnv) (state : State) : State :=
  default wrapper_except (act_wrapper_try env state).

End ActWrapper.

(** *** The minimal THINK node (qa_agent/nodes/think.py) *)

Module Minimal.

(** What the outside answers during one run of the node. *)
Record ThinkEnv := {
  (** [get_session] finds the session *)
  t_session_found : bool;
  (** [file_system.get_todo_contents()] *)
  t_todo_contents : option string;
  (** the LLM call: [None] when it raises, otherwise the [next_step] of
      the parsed response, [None] when the response is not valid *)
  t_llm_next_step : option (option string) }.

(** The task as it is formatted into the default todo.  A task that is
    not a string is formatted to one line that cannot open the task
    section; it is read as the empty text, with the same progress. *)
Definition task_text (v : value) : string :=
  match v with VStr s => s | _ => EmptyString end.

Definition default_todo (task : string) : string :=
  "## Goal" +:+ Py.nl_str +:+ task +:+ Py.nl_str +:+ Py.nl_str
  +:+ "## Tasks:" +:+ Py.nl_str +:+ "- [ ] Complete the task" +:+ Py.nl_str.

Definition as_feedback (v : value) : option (option ActFeedback) :=
  match v with
  | VFeedback f => Some (Some f)
  | _ => if truthy v then None else Some None
  end.

Definition think_entry_minimal (step_count : Z) : HistoryEntry :=
  {| step := Some step_count; node := Some "think";
     entry_actions := None; verification_status := None |}.

Definition value_of_ostr (s : option string) : value :=
  match s with Some s => VStr s | None => VNone end.

(** The strategy chosen for the first detected error. *)
Definition recovery_output (e : ErrorDetector.ExtractedError) (think_retries : Z)
  : string :=
  let error_type := ErrorDetector.error_type e in
  let error_msg := ErrorDetector.message e in
  let recovery_hint := ErrorDetector.recovery_hint e in
  let hint_or (d : string) :=
    match recovery_hint with
    | Some h => if Py.truthy_str h then h else d
    | None => d
    end in
  if (3 <? think_retries)%Z
  then "Unable to recover from error: " +:+ error_type +:+ ". "
       +:+ hint_or "Please check the page manually."
  else if String.eqb error_type "already_exists"
  then "The " +:+ Py.take 50 error_msg
       +:+ " Try switching to login with these credentials instead."
  else if String.eqb error_type "permission_denied"
  then "Permission denied. Try logging in with appropriate account or adjust access settings."
  else if String.eqb error_type "invalid_input"
  then "Previous action had validation error: " +:+ Py.take 80 error_msg
       +:+ ". Try with corrected input."
  else if String.eqb error_type "network_error"
  then "Network error detected. Let me retry the action."
  else if String.eqb error_type "server_error"
  then "Server error detected. Let me retry after a moment."
  else hint_or ("Error occurred: " +:+ Py.take 60 error_msg
                +:+ ". Let me try again.").

(** The body of the [try]; [None] when it raises. *)
Definition think_node_try (env : ThinkEnv) (state : State) : option State :=
  n ← as_int (getd state "step_count" (VInt 0));
  let step_count := (n + 1)%Z in
  if negb (truthy (get state "browser_session_id")) then None
  else if negb (t_session_found env) then None
  else
    let task := task_text (getd state "task" (VStr EmptyString)) in
    let todo_contents :=
      match t_todo_contents env with
      | Some t =>
          if negb (Py.truthy_str t) || String.eqb (Py.strip t) EMPTY_TODO
          then default_todo task else t
      | None => default_todo task
      end in
    let progress := TodoParser.get_todo_progress todo_contents in
    match TodoParser.current_step progress with
    | None =>
        Some (list_to_map
                [ ("step_count", VInt step_count);
                  ("think_output", VStr "All todo items completed");
                  ("think_reasoning", VStr "No pending tasks remain");
                  ("completed", VBool true);
                  ("planned_actions", VActions []) ])
    | Some current_step =>
        previous_result ← as_feedback (get state "act_feedback");
        let last_success := getd state "last_act_result_success" (VBool false) in
        let detected_errors :=
          match previous_result with
          | Some f => fb_detected_errors f
          | None => []
          end in
        match detected_errors, truthy last_success with
        | primary_error :: _, false =>
            retries ← as_int (getd state "think_retries" (VInt 0));
            let think_retries := (retries + 1)%Z in
            Some (list_to_map
                    [ ("step_count", VInt step_count);
                      ("think_output",
                        VStr (recovery_output primary_error think_retries));
                      ("think_reasoning", VOpaque);
                      ("file_system_state", VOpaque);
                      ("planned_actions", VActions []);
                      ("history", VHistory [think_entry_minimal step_count]);
                      ("think_retries", VInt think_retries);
                      ("detected_errors", VOpaque);
                      ("completed", VBool false) ])
        | _, _ =>
            let page_validation_info :=
              match previous_result with
              | Some f => fb_page_validation f
              | None => None
              end in
            let plan : option State :=
              match t_llm_next_step env with
              | None => None
              | Some parsed =>
                  let think_output :=
                    match parsed with
                    | Some next_step => next_step
                    | None => "Continue with: " +:+ TodoParser.text current_step
                    end in
                  Some (list_to_map
                          [ ("step_count", VInt step_count);
                            ("think_output", VStr think_output);
                            ("think_reasoning", VOpaque);
                            ("file_system_state", VOpaque);
                            ("planned_actions", VActions []);
                            ("history", VHistory [think_entry_minimal step_count]);
                            ("completed", VBool (TodoParser.all_done progress));
                            ("think_retries", VInt 0) ])
              end in
            match page_validation_info with
            | Some info =>
                if negb (is_valid info)
                then
                  retries ← as_int (getd state "think_retries" (VInt 0));
                  let think_retries := (retries + 1)%Z in
                  if (3 <? think_retries)%Z
                  then plan
                  else
                    Some (list_to_map
                            [ ("step_count", VInt step_count);
                              ("think_output",
                                value_of_ostr (recovery_suggestion info));
                              ("think_reasoning", VOpaque);
                              ("file_system_state", VOpaque);
                              ("planned_actions", VActions []);
                              ("history", VHistory [think_entry_minimal step_count]);
                              ("think_retries", VInt think_retries);
                              ("page_validation", VPageValidation info);
                              ("completed", VBool false) ])
                else plan
            | None => plan
            end
        end
    end.

(** [except Exception as e]: the fallback state; [None] when computing
    it raises in turn.  The text of the exception stands as ["str(e)"]. *)
Definition think_node (env : ThinkEnv) (state : State) : option State :=
  match think_node_try env state with
  | Some update => Some update
  | None =>
      n ← as_int (getd state "step_count" (VInt 0));
      Some (list_to_map
              [ ("step_count", VInt (n + 1));
                ("think_output",
                  VStr "Error in THINK node - proceeding with next step");
                ("error", VStr "str(e)");
                ("planned_actions", VActions []);
                ("history",
                  VHistory [ {| step := Some (n + 1)%Z; node := Some "think";
                                entry_actions := None;
                                verification_status := None |} ]) ])
  end.

End Minimal.

End Workflow.

(** ** The port manager (web_agent/utils/port_manager.py) *)

Module PortManager.

Section WithSocket.

(** [check_port_available(port, host)]: the connection attempt fails;
    [false] also when the attempt raises.  A call of the functions below
    tries each port once. *)
Variable check_port_available : Z -> string -> bool.

(** The loop of [find_available_port] from [port] on, [attempts] times. *)
Fixpoint find_from (port : Z) (attempts : nat) (host : string) : option Z :=
  match attempts with
  | O => None
  | S attempts' =>
      if check_port_available port host then Some port
      else find_from (port + 1) attempts' host
  end.

Definition find_available_port (start_port max_attempts : Z) (host : string)
  : option Z :=
  find_from start_port (Z.to_nat max_attempts) host.

(** [requested_port or default_port] *)
Definition port_or (requested_port : option Z) (default_port : Z) : Z :=
  match requested_port with
  | Some p => if (p =? 0)%Z then default_port else p
  | None => default_port
  end.

(** [get_available_cdp_port]; [None] when it raises [RuntimeError]. *)
Definition get_available_cdp_port (requested_port : option Z)
  (default_port : Z) : option Z :=
  let port := port_or requested_port default_port in
  if check_port_available port "localhost" then Some port
  else
    match find_available_port (port + 1) 10 "localhost" with
    | Some alternative =>
        if (alternative =? 0)%Z then None else Some alternative
    | None => None
    end.

(** [get_available_streaming_port]; [None] when it raises. *)
Definition get_available_streaming_port (requested_port : option Z)
  (default_port : Z) : option Z :=
  let port := port_or requested_port default_port in
  if check_port_available port "localhost" then Some port
  else
    match find_available_port (port + 1) 10 "localhost" with
    | Some alternative =>
        if (alternative =? 0)%Z then None else Some alternative
    | None => None
    end.

End WithSocket.

End PortManager.

(** * The terms of the properties *)

Section RouterTerms.
Import Workflow.

(** What the guards after the failure guard decide. *)
Definition later_guards (settings_max_steps : Z) (state : State) : Route :=
  match steps_exhausted settings_max_steps state with
  | Some false => if truthy (get state "think_output") then Continue else Done
  | _ => Done
  end.

Definition boundary_state : State :=
  list_to_map
    [ ("consecutive_failures", VInt 3); ("max_failures", VInt 3);
      ("final_response_after_failure", VBool true);
      ("step_count", VInt 4); ("max_steps", VInt 50);
      ("think_output", VStr "Click the login button") ].

End RouterTerms.

Section ErrorTerms.
Import ErrorDetector.

Definition KINDS : list string :=
  [ "already_exists"; "permission_denied"; "not_found"; "invalid_input";
    "network_error"; "server_error"; "generic" ].

Definition console_sample : ConsoleWatchdog :=
  {| recent_errors :=
       [ {| msg_text := Some "Email is required" |};
         {| msg_text := Some "Request failed: 500" |} ];
     validation_errors :=
       [ {| msg_text := Some "Email is required" |};
         {| msg_text := Some "Password too short" |};
         {| msg_text := Some "Password too short" |} ] |}.

Definition not_found_page : BrowserState :=
  {| dom :=
       Some {| dom_text := "Page not found";
               clickable_elements := None |} |}.

End ErrorTerms.

Section PageTerms.
Import PageContext.

Definition SIGNALS : gset string :=
  {[ "login"; "submit"; "email_field"; "password_field"; "search" ]}.

Definition checkout_page : BrowserStateSummary :=
  {| url := "https://shop.example.com/checkout";
     title := "Checkout";
     dom_state :=
       Some {| selector_map :=
                 Some [ (1, "<input name=email Type:input}");
                        (2, "<button>Place order Type:button}") ] |} |}.

(** A page that shows an email field and a password field, at a URL
    without a page-type keyword. *)
Definition credentials_page : BrowserStateSummary :=
  {| url := "https://example.com/";
     title := "Welcome";
     dom_state :=
       Some {| selector_map :=
                 Some [ (1, "<input name=email Type:input}");
                        (2, "<input name=password Type:input}") ] |} |}.

End PageTerms.

Section NodeTerms.
Import Workflow.

(** A transition of the THINK/ACT loop: a pass through [think_node] whose
    LLM call yields the given actions, a pass through the minimal
    [think_node], or a pass through [act_wrapper_node], each in the given
    surroundings. *)
Inductive Transition :=
| Think (actions : list Action)
| Plan (env : Minimal.ThinkEnv)
| Act (env : WrapperEnv).

(** An exception that leaves a node ends the run; the state stays as it
    is. *)
Definition loop_step (urlparse_path : string -> option string) (state : State)
  (t : Transition) : State :=
  match t with
  | Think actions => apply_update state (think_node state actions)
  | Plan env =>
      match Minimal.think_node env state with
      | Some update => apply_update state update
      | None => state
      end
  | Act env => apply_update state (act_wrapper_node urlparse_path env state)
  end.

Definition loop_run (urlparse_path : string -> option string)
  (ts : list Transition) (state : State) : State :=
  fold_left (loop_step urlparse_path) ts state.

(** A session without a console watchdog, a page state without a DOM for
    the detector, and an ACT run in which every tool call succeeds. *)
Definition quiet_session : ErrorDetector.BrowserSession :=
  {| ErrorDetector.console_watchdog := None |}.

Definition click7 : Action :=
  {| action_type := Some "click";
     params_index := Some 7;
     params_element_index := None |}.

Definition tools_succeed : ActEnv :=
  {| session_found := true;
     ids_before := Some {[ 7 ]};
     ainvoke := fun _ _ =>
       inr {| tr_error := None;
              tr_extracted_content := Some "Clicked element 7";
              tr_long_term_memory := None |};
     detected_ids := {[ 7 ]};
     fresh_ids := Some {[ 7 ]} |}.

Definition wrapper_env (planned : list Action) : WrapperEnv :=
  {| w_session := Some quiet_session;
     w_browser_state :=
       Some (credentials_page, {| ErrorDetector.dom := None |});
     w_todo_contents := None;
     w_planned_actions := planned;
     w_act_env := tools_succeed |}.

Definition two_failures_state : State :=
  list_to_map
    [ ("browser_session_id", VStr "session-1");
      ("consecutive_failures", VInt 2);
      ("think_output", VStr "Click the login button");
      ("actions", VActions [click7]) ].






(** The delta that [act_node] computes after a DOM-changing action. *)
Definition delta_of (previous detected current : gset Z) : gset Z :=
  if bool_decide (previous = ∅) then ∅
  else if bool_decide (detected ∖ previous = ∅) then current ∖ previous
  else detected ∖ previous.

Definition scroll_down : Action :=
  {| action_type := Some "scroll";
     params_index := None;
     params_element_index := None |}.

(** A click on a page with elements 1 to 3, after which the detector and
    the fresh state both see elements 1 to 5. *)
Definition menu_opens : ActEnv :=
  {| session_found := true;
     ids_before := Some {[ 1; 2; 3 ]};
     ainvoke := fun _ _ =>
       inr {| tr_error := None;
              tr_extracted_content := None;
              tr_long_term_memory := None |};
     detected_ids := {[ 1; 2; 3; 4; 5 ]};
     fresh_ids := Some {[ 1; 2; 3; 4; 5 ]} |}.

Definition acting_state (actions : list Action) : State :=
  list_to_map
    [ ("browser_session_id", VStr "session-1");
      ("actions", VActions actions) ].

Definition menu_update : State :=
  default ∅ (act_node menu_opens (acting_state [click7])).

(** A scroll on a page that had no interactive element: the fresh state
    shows elements 1 and 2, yet the delta is empty and the pattern is
    [no_new_elements]. *)
Definition first_elements_appear : ActEnv :=
  {| session_found := true;
     ids_before := Some ∅;
     ainvoke := fun _ _ =>
       inr {| tr_error := None;
              tr_extracted_content := None;
              tr_long_term_memory := None |};
     detected_ids := {[ 1; 2 ]};
     fresh_ids := Some {[ 1; 2 ]} |}.

End NodeTerms.

Section ChecklistTerms.
Import TodoParser.

Fixpoint no_nl (s : string) : bool :=
  match s with
  | EmptyString => true
  | String c s' => negb (Ascii.eqb c Py.nl) && no_nl s'
  end.

(** The text of a step as the parser returns it: not empty, on one line,
    without space around it. *)
Definition clean_text (t : string) : Prop :=
  t <> EmptyString /\ no_nl t = true /\ Py.strip t = t.

(** The line of an item. *)
Definition item_line (it : bool * string) : string :=
  (if it.1 then "- [x] " else "- [ ] ") +:+ it.2.

(** A checklist: its title, its goal and its items, each item with its
    flag and its text. *)
Record Checklist := {
  title : string;
  goal : string;
  items : list (bool * string) }.

Definition title_line (c : Checklist) : string := "# " +:+ title c.
Definition goal_line (c : Checklist) : string := "## Goal: " +:+ goal c.

(** The text of a checklist, in the format of the todo file. *)
Definition render (c : Checklist) : string :=
  Py.join Py.nl_str
    (title_line c :: goal_line c :: "## Tasks:" :: map item_line (items c)).

(** A valid checklist: title and goal on one line each, and every step
    text clean. *)
Definition valid (c : Checklist) : Prop :=
  no_nl (title c) = true /\ no_nl (goal c) = true
  /\ Forall (fun it => clean_text it.2) (items c).

(** The steps of the items, numbered from [k]. *)
Fixpoint steps_from (items : list (bool * string)) (k : nat) : list Step :=
  match items with
  | [] => []
  | (b, t) :: rest =>
      {| index := k; text := t; completed := b |} :: steps_from rest (S k)
  end.

(** Item [i] marked complete. *)
Definition mark_item (i : nat) (items : list (bool * string))
  : list (bool * string) :=
  alter (fun it => (true, it.2)) i items.

Definition mark (i : nat) (c : Checklist) : Checklist :=
  {| title := title c; goal := goal c; items := mark_item i (items c) |}.

(** The items after the pass of [mark_lines] that numbers them from [k]. *)
Fixpoint mark_from (items : list (bool * string)) (k i : nat)
  : list (bool * string) :=
  match items with
  | [] => []
  | it :: rest =>
      (if Nat.eqb k i then (true, it.2) else it) :: mark_from rest (S k) i
  end.

Definition sample_checklist : Checklist :=
  {| title := "Sign in"; goal := "Reach the dashboard";
     items := [ (true, "step1"); (false, "step2") ] |}.

(** The two pending checkbox lines of scenario A, without and with the
    header of the task section. *)
Definition two_steps : string :=
  "- [ ] step1" +:+ Py.nl_str +:+ "- [ ] step2".
Definition two_steps_marked : string :=
  "- [x] step1" +:+ Py.nl_str +:+ "- [ ] step2".
Definition under_header (lines : string) : string :=
  "## Tasks:" +:+ Py.nl_str +:+ lines.

End ChecklistTerms.

Section SummaryTerms.

(** What the groups of [get_error_summary] hold after the errors [done]:
    one entry per type, with the errors of that type in their order. *)
Definition grouped (done : list ErrorDetector.ExtractedError)
  (by_type : list (string * list ErrorDetector.ExtractedError)) : Prop :=
  NoDup (map fst by_type)
  /\ Forall (fun entry : string * list ErrorDetector.ExtractedError =>
               entry.2 = filter (fun e => ErrorDetector.error_type e = entry.1) done
               /\ entry.2 <> []) by_type
  /\ forall e, e ∈ done -> ErrorDetector.error_type e ∈ map fst by_type.

End SummaryTerms.

Section PageRangeTerms.

(** The page types that [infer_current_page] can return. *)
Definition PAGE_TYPES : list string :=
  [ "login"; "signup"; "auth_page"; "search"; "checkout"; "commerce_page";
    "profile"; "dashboard"; "form_page"; "content_page"; "main_page";
    "simple_page"; "unknown" ].

End PageRangeTerms.

Section LoopTerms.
Import Workflow.

(** The number of passes through the minimal THINK node in a run. *)
Fixpoint think_passes (ts : list Transition) : Z :=
  match ts with
  | [] => 0
  | Plan _ :: rest => 1 + think_passes rest
  | _ :: rest => think_passes rest
  end.

(** A run of the hierarchical loop: minimal THINK and ACT wrapper. *)
Definition hierarchical (t : Transition) : Prop :=
  match t with Think _ => False | _ => True end.

(** The todo text that the minimal THINK node works on: the contents of
    the todo file or, when there is none, the default built from the
    task. *)
Definition todo_seen (env : Minimal.ThinkEnv) (state : State) : string :=
  let task := Minimal.task_text (getd state "task" (VStr EmptyString)) in
  match Minimal.t_todo_contents env with
  | Some t =>
      if negb (Py.truthy_str t) || String.eqb (Py.strip t) EMPTY_TODO
      then Minimal.default_todo task else t
  | None => Minimal.default_todo task
  end.

(** The surroundings [env] with other planned actions. *)
Definition with_planned (env : WrapperEnv) (planned : list Action) : WrapperEnv :=
  {| w_session := w_session env;
     w_browser_state := w_browser_state env;
     w_todo_contents := w_todo_contents env;
     w_planned_actions := planned;
     w_act_env := w_act_env env |}.

(** A state after a failed verification, with one failed verify entry
    followed by an entry of the THINK node. *)
Definition failing_verification : Workflow.State :=
  list_to_map
    [ ("verification_status", Workflow.VStr "fail");
      ("step_count", Workflow.VInt 3);
      ("history",
        Workflow.VHistory
          [ {| Workflow.step := Some 1; Workflow.node := Some "verify";
               Workflow.entry_actions := None;
               Workflow.verification_status := Some "fail" |};
            {| Workflow.step := Some 2; Workflow.node := Some "think";
               Workflow.entry_actions := None;
               Workflow.verification_status := None |} ]) ].

(** A state of a session with a budget of two steps. *)
Definition two_step_budget : Workflow.State :=
  list_to_map
    [ ("browser_session_id", Workflow.VStr "session-1");
      ("max_steps", Workflow.VInt 2) ].

(** Surroundings without a todo file, in which the LLM names a next
    step. *)
Definition planning_env : Workflow.Minimal.ThinkEnv :=
  {| Workflow.Minimal.t_session_found := true;
     Workflow.Minimal.t_todo_contents := None;
     Workflow.Minimal.t_llm_next_step := Some (Some "Open the login page") |}.

End LoopTerms.

Section ExecutionTerms.
Import Workflow.

(** An action with a type that is not empty. *)
Definition typed (a : Action) : bool :=
  match action_type a with Some ty => Py.truthy_str ty | None => false end.

(** An action of a known tool. *)
Definition known (a : Action) : Prop :=
  exists ty, action_type a = Some ty /\ PageContext.str_in ty TOOL_NAMES = true.

(** A result whose [success] is true. *)
Definition succeeded (r : ErrorDetector.ActionResult) : bool :=
  Py.truthy_obool (ErrorDetector.success r).

End ExecutionTerms.

Section SeverityTerms.
Import Workflow.

(** The rank of an error in the order of the sort. *)
Definition rank_of (e : ErrorDetector.ExtractedError) : nat :=
  severity_rank (ErrorDetector.severity e).

End SeverityTerms.

Section ElementTerms.

(** The sum of the counts of a table of element types. *)
Definition types_total (types : gmap string nat) : nat :=
  map_fold (fun _ n acc => (n + acc)%nat) 0%nat types.

End ElementTerms.

Section RecoveryTerms.
Import Workflow.

(** The surroundings [env] with another answer of the LLM. *)
Definition with_llm (env : Minimal.ThinkEnv) (llm : option (option string))
  : Minimal.ThinkEnv :=
  {| Minimal.t_session_found := Minimal.t_session_found env;
     Minimal.t_todo_contents := Minimal.t_todo_contents env;
     Minimal.t_llm_next_step := llm |}.

(** A state in which the last ACT pass failed with the given feedback. *)
Definition failed_pass (feedback : ActFeedback) : State :=
  list_to_map
    [ ("browser_session_id", VStr "session-1");
      ("act_feedback", VFeedback feedback);
      ("last_act_result_success", VBool false);
      ("think_retries", VInt 1) ].

(** The error of an email address that is registered already. *)
Definition taken_email : ErrorDetector.ExtractedError :=
  ErrorDetector.classified "already_exists" "Email already registered".

End RecoveryTerms.

Section TaskParserTerms.

(** The checklist part of the content: one line per step. *)
Fixpoint step_lines (steps : list string) : string :=
  match steps with
  | [] => EmptyString
  | step :: rest => "- [ ] " +:+ step +:+ Py.nl_str +:+ step_lines rest
  end.

(** An answer of the LLM with two steps. *)
Definition sample_response : TaskParser.TodoStructureResponse :=
  {| TaskParser.title := "Sign in";
     TaskParser.goal := "Reach the dashboard";
     TaskParser.steps := [ "Navigate to the login page"; "Fill the login form" ] |}.

End TaskParserTerms.

Section PortTerms.

(** Every port but 9222 is free. *)
Definition busy_9222 (port : Z) (host : string) : bool :=
  negb (port =? 9222)%Z.

End PortTerms.

(** * Properties *)

(** ** The routers *)

Section RouterFacts.
Import Workflow.

Variable settings_max_steps : Z.

(** C2. After THINK the router first sends a completed or failed state to
    the report; then, and before the step budget and the strategic
    intent are looked at, it stops for failure exhaustion exactly when
    [consecutive_failures >= max_failures + (1 if
    final_response_after_failure else 0)]; below that bound the route is
    the one of the later guards.  With 3 failures, a maximum of 3 and the
    final attempt allowed the router goes on; with 4 it stops. *)
Theorem post_think_router_failure_guard (state : State) (cf mf : Z) (flag : bool) :
  as_int (getd state "consecutive_failures" (VInt 0)) = Some cf ->
  as_int (getd state "max_failures" (VInt 3)) = Some mf ->
  getd state "final_response_after_failure" (VBool true) = VBool flag ->
  let route := should_continue_after_think settings_max_steps state in
  let limit := (mf + (if flag then 1 else 0))%Z in
  (truthy (get state "completed") = true -> route = Done)
  /\ (truthy (get state "error") = true -> route = Done)
  /\ (truthy (get state "completed") = false ->
      truthy (get state "error") = false ->
      ((limit <= cf)%Z -> route = Done)
      /\ ((cf < limit)%Z -> route = later_guards settings_max_steps state)
      /\ (cf = 3%Z -> mf = 3%Z -> flag = true ->
          steps_exhausted settings_max_steps state = Some false ->
          truthy (get state "think_output") = true -> route = Continue)
      /\ (cf = 4%Z -> mf = 3%Z -> flag = true -> route = Done)).
Proof.
  intros Hcf Hmf Hfl route limit.
  subst route limit.
  unfold should_continue_after_think, should_continue_after_think_try,
    failures_exhausted, later_guards.
  rewrite Hcf, Hmf, Hfl. simpl.
  assert (Hint : Py.int_of_bool flag = (if flag then 1 else 0)%Z)
    by (destruct flag; reflexivity).
  rewrite Hint.
  split; [intros ->; reflexivity|].
  split; [intros ->; destruct (truthy (get state "completed")); reflexivity|].
  intros -> ->.
  destruct (Z.leb_spec (mf + (if flag then 1 else 0)) cf) as [Hle|Hlt].
  - split_and!.
    + reflexivity.
    + intros; lia.
    + intros -> -> ->. lia.
    + reflexivity.
  - split_and!.
    + intros; lia.
    + intros _. destruct (steps_exhausted settings_max_steps state) as [[|]|];
        simpl; try reflexivity.
      destruct (truthy (get state "think_output")); reflexivity.
    + intros _ _ _ -> ->. reflexivity.
    + intros -> -> ->. lia.
Qed.

End RouterFacts.

Lemma post_think_router_failure_guard_witness :
  Workflow.should_continue_after_think 50 boundary_state = Workflow.Continue.
Proof.
  destruct (post_think_router_failure_guard 50 boundary_state 3 3 true
              eq_refl eq_refl eq_refl) as (_ & _ & H).
  destruct (H eq_refl eq_refl) as (_ & _ & Hgo & _).
  apply Hgo; reflexivity.
Defined.

(** ** The error detector *)

Section ErrorFacts.
Import ErrorDetector.

Lemma first_matching_type_in table message_lower error_type :
  first_matching_type table message_lower = Some error_type ->
  In error_type (map fst table).
Proof.
  induction table as [|[ty patterns] table IH]; simpl; [discriminate|].
  destruct (existsb _ patterns).
  - intros [= ->]. now left.
  - intros H. right. now apply IH.
Qed.

Lemma classify_in_kinds message : In (_classify_error_message message) KINDS.
Proof.
  unfold _classify_error_message.
  destruct (first_matching_type ERROR_PATTERNS (Py.lower message)) as [ty|] eqn:E.
  - apply first_matching_type_in in E. simpl in E. unfold KINDS. simpl.
    intuition auto.
  - unfold KINDS. simpl.
    repeat match goal with
           | |- context [if ?b then _ else _] => destruct b
           end; intuition auto.
Qed.

(** C6. The text "Email already registered" is classified
    [already_exists], with severity [medium] and a recovery hint.  Every
    text is classified as one of seven kinds, and the severity and the
    hint of the error built for it depend on the kind alone:
    [permission_denied], [network_error] and [server_error] are [high],
    the other kinds [medium]; each kind of the pattern table has its own
    fixed hint, and only [generic] has none. *)
Theorem classified_kind_fixes_severity_and_hint :
  (let e := classified (_classify_error_message "Email already registered")
              "Email already registered" in
   error_type e = "already_exists" /\ severity e = "medium"
   /\ recovery_hint e = Some "Try using a different value or switch to login"
   /\ recovery_hint e <> None)
  /\ (forall text : string,
        let kind := _classify_error_message text in
        let e := classified kind text in
        In kind KINDS
        /\ severity e =
             (if PageContext.str_in kind
                   ["permission_denied"; "network_error"; "server_error"]
              then "high" else "medium")
        /\ recovery_hint e = _suggest_recovery kind
        /\ (recovery_hint e = None <-> kind = "generic"))
  /\ map _classify_severity KINDS
     = ["medium"; "high"; "medium"; "medium"; "high"; "high"; "medium"]
  /\ map _suggest_recovery KINDS
     = [ Some "Try using a different value or switch to login";
         Some "Check your permissions or sign in with appropriate account";
         Some "Navigate to the correct page or verify the URL";
         Some "Correct the invalid input and try again";
         Some "Check your internet connection and retry";
         Some "Wait a moment and retry the action";
         None ].
Proof.
  split; [vm_compute; split_and!; try reflexivity; discriminate|].
  split; [|split; reflexivity].
  intros text kind e. subst e.
  pose proof (classify_in_kinds text) as Hk. fold kind in Hk.
  split; [exact Hk|].
  unfold KINDS in Hk. simpl in Hk.
  destruct Hk as [<-|[<-|[<-|[<-|[<-|[<-|[<-|[]]]]]]]];
    (split; [reflexivity|]); (split; [reflexivity|]);
    split; intros H; try reflexivity; try discriminate H.
Qed.

Lemma add_validation_errors_messages errors val_errs :
  NoDup (map message errors) ->
  NoDup (map message (add_validation_errors errors val_errs)).
Proof.
  revert errors.
  induction val_errs as [|v rest IH]; intros errors Hnd; simpl; [exact Hnd|].
  destruct (existsb _ errors) eqn:E; [now apply IH|].
  apply IH. rewrite map_app. simpl.
  apply NoDup_app. split; [exact Hnd|].
  split; [|apply NoDup_singleton].
  intros msg Hin Hin'. apply list_elem_of_singleton in Hin'. subst msg.
  apply list_elem_of_In, in_map_iff in Hin. destruct Hin as (e & He & Hin).
  apply not_true_iff_false in E. apply E.
  apply existsb_exists. exists e. split; [exact Hin|].
  now apply String.eqb_eq.
Qed.

Lemma add_validation_errors_nonempty errors val_errs :
  errors <> [] \/ val_errs <> [] ->
  add_validation_errors errors val_errs <> [].
Proof.
  revert errors.
  induction val_errs as [|v rest IH]; intros errors H; simpl.
  - destruct H as [H|H]; [exact H|congruence].
  - destruct (existsb _ errors) eqn:E.
    + apply IH. left. intros ->. discriminate E.
    + apply IH. left. now destruct errors.
Qed.

(** C7, as the code has it.  In a pass that reads the console, a
    validation error is appended only when no error of the same message
    is already in the list: if the console errors have distinct messages,
    so have all the errors returned.  (Console errors among themselves,
    and the errors of the DOM scan, are not compared.) *)
Theorem console_pass_keeps_messages_distinct (browser_state : BrowserState)
  (session : BrowserSession) (watchdog : ConsoleWatchdog) :
  console_watchdog session = Some watchdog ->
  recent_errors watchdog <> [] \/ validation_errors watchdog <> [] ->
  NoDup (map message (map console_error (recent_errors watchdog))) ->
  let errors := extract_errors_from_dom browser_state (Some session) in
  NoDup (map message errors)
  /\ errors = add_validation_errors
                (map console_error (recent_errors watchdog))
                (firstn 3 (validation_errors watchdog)).
Proof.
  intros Hw Hne Hnd errors. subst errors.
  unfold extract_errors_from_dom, console_errors_of. rewrite Hw.
  pose proof (add_validation_errors_nonempty
                (map console_error (recent_errors watchdog))
                (firstn 3 (validation_errors watchdog))) as Hn.
  destruct (add_validation_errors _ _) as [|e l] eqn:E.
  - exfalso. apply Hn; [|reflexivity].
    destruct Hne as [H|H].
    + left. now destruct (recent_errors watchdog).
    + right. now destruct (validation_errors watchdog).
  - split; [|reflexivity]. rewrite <- E.
    now apply add_validation_errors_messages.
Qed.

End ErrorFacts.

Lemma console_pass_keeps_messages_distinct_witness :
  map ErrorDetector.message
    (ErrorDetector.extract_errors_from_dom
       {| ErrorDetector.dom := None |}
       (Some {| ErrorDetector.console_watchdog := Some console_sample |}))
  = ["Email is required"; "Request failed: 500"; "Password too short"].
Proof.
  assert (Hne : ErrorDetector.recent_errors console_sample <> []
                \/ ErrorDetector.validation_errors console_sample <> [])
    by (left; discriminate).
  assert (Hnd : NoDup (map ErrorDetector.message
                         (map ErrorDetector.console_error
                            (ErrorDetector.recent_errors console_sample))))
    by (vm_compute; apply NoDup_cons; split;
        [intros H; apply list_elem_of_singleton in H; discriminate H
        |apply NoDup_singleton]).
  destruct (console_pass_keeps_messages_distinct
              {| ErrorDetector.dom := None |}
              {| ErrorDetector.console_watchdog := Some console_sample |}
              console_sample eq_refl Hne Hnd) as [_ ->].
  vm_compute. reflexivity.
Defined.

(** The DOM scan reports the text "Page not found" twice, once for the
    pattern [not found] and once for [page not found]. *)
Lemma dom_scan_repeats_message :
  ~ NoDup (map ErrorDetector.message
             (ErrorDetector.extract_errors_from_dom not_found_page None)).
Proof.
  vm_compute (map _ _). intros H.
  apply NoDup_cons in H. destruct H as [H _]. apply H. left.
Qed.

(** ** The page-context analyzer *)

Section PageFacts.
Import PageContext.

Variable urlparse_path : string -> option string.

Lemma text_hints_signals elem_info x :
  In x (text_hints elem_info) -> x ∈ SIGNALS.
Proof.
  unfold text_hints. rewrite !in_app_iff.
  repeat match goal with
         | |- context [if ?b then _ else _] => destruct b
         end; simpl; intuition (subst; compute_done).
Qed.

Lemma extract_text_elements_signals selector_map :
  _extract_text_elements selector_map ⊆ SIGNALS.
Proof.
  unfold _extract_text_elements. intros x Hx.
  apply elem_of_list_to_set, list_elem_of_In, in_flat_map in Hx.
  destruct Hx as ([i elem_info] & _ & Hx).
  eapply text_hints_signals; eassumption.
Qed.

(** The signals that an analyzer built from a browser state can hold. *)
Lemma visible_elements_signals browser_state d :
  dom_elements (init browser_state) = Some d ->
  visible_text_elements d ⊆ SIGNALS.
Proof.
  unfold init, _extract_dom_info. simpl.
  destruct browser_state as [bs|]; [|discriminate].
  destruct (dom_state bs) as [ds|]; [|discriminate].
  intros [= <-]. simpl. apply extract_text_elements_signals.
Qed.

Lemma not_signal_absent browser_state x :
  x ∉ SIGNALS ->
  bool_decide
    (x ∈ match dom_elements (init browser_state) with
         | Some d => visible_text_elements d
         | None => (∅ : gset string)
         end) = false.
Proof.
  intros Hx. apply bool_decide_eq_false.
  destruct (dom_elements (init browser_state)) as [d|] eqn:E.
  - intros H. apply Hx. eapply visible_elements_signals; eassumption.
  - set_solver.
Qed.

Lemma password_not_signal : "password" ∉ SIGNALS.
Proof. compute_done. Qed.
Lemma username_not_signal : "username" ∉ SIGNALS.
Proof. compute_done. Qed.
Lemma address_not_signal : "address" ∉ SIGNALS.
Proof. compute_done. Qed.
Lemma payment_not_signal : "payment" ∉ SIGNALS.
Proof. compute_done. Qed.

Ltac dead_signals browser_state :=
  rewrite ?(not_signal_absent browser_state "password" password_not_signal),
    ?(not_signal_absent browser_state "username" username_not_signal),
    ?(not_signal_absent browser_state "address" address_not_signal),
    ?(not_signal_absent browser_state "payment" payment_not_signal).

Ltac split_ifs :=
  repeat match goal with
         | |- context [if ?b then _ else _] => destruct b eqn:?
         end.

(** C10. The element-signal extractor emits only [login], [submit],
    [email_field], [password_field] and [search]; the address-field and
    payment-field tests of [infer_current_page] are therefore false, and
    the page is inferred as [checkout] only when the URL path matched the
    checkout keywords. *)
Theorem checkout_only_from_url (browser_state : option BrowserStateSummary) :
  infer_current_page urlparse_path (init browser_state) = "checkout" ->
  matched_page_type urlparse_path (init browser_state) = Some "checkout"
  /\ (forall d, dom_elements (init browser_state) = Some d ->
        visible_text_elements d ⊆ SIGNALS
        /\ ("address" ∉ visible_text_elements d)
        /\ ("payment" ∉ visible_text_elements d)).
Proof.
  intros H. split.
  - unfold infer_current_page in H. dead_signals browser_state.
    revert H. dead_signals browser_state. simpl.
    split_ifs; intros H; try discriminate H.
    all: match goal with
         | E : bool_decide (_ = Some "checkout") = true |- _ =>
             apply bool_decide_eq_true in E; exact E
         end.
  - intros d Hd. pose proof (visible_elements_signals _ _ Hd) as Hs.
    split; [exact Hs|]. split; intros Hin; apply Hs in Hin.
    + now apply address_not_signal.
    + now apply payment_not_signal.
Qed.

(** C9, as the code has it.  On a page whose URL path gives no page type,
    the step "login with credentials" is rejected whatever the page
    shows: the login pattern of the fallback tests the signal
    [password], which the extractor never emits (it emits
    [password_field]), so the page is not inferred as [login], and the
    element fallback has no entry for the action [login]. *)
Theorem login_step_rejected_without_url_hint
  (browser_state : option BrowserStateSummary) :
  matched_page_type urlparse_path (init browser_state) = None ->
  fst (validate_against_todo_step urlparse_path (init browser_state)
         "login with credentials") = false
  /\ infer_current_page urlparse_path (init browser_state) <> "login".
Proof.
  intros Hm.
  assert (Hpage : infer_current_page urlparse_path (init browser_state) <> "login"
                  /\ infer_current_page urlparse_path (init browser_state) <> "auth_page").
  { unfold infer_current_page. rewrite Hm. dead_signals browser_state. simpl.
    rewrite !orb_false_r, !andb_false_r.
    split_ifs; split; discriminate. }
  split; [|apply Hpage].
  unfold validate_against_todo_step.
  replace (step_actions_of (Py.lower "login with credentials")) with ["login"]
    by (vm_compute; reflexivity).
  replace (expected_pages_of ["login"])
    with ({[ "login"; "auth_page" ]} : gset string)
    by (apply set_eq; intros x; unfold expected_pages_of; simpl;
        rewrite !elem_of_union, !elem_of_singleton, elem_of_empty; tauto).
  simpl.
  rewrite (bool_decide_eq_false_2
             (infer_current_page urlparse_path (init browser_state)
              ∈ ({[ "login"; "auth_page" ]} : gset string)))
    by (destruct Hpage; rewrite elem_of_union, !elem_of_singleton; tauto).
  rewrite andb_false_r. reflexivity.
Qed.

End PageFacts.

Lemma checkout_only_from_url_witness :
  PageContext.matched_page_type PageContext.simple_urlparse_path
    (PageContext.init (Some checkout_page)) = Some "checkout".
Proof.
  apply (checkout_only_from_url PageContext.simple_urlparse_path
           (Some checkout_page)).
  vm_compute. reflexivity.
Defined.

Lemma login_step_rejected_without_url_hint_witness :
  {[ "email_field"; "password_field" ]}
    ⊆ PageContext._extract_text_elements
        [ (1, "<input name=email Type:input}");
          (2, "<input name=password Type:input}") ]
  /\ fst (PageContext.validate_against_todo_step PageContext.simple_urlparse_path
            (PageContext.init (Some credentials_page))
            "login with credentials") = false.
Proof.
  split.
  - compute_done.
  - apply (login_step_rejected_without_url_hint
             PageContext.simple_urlparse_path (Some credentials_page)).
    vm_compute. reflexivity.
Defined.

(** ** The THINK and ACT nodes *)

(** Looking a literal key up in a literal update. *)
Ltac lookup_literal :=
  simpl;
  repeat (rewrite lookup_insert_ne by discriminate);
  rewrite ?lookup_insert_eq, ?lookup_empty.

(** Case analysis along the paths of a node. *)
Ltac node_paths :=
  repeat match goal with
         | |- context [mbind _ ?x] => destruct x; simpl
         | |- context [if ?b then _ else _] => destruct b; simpl
         | |- context [match ?x with _ => _ end] => destruct x; simpl
         end.

Section NodeFacts.
Import Workflow.

Lemma apply_update_lookup (state update : State) (k : string) :
  k <> "history" ->
  apply_update state update !! k
  = match update !! k with Some v => Some v | None => state !! k end.
Proof.
  intros Hk. unfold apply_update.
  assert (Hu : (update ∪ state) !! k
               = match update !! k with Some v => Some v | None => state !! k end).
  { rewrite lookup_union. destruct (update !! k), (state !! k); reflexivity. }
  destruct (update !! "history") as [[]|]; try exact Hu.
  destruct (as_history _); [|exact Hu].
  rewrite lookup_insert_ne by congruence. exact Hu.
Qed.


Lemma getd_apply_update (state update : State) (k : string) d :
  k <> "history" ->
  getd (apply_update state update) k d
  = match update !! k with Some v => v | None => getd state k d end.
Proof.
  intros Hk. unfold getd. rewrite apply_update_lookup by exact Hk.
  destruct (update !! k); reflexivity.
Qed.

(** The state updates of the modelled nodes never hold the key
    [consecutive_failures]. *)
Lemma think_node_no_counter state actions :
  think_node state actions !! "consecutive_failures" = None.
Proof.
  unfold think_node, think_node_end, think_node_try.
  node_paths; lookup_literal; reflexivity.
Qed.

Variable urlparse_path : string -> option string.

Lemma act_wrapper_no_counter env state :
  act_wrapper_node urlparse_path env state !! "consecutive_failures" = None.
Proof.
  unfold act_wrapper_node, act_wrapper_try, wrapper_except.
  node_paths; lookup_literal; reflexivity.
Qed.


Lemma minimal_think_try_no_counter env state update :
  Minimal.think_node_try env state = Some update ->
  update !! "consecutive_failures" = None.
Proof.
  unfold Minimal.think_node_try.
  node_paths; intros [= <-]; lookup_literal; reflexivity.
Qed.

Lemma minimal_think_no_counter env state update :
  Minimal.think_node env state = Some update ->
  update !! "consecutive_failures" = None.
Proof.
  unfold Minimal.think_node.
  destruct (Minimal.think_node_try env state) as [u|] eqn:E.
  - intros [= <-]. eapply minimal_think_try_no_counter, E.
  - node_paths; intros [= <-]; lookup_literal; reflexivity.
Qed.

Lemma step_keeps_counter state t :
  loop_step urlparse_path state t !! "consecutive_failures"
  = state !! "consecutive_failures".
Proof.
  destruct t as [actions|env|env]; simpl.
  - rewrite apply_update_lookup by discriminate.
    now rewrite think_node_no_counter.
  - destruct (Minimal.think_node env state) as [update|] eqn:E; [|reflexivity].
    rewrite apply_update_lookup by discriminate.
    now rewrite (minimal_think_no_counter _ _ _ E).
  - rewrite apply_update_lookup by discriminate.
    now rewrite act_wrapper_no_counter.
Qed.

(** C1, as the code has it.  No transition of the THINK/ACT loop (either
    THINK node, or the ACT wrapper) writes [consecutive_failures]: after
    every sequence of transitions the counter is what it was, whatever
    the outcomes of the actions.  The ACT wrapper records the outcome
    elsewhere: it always sets [last_act_result_success], to the success
    flag of its feedback. *)
Theorem failure_counter_never_written :
  (forall (ts : list Transition) (state : State),
     loop_run urlparse_path ts state !! "consecutive_failures"
     = state !! "consecutive_failures")
  /\ (forall (env : WrapperEnv) (state : State),
        exists (b : bool) (feedback : ActFeedback),
          act_wrapper_node urlparse_path env state !! "last_act_result_success"
          = Some (VBool b)
          /\ act_wrapper_node urlparse_path env state !! "act_feedback"
             = Some (VFeedback feedback)
          /\ fb_success feedback = b).
Proof.
  split.
  - intros ts. unfold loop_run.
    induction ts as [|t ts IH]; intros state; simpl; [reflexivity|].
    rewrite IH. apply step_keeps_counter.
  - intros env state.
    unfold act_wrapper_node, act_wrapper_try, wrapper_except.
    node_paths; eexists _, _; split_and!; lookup_literal; reflexivity.
Qed.

End NodeFacts.

(** With two failures counted: an ACT pass that fails (no action could be
    generated) does not raise the counter to 3, and an ACT pass whose
    actions all succeed does not reset it to 0. *)
Lemma counter_ignores_outcomes :
  let failed := loop_step PageContext.simple_urlparse_path two_failures_state
                  (Act (wrapper_env [])) in
  let succeeded := loop_step PageContext.simple_urlparse_path two_failures_state
                     (Act (wrapper_env [click7])) in
  (Workflow.get failed "last_act_result_success" = Workflow.VBool false
   /\ Workflow.get failed "consecutive_failures" <> Workflow.VInt 3)
  /\ (Workflow.get succeeded "last_act_result_success" = Workflow.VBool true
      /\ Workflow.get succeeded "consecutive_failures" <> Workflow.VInt 0).
Proof.
  vm_compute. split_and!; try reflexivity; discriminate.
Qed.

(** ** The action-repetition guard *)

Section RepetitionFacts.
Import Workflow.







End RepetitionFacts.



(** ** The new-element delta of the ACT node *)

Section DeltaFacts.
Import Workflow.

Lemma likely_pattern_thresholds (n : nat) :
  (likely_pattern_of n = "modal_or_form_opened" <-> (15 < n)%nat)
  /\ (likely_pattern_of n = "dropdown_or_menu_opened" <-> (5 < n <= 15)%nat)
  /\ (likely_pattern_of n = "suggestions_or_details_appeared"
      <-> (0 < n <= 5)%nat)
  /\ (likely_pattern_of n = "no_new_elements" <-> n = 0%nat).
Proof.
  unfold likely_pattern_of.
  destruct (Nat.ltb_spec 15 n); [|destruct (Nat.ltb_spec 5 n);
    [|destruct (Nat.ltb_spec 0 n)]];
    split_and!; split; intros H'; try discriminate H'; try reflexivity; lia.
Qed.

Lemma has_action_in_nonempty types executed :
  has_action_in types executed = true -> executed <> [].
Proof. intros H ->. discriminate H. Qed.

Lemma new_element_ids_of_dom_change previous detected current :
  new_element_ids_of true previous detected current
  = delta_of previous detected current.
Proof.
  unfold new_element_ids_of, delta_of. simpl.
  destruct (bool_decide (previous = ∅)) eqn:Ep; simpl.
  - rewrite bool_decide_eq_true_2 by reflexivity. reflexivity.
  - destruct (bool_decide (detected ∖ previous = ∅)); reflexivity.
Qed.

(** C8, as the code has it.  After an executed DOM-changing action, with
    [previous] the identifiers before the actions, [detected] the final
    set of the stability detector and [current] the identifiers of the
    fresh state: if [previous] is empty the delta is empty; otherwise it
    is [detected] minus [previous] or, when that is empty, [current]
    minus [previous] (so it is current minus previous whenever the
    detector ended on the current set).  The pattern is read off the size
    of the delta: more than 15 modal/form, more than 5 dropdown/menu,
    more than 0 suggestions/details, else no new elements. *)
Theorem new_element_delta_and_pattern (env : ActEnv) (state update : State)
  (actions : list Action) (previous current : gset Z) :
  truthy (get state "browser_session_id") = true ->
  session_found env = true ->
  getd state "actions" (VActions []) = VActions actions ->
  ids_before env = Some previous ->
  fresh_ids env = Some current ->
  has_action_in DOM_CHANGING_ACTIONS (fst (execute_actions env 1 actions)) = true ->
  act_node env state = Some update ->
  let delta := delta_of previous (detected_ids env) current in
  update !! "new_element_ids" = Some (VIds delta)
  /\ (exists ctx : ActionContext,
        update !! "action_context" = Some (VContext ctx)
        /\ new_elements_count ctx = size delta
        /\ (likely_pattern ctx = "modal_or_form_opened" <-> (15 < size delta)%nat)
        /\ (likely_pattern ctx = "dropdown_or_menu_opened"
            <-> (5 < size delta <= 15)%nat)
        /\ (likely_pattern ctx = "suggestions_or_details_appeared"
            <-> (0 < size delta <= 5)%nat)
        /\ (likely_pattern ctx = "no_new_elements" <-> size delta = 0%nat))
  /\ (previous <> ∅ -> detected_ids env = current -> delta = current ∖ previous)
  /\ (previous = ∅ -> delta = ∅).
Proof.
  intros Hid Hs Hact Hprev Hcur Hdom Hrun delta.
  unfold act_node in Hrun. rewrite Hid, Hs, Hact, Hprev, Hcur in Hrun.
  simpl in Hrun.
  destruct (execute_actions env 1 actions) as [executed results] eqn:Ex.
  simpl in Hdom. rewrite Hdom in Hrun.
  assert (Hne : actions <> []) by (intros ->; simpl in Ex; now inversion Ex; subst).
  destruct actions as [|a0 actions0]; [congruence|]. simpl in Hrun.
  rewrite new_element_ids_of_dom_change in Hrun. fold delta in Hrun.
  destruct (as_history _) as [existing|]; [|discriminate Hrun].
  simpl in Hrun. injection Hrun as <-.
  pose proof (has_action_in_nonempty _ _ Hdom) as Hex.
  unfold action_context_of.
  destruct (last executed) as [last_action|] eqn:El;
    [|destruct executed; [congruence|]; apply last_None in El; discriminate El].
  split_and!.
  - lookup_literal. reflexivity.
  - eexists. split; [lookup_literal; reflexivity|]. simpl.
    split; [reflexivity|]. apply likely_pattern_thresholds.
  - intros Hp Hd. subst delta. unfold delta_of.
    rewrite bool_decide_eq_false_2 by exact Hp. rewrite Hd.
    destruct (bool_decide (current ∖ previous = ∅)); reflexivity.
  - intros ->. reflexivity.
Qed.

End DeltaFacts.

Lemma new_element_delta_and_pattern_witness :
  menu_update !! "new_element_ids"
  = Some (Workflow.VIds
            (delta_of {[ 1; 2; 3 ]} {[ 1; 2; 3; 4; 5 ]} {[ 1; 2; 3; 4; 5 ]}))
  /\ size (delta_of {[ 1; 2; 3 ]} {[ 1; 2; 3; 4; 5 ]} {[ 1; 2; 3; 4; 5 ]} : gset Z)
     = 2%nat.
Proof.
  split.
  - apply (new_element_delta_and_pattern menu_opens (acting_state [click7])
             menu_update [click7] {[ 1; 2; 3 ]} {[ 1; 2; 3; 4; 5 ]});
      vm_compute; reflexivity.
  - vm_compute. reflexivity.
Defined.

Lemma delta_empty_without_previous_elements :
  let result :=
    Workflow.act_node first_elements_appear (acting_state [scroll_down]) in
  (result ≫= fun update => update !! "new_element_ids")
  = Some (Workflow.VIds ∅)
  /\ (result ≫= fun update => update !! "new_element_ids")
     <> Some (Workflow.VIds ({[ 1; 2 ]} ∖ ∅))
  /\ (result ≫= fun update => update !! "action_context")
     = Some (Workflow.VContext
               {| Workflow.ctx_action_type := "scroll";
                  Workflow.ctx_action_index := None;
                  Workflow.new_elements_count := 0;
                  Workflow.likely_pattern := "no_new_elements" |}).
Proof.
  vm_compute. split_and!; try reflexivity; discriminate.
Qed.

(** ** The step tracker *)

Section RegexFacts.
Import Re.

Lemma m_seq r1 r2 k : m (Seq r1 r2) k = m r1 (m r2 k).
Proof. reflexivity. Qed.

Lemma m_bol k s caps : m Bol k s 0%nat caps = k s 0%nat caps.
Proof. reflexivity. Qed.

Lemma m_bol_later k s pos caps : pos <> 0%nat -> m Bol k s pos caps = None.
Proof. intros H. simpl. now apply Nat.eqb_neq in H as ->. Qed.

Lemma m_chr a k b s pos caps :
  m (Chr a) k (String b s) pos caps
  = if Ascii.eqb a b then k s (S pos) caps else None.
Proof. reflexivity. Qed.

Lemma m_space k b s pos caps :
  m Space k (String b s) pos caps
  = if Py.is_space b then k s (S pos) caps else None.
Proof. reflexivity. Qed.

Lemma m_oneof cs k b s pos caps :
  m (OneOf cs) k (String b s) pos caps
  = if existsb (Ascii.eqb b) cs then k s (S pos) caps else None.
Proof. reflexivity. Qed.

Lemma m_any k c s pos caps :
  m Any k (String c s) pos caps
  = if negb (Ascii.eqb c Py.nl) then k s (S pos) caps else None.
Proof. reflexivity. Qed.

Lemma m_opt r k s pos caps :
  m (Opt r) k s pos caps = orelse (m r k s pos caps) (k s pos caps).
Proof. reflexivity. Qed.

Lemma m_alt r1 r2 k s pos caps :
  m (Alt r1 r2) k s pos caps = orelse (m r1 k s pos caps) (m r2 k s pos caps).
Proof. reflexivity. Qed.

Lemma m_group i r k s pos caps :
  m (Group i r) k s pos caps
  = m r (fun s' pos' c' => k s' pos' (set_cap i (pos, pos') c')) s pos caps.
Proof. reflexivity. Qed.

Lemma m_star r k s pos caps :
  m (Star r) k s pos caps = star_loop (m r) k (S (String.length s)) s pos caps.
Proof. reflexivity. Qed.

Lemma star_loop_S body K fuel s pos caps :
  star_loop body K (S fuel) s pos caps
  = orelse
      (body (fun s' pos' c' =>
               if Nat.eqb pos' pos then None else star_loop body K fuel s' pos' c')
         s pos caps)
      (K s pos caps).
Proof. reflexivity. Qed.

(** A repetition of [\s] before a character that is not a space. *)
Lemma star_space_stop k b s pos caps :
  Py.is_space b = false ->
  m (Star Space) k (String b s) pos caps = k (String b s) pos caps.
Proof.
  intros Hb. rewrite m_star, star_loop_S, m_space, Hb. reflexivity.
Qed.

Lemma star_space_one k a b s pos caps :
  Py.is_space a = true -> Py.is_space b = false ->
  m (Star Space) k (String a (String b s)) pos caps
  = orelse (k (String b s) (S pos) caps) (k (String a (String b s)) pos caps).
Proof.
  intros Ha Hb. rewrite m_star, star_loop_S, m_space, Ha.
  replace (Nat.eqb (S pos) pos) with false
    by (symmetry; apply Nat.eqb_neq; lia).
  cbn [String.length]. rewrite star_loop_S, m_space, Hb. reflexivity.
Qed.

Lemma plus_space_one k a b s pos caps :
  Py.is_space a = true -> Py.is_space b = false ->
  m (Plus Space) k (String a (String b s)) pos caps = k (String b s) (S pos) caps.
Proof.
  intros Ha Hb. unfold Plus. rewrite m_seq, m_space, Ha.
  now apply star_space_stop.
Qed.

(** A repetition of [.] runs to the end of a text without a newline when
    what follows matches only there. *)
Lemma star_any_to_end (K : cont) (s : string) :
  (forall c0 s0 p c, no_nl (String c0 s0) = true -> K (String c0 s0) p c = None) ->
  forall fuel pos caps,
    no_nl s = true -> (String.length s < fuel)%nat ->
    star_loop (m Any) K fuel s pos caps
    = K EmptyString (pos + String.length s)%nat caps.
Proof.
  intros HK. induction s as [|c s IH]; intros fuel pos caps Hnl Hf.
  - destruct fuel; [simpl in Hf; lia|]. simpl. rewrite Nat.add_0_r. reflexivity.
  - destruct fuel; [simpl in Hf; lia|]. simpl in Hnl, Hf.
    apply andb_true_iff in Hnl. destruct Hnl as [Hc Hnl].
    rewrite star_loop_S, m_any, Hc.
    replace (Nat.eqb (S pos) pos) with false
      by (symmetry; apply Nat.eqb_neq; lia).
    rewrite IH by (try assumption; lia).
    replace (S pos + String.length s)%nat
      with (pos + String.length (String c s))%nat by (simpl; lia).
    rewrite (HK c s) by (simpl; now rewrite Hc, Hnl).
    destruct (K EmptyString _ caps); reflexivity.
Qed.

Lemma plus_any_to_end (K : cont) c s pos caps :
  (forall c0 s0 p c, no_nl (String c0 s0) = true -> K (String c0 s0) p c = None) ->
  no_nl (String c s) = true ->
  m (Plus Any) K (String c s) pos caps
  = K EmptyString (pos + String.length (String c s))%nat caps.
Proof.
  intros HK Hnl. unfold Plus. rewrite m_seq, m_any.
  simpl in Hnl. apply andb_true_iff in Hnl. destruct Hnl as [Hc Hnl].
  rewrite Hc, m_star, star_any_to_end by (try assumption; lia).
  f_equal. simpl. lia.
Qed.

Lemma eol_then_fails k c0 s0 p caps :
  no_nl (String c0 s0) = true -> m Eol k (String c0 s0) p caps = None.
Proof.
  simpl. intros H. apply andb_true_iff in H. destruct H as [Hc _].
  apply negb_true_iff in Hc. rewrite Hc. now destruct s0.
Qed.

(** A pattern anchored by [^] matches at the start only. *)
Lemma search_from_anchored r s pos :
  pos <> 0%nat -> search_from (Seq Bol r) s pos = None.
Proof.
  revert pos. induction s as [|c s IH]; intros pos Hpos; simpl;
    unfold match_here; rewrite m_seq, m_bol_later by exact Hpos.
  - reflexivity.
  - apply IH. lia.
Qed.

End RegexFacts.

Section LineFacts.
Import Re TodoParser.

Lemma rstrip_length s : (String.length (Py.rstrip s) <= String.length s)%nat.
Proof.
  induction s as [|c s IH]; simpl; [lia|].
  destruct (Py.rstrip s); [destruct (Py.is_space c)|]; simpl in *; lia.
Qed.

Lemma lstrip_length s : (String.length (Py.lstrip s) <= String.length s)%nat.
Proof.
  induction s as [|c s IH]; simpl; [lia|].
  destruct (Py.is_space c); simpl; lia.
Qed.

Lemma rstrip_cons c s :
  Py.rstrip s <> EmptyString -> Py.rstrip (String c s) = String c (Py.rstrip s).
Proof. simpl. destruct (Py.rstrip s); congruence. Qed.

Lemma rstrip_cons_nonspace c s :
  Py.is_space c = false -> Py.rstrip (String c s) = String c (Py.rstrip s).
Proof. simpl. intros ->. destruct (Py.rstrip s); reflexivity. Qed.

Lemma clean_text_head t :
  clean_text t ->
  exists c s, t = String c s /\ Py.is_space c = false
              /\ no_nl (String c s) = true /\ Py.rstrip (String c s) = String c s.
Proof.
  intros (Hne & Hnl & Hs). destruct t as [|c s]; [congruence|].
  exists c, s. unfold Py.strip in Hs.
  destruct (Py.is_space c) eqn:Hc.
  - exfalso. simpl in Hs. rewrite Hc in Hs.
    pose proof (rstrip_length (Py.lstrip s)) as H1.
    pose proof (lstrip_length s) as H2.
    rewrite Hs in H1. simpl in H1. lia.
  - simpl Py.lstrip in Hs. rewrite Hc in Hs. now split_and!.
Qed.

Lemma substring_all t : String.substring 0 (String.length t) t = t.
Proof. induction t as [|c t IH]; simpl; [reflexivity|now rewrite IH]. Qed.

Lemma rstrip_app pre t :
  Py.rstrip t = t -> t <> EmptyString -> Py.rstrip (pre +:+ t) = pre +:+ t.
Proof.
  intros Hr Hne. induction pre as [|a pre IH]; [exact Hr|].
  change (String a pre +:+ t) with (String a (pre +:+ t)).
  rewrite rstrip_cons; rewrite IH; [reflexivity|].
  destruct pre; [exact Hne|discriminate].
Qed.

Lemma item_line_strip it :
  clean_text it.2 -> Py.strip (item_line it) = item_line it.
Proof.
  intros Ht. destruct (clean_text_head _ Ht) as (c & s & Heq & Hc & _ & Hr).
  unfold item_line, Py.strip.
  replace (Py.lstrip ((if it.1 then "- [x] " else "- [ ] ") +:+ it.2))
    with ((if it.1 then "- [x] " else "- [ ] ") +:+ it.2)
    by (destruct it.1; reflexivity).
  apply rstrip_app; rewrite Heq; [exact Hr|discriminate].
Qed.

End LineFacts.

Section ItemRegexFacts.
Import Re TodoParser.

Ltac closed_tests :=
  repeat match goal with
         | |- context [Ascii.eqb ?a ?b] =>
             progress (let v := eval vm_compute in (Ascii.eqb a b) in
                       change (Ascii.eqb a b) with v)
         | |- context [existsb ?f ?l] =>
             progress (let v := eval vm_compute in (existsb f l) in
                       change (existsb f l) with v)
         end; cbv iota beta.

Ltac re_step :=
  first [ rewrite plus_space_one by (reflexivity || assumption)
        | rewrite star_space_one by (reflexivity || assumption)
        | rewrite star_space_stop by (reflexivity || assumption)
        | rewrite plus_any_to_end
            by (try assumption; intros; cbv beta; now apply eol_then_fails)
        | rewrite m_seq | rewrite m_bol | rewrite m_chr | rewrite m_group
        | rewrite m_alt | rewrite m_opt | rewrite m_oneof ];
  closed_tests.

Lemma completed_re_checked c s :
  Py.is_space c = false -> no_nl (String c s) = true ->
  re_match completed_re ("- [x] " +:+ String c s)
  = Some {| m_start := 0;
            m_end := 6 + String.length (String c s);
            m_caps := [ (2%nat, (6%nat, (6 + String.length (String c s))%nat));
                        (1%nat, (3%nat, 4%nat)) ] |}.
Proof.
  intros Hc Hnl. unfold re_match, match_here, completed_re.
  change ("- [x] " +:+ String c s)
    with (String "-" (String " " (String "[" (String "x" (String "]"
            (String " " (String c s))))))).
  cbn [Seqs].
  repeat re_step. reflexivity.
Qed.

Lemma completed_re_unchecked c s :
  re_match completed_re ("- [ ] " +:+ String c s) = None.
Proof.
  unfold re_match, match_here, completed_re.
  change ("- [ ] " +:+ String c s)
    with (String "-" (String " " (String "[" (String " " (String "]"
            (String " " (String c s))))))).
  cbn [Seqs]. repeat re_step. reflexivity.
Qed.

Lemma pending_re_unchecked c s :
  Py.is_space c = false -> no_nl (String c s) = true ->
  re_match pending_re ("- [ ] " +:+ String c s)
  = Some {| m_start := 0;
            m_end := 6 + String.length (String c s);
            m_caps := [ (1%nat, (6%nat, (6 + String.length (String c s))%nat)) ] |}.
Proof.
  intros Hc Hnl. unfold re_match, match_here, pending_re.
  change ("- [ ] " +:+ String c s)
    with (String "-" (String " " (String "[" (String " " (String "]"
            (String " " (String c s))))))).
  cbn [Seqs]. repeat re_step. reflexivity.
Qed.

Lemma task_item_re_item (b : bool) c s :
  Py.is_space c = false -> no_nl (String c s) = true ->
  is_Some (re_match task_item_re
             ((if b then "- [x] " else "- [ ] ") +:+ String c s)).
Proof.
  intros Hc Hnl. unfold re_match, match_here, task_item_re.
  destruct b.
  - change ("- [x] " +:+ String c s)
      with (String "-" (String " " (String "[" (String "x" (String "]"
              (String " " (String c s))))))).
    cbn [Seqs]. repeat re_step. eexists. reflexivity.
  - change ("- [ ] " +:+ String c s)
      with (String "-" (String " " (String "[" (String " " (String "]"
              (String " " (String c s))))))).
    cbn [Seqs]. repeat re_step. eexists. reflexivity.
Qed.

Lemma search_from_here r s pos x :
  match_here r s pos = Some x -> search_from r s pos = Some x.
Proof. intros H. destruct s; simpl; now rewrite H. Qed.

Lemma finditer_from_anchored fuel r s pos :
  pos <> 0%nat -> finditer_from fuel (Seq Bol r) s pos = [].
Proof.
  intros Hpos. destruct fuel; simpl; [reflexivity|].
  now rewrite search_from_anchored.
Qed.

Lemma checkbox_match (b : bool) c s :
  match_here checkbox_re ((if b then "- [x] " else "- [ ] ") +:+ String c s) 0
  = Some {| m_start := 0; m_end := 5;
            m_caps := [ (2%nat, (4%nat, 5%nat)); (1%nat, (0%nat, 3%nat)) ] |}.
Proof.
  unfold match_here, checkbox_re.
  destruct b.
  - change ("- [x] " +:+ String c s)
      with (String "-" (String " " (String "[" (String "x" (String "]"
              (String " " (String c s))))))).
    cbn [Seqs]. repeat re_step. reflexivity.
  - change ("- [ ] " +:+ String c s)
      with (String "-" (String " " (String "[" (String " " (String "]"
              (String " " (String c s))))))).
    cbn [Seqs]. repeat re_step. reflexivity.
Qed.

Lemma re_sub_anchored_once r t s x :
  match_here (Seq Bol r) s 0 = Some x ->
  Nat.ltb (m_start x) (m_end x) = true ->
  re_sub (Seq Bol r) t s
  = Py.slice 0 (m_start x) s +:+ expand t s x +:+ drop (m_end x) s.
Proof.
  intros Hm Hlt. unfold re_sub, finditer. cbn [finditer_from].
  rewrite (search_from_here _ _ _ _ Hm), Hlt.
  rewrite finditer_from_anchored; [reflexivity|].
  apply Nat.ltb_lt in Hlt. lia.
Qed.

(** Checking the box of an item line. *)
Lemma checkbox_sub (b : bool) c s :
  re_sub checkbox_re checked_template
    ((if b then "- [x] " else "- [ ] ") +:+ String c s)
  = "- [x] " +:+ String c s.
Proof.
  pose proof (checkbox_match b c s) as Hm.
  unfold checkbox_re in *. cbn [Seqs] in *.
  rewrite (re_sub_anchored_once _ _ _ _ Hm) by reflexivity.
  destruct b; reflexivity.
Qed.

End ItemRegexFacts.

Section ChecklistFacts.
Import Re TodoParser.

Lemma split_no_nl s :
  no_nl s = true -> Py.split_char Py.nl s = [s].
Proof.
  induction s as [|c s IH]; simpl; [reflexivity|].
  intros H. apply andb_true_iff in H. destruct H as [Hc Hs].
  apply negb_true_iff in Hc. rewrite Hc, IH by exact Hs. reflexivity.
Qed.

Lemma split_app_nl s rest :
  no_nl s = true ->
  Py.split_char Py.nl (s +:+ Py.nl_str +:+ rest) = s :: Py.split_char Py.nl rest.
Proof.
  induction s as [|c s IH]; intros H.
  - reflexivity.
  - simpl in H. apply andb_true_iff in H. destruct H as [Hc Hs].
    apply negb_true_iff in Hc.
    change (String c s +:+ Py.nl_str +:+ rest)
      with (String c (s +:+ Py.nl_str +:+ rest)).
    cbn [Py.split_char]. rewrite Hc, IH by exact Hs. reflexivity.
Qed.

(** Splitting the joined lines gives the lines back. *)
Lemma split_join lines :
  lines <> [] -> Forall (fun l => no_nl l = true) lines ->
  Py.split_char Py.nl (Py.join Py.nl_str lines) = lines.
Proof.
  induction lines as [|x lines IH]; [congruence|].
  intros _ H. apply Forall_cons in H. destruct H as [Hx Hl].
  destruct lines as [|y lines].
  - simpl. now apply split_no_nl.
  - change (Py.join Py.nl_str (x :: y :: lines))
      with (x +:+ Py.nl_str +:+ Py.join Py.nl_str (y :: lines)).
    rewrite split_app_nl by exact Hx. f_equal. now apply IH.
Qed.

Lemma no_nl_app s t : no_nl (s +:+ t) = no_nl s && no_nl t.
Proof.
  induction s as [|c s IH]; [reflexivity|].
  change (String c s +:+ t) with (String c (s +:+ t)).
  simpl. rewrite IH. now rewrite andb_assoc.
Qed.

Lemma item_line_no_nl it : clean_text it.2 -> no_nl (item_line it) = true.
Proof.
  intros (_ & Hnl & _). unfold item_line. rewrite no_nl_app, Hnl.
  now destruct it.1.
Qed.

Lemma title_line_closed c : opens_tasks (Py.strip (title_line c)) = false.
Proof.
  unfold title_line, Py.strip.
  change (Py.lstrip ("# " +:+ title c)) with (String "#" (String " " (title c))).
  rewrite rstrip_cons_nonspace by reflexivity.
  cbn [Py.rstrip]. destruct (Py.rstrip (title c)); reflexivity.
Qed.

Lemma goal_line_closed c : opens_tasks (Py.strip (goal_line c)) = false.
Proof.
  unfold goal_line, Py.strip.
  change (Py.lstrip ("## Goal: " +:+ goal c))
    with (String "#" (String "#" (String " " (String "G" ("oal: " +:+ goal c))))).
  rewrite !rstrip_cons_nonspace by reflexivity.
  rewrite rstrip_cons by (rewrite rstrip_cons_nonspace by reflexivity; discriminate).
  rewrite rstrip_cons_nonspace by reflexivity. reflexivity.
Qed.

Lemma item_line_facts it :
  clean_text it.2 ->
  Py.strip (item_line it) = item_line it
  /\ opens_tasks (item_line it) = false
  /\ Py.startswith (item_line it) "##" = false
  /\ other_section (item_line it) = false.
Proof.
  intros Ht. split; [now apply item_line_strip|].
  unfold item_line, opens_tasks, other_section. destruct it.1; now split_and!.
Qed.

Lemma parse_item_lines items k :
  Forall (fun it => clean_text it.2) items ->
  parse_lines (map item_line items) true k
  = (filter (fun st => completed st = true) (steps_from items k),
     filter (fun st => completed st = false) (steps_from items k)).
Proof.
  revert k. induction items as [|[b t] items IH]; intros k H; [reflexivity|].
  apply Forall_cons in H. destruct H as [Ht Hl].
  destruct (item_line_facts (b, t) Ht) as (Hs & Ho & _ & Hx).
  destruct (clean_text_head _ Ht) as (c & s & Heq & Hc & Hnl & Hr).
  cbn [fst snd] in *. subst t.
  cbn [map parse_lines]. rewrite Hs, Ho, Hx. cbn [negb].
  unfold item_line. cbn [fst snd].
  destruct b.
  - rewrite completed_re_checked by assumption.
    rewrite IH by exact Hl.
    unfold group. cbn [get_cap Nat.eqb m_caps from_option id].
    replace (Py.slice 6 (6 + String.length (String c s))
               ("- [x] " +:+ String c s)) with (String c s).
    2:{ unfold Py.slice.
        replace (6 + String.length (String c s) - 6)%nat
          with (String.length (String c s)) by lia.
        change (String.substring 6 (String.length (String c s))
                  ("- [x] " +:+ String c s))
          with (String.substring 0 (String.length (String c s)) (String c s)).
        now rewrite substring_all. }
    replace (Py.strip (String c s)) with (String c s)
      by (symmetry; apply Ht).
    cbn [steps_from]. rewrite !filter_cons. cbn [completed].
    rewrite decide_True by reflexivity. rewrite decide_False by discriminate.
    reflexivity.
  - rewrite completed_re_unchecked.
    rewrite pending_re_unchecked by assumption.
    rewrite IH by exact Hl.
    unfold group. cbn [get_cap Nat.eqb m_caps from_option id].
    replace (Py.slice 6 (6 + String.length (String c s))
               ("- [ ] " +:+ String c s)) with (String c s).
    2:{ unfold Py.slice.
        replace (6 + String.length (String c s) - 6)%nat
          with (String.length (String c s)) by lia.
        change (String.substring 6 (String.length (String c s))
                  ("- [ ] " +:+ String c s))
          with (String.substring 0 (String.length (String c s)) (String c s)).
        now rewrite substring_all. }
    replace (Py.strip (String c s)) with (String c s)
      by (symmetry; apply Ht).
    cbn [steps_from]. rewrite !filter_cons. cbn [completed].
    rewrite decide_False by discriminate. rewrite decide_True by reflexivity.
    reflexivity.
Qed.


Lemma mark_from_alter items k i :
  mark_from items k i
  = if (k <=? i)%nat then mark_item (i - k) items else items.
Proof.
  revert k. induction items as [|it items IH]; intros k.
  - simpl. now destruct (k <=? i)%nat.
  - cbn [mark_from]. rewrite IH.
    destruct (Nat.eqb_spec k i) as [->|Hne].
    + rewrite Nat.leb_refl, Nat.sub_diag.
      replace (S i <=? i)%nat with false by (symmetry; apply Nat.leb_gt; lia).
      reflexivity.
    + destruct (Nat.leb_spec k i) as [Hle|Hgt].
      * replace (S k <=? i)%nat with true by (symmetry; apply Nat.leb_le; lia).
        replace (i - k)%nat with (S (i - S k)) by lia. reflexivity.
      * replace (S k <=? i)%nat with false by (symmetry; apply Nat.leb_gt; lia).
        reflexivity.
Qed.

Lemma mark_item_lines items k i :
  Forall (fun it => clean_text it.2) items ->
  mark_lines (map item_line items) true k i = map item_line (mark_from items k i).
Proof.
  revert k. induction items as [|[b t] items IH]; intros k H; [reflexivity|].
  apply Forall_cons in H. destruct H as [Ht Hl].
  destruct (item_line_facts (b, t) Ht) as (Hs & Ho & Hh & _).
  destruct (clean_text_head _ Ht) as (c & s & Heq & Hc & Hnl & Hr).
  cbn [fst snd] in *. subst t.
  cbn [map mark_lines mark_from]. rewrite Hs, Ho, Hh. cbn [andb negb].
  pose proof (task_item_re_item b c s Hc Hnl) as [x Hx].
  unfold item_line at 1. cbn [fst snd]. rewrite Hx.
  destruct (Nat.eqb k i).
  - rewrite IH by exact Hl. f_equal.
    unfold item_line. cbn [fst snd]. apply checkbox_sub.
  - rewrite IH by exact Hl. reflexivity.
Qed.

Lemma render_lines c :
  valid c ->
  Py.split_char Py.nl (render c)
  = title_line c :: goal_line c :: "## Tasks:" :: map item_line (items c).
Proof.
  intros (Ht & Hg & Hi). unfold render. apply split_join; [discriminate|].
  repeat apply Forall_cons_2.
  - unfold title_line. now rewrite no_nl_app, Ht.
  - unfold goal_line. now rewrite no_nl_app, Hg.
  - reflexivity.
  - apply Forall_map. eapply Forall_impl; [exact Hi|].
    intros it. apply item_line_no_nl.
Qed.

Lemma mark_valid i c : valid c -> valid (mark i c).
Proof.
  intros (Ht & Hg & Hi). split_and!; [exact Ht|exact Hg|].
  unfold mark, mark_item. cbn [items].
  apply Forall_alter; [exact Hi|]. intros it _ H. exact H.
Qed.




Lemma mark_item_unchecked i items t :
  items !! i = Some (false, t) -> mark_item i items = <[i := (true, t)]> items.
Proof.
  intros H. unfold mark_item.
  apply list_eq. intros j. destruct (decide (j = i)) as [->|Hne].
  - rewrite list_lookup_alter_eq, H.
    rewrite list_lookup_insert_eq by (eapply lookup_lt_Some; eassumption).
    reflexivity.
  - rewrite list_lookup_alter_ne, list_lookup_insert_ne by congruence.
    reflexivity.
Qed.

Lemma render_nonempty c :
  Py.truthy_str (render c) = true /\ Py.truthy_str (Py.strip (render c)) = true.
Proof.
  unfold render.
  change (Py.join Py.nl_str
            (title_line c :: goal_line c :: "## Tasks:" :: map item_line (items c)))
    with (String "#" (String " " (title c) +:+ Py.nl_str
                      +:+ Py.join Py.nl_str
                            (goal_line c :: "## Tasks:" :: map item_line (items c)))).
  split; [reflexivity|].
  unfold Py.strip. cbn [Py.lstrip].
  change (Py.is_space "#") with false. cbv iota.
  rewrite rstrip_cons_nonspace by reflexivity. reflexivity.
Qed.

Lemma mark_render i c :
  valid c -> mark_step_completed (render c) i = render (mark i c).
Proof.
  intros Hv. unfold mark_step_completed. rewrite render_lines by exact Hv.
  cbn [mark_lines].
  rewrite title_line_closed, andb_false_r. cbn [negb].
  rewrite goal_line_closed, andb_false_r. cbn [negb].
  change (opens_tasks (Py.strip "## Tasks:")) with true. cbv iota.
  rewrite mark_item_lines by apply Hv.
  rewrite mark_from_alter. cbn [Nat.leb]. rewrite Nat.sub_0_r.
  reflexivity.
Qed.

Lemma parse_render c :
  valid c ->
  parse_todo_steps (render c)
  = (filter (fun st => completed st = true) (steps_from (items c) 0),
     filter (fun st => completed st = false) (steps_from (items c) 0)).
Proof.
  intros Hv. unfold parse_todo_steps.
  destruct (render_nonempty c) as [-> ->]. cbn [negb orb].
  rewrite render_lines by exact Hv.
  cbn [parse_lines].
  rewrite title_line_closed. cbn [negb].
  rewrite goal_line_closed. cbn [negb].
  change (opens_tasks (Py.strip "## Tasks:")) with true. cbv iota.
  apply parse_item_lines, Hv.
Qed.


End ChecklistFacts.


(** Outside the valid texts: a box checked with a capital [X], which the
    parser also reads as complete, is rewritten to [x] when the step is
    marked again. *)
Example capital_box_is_rewritten :
  TodoParser.mark_step_completed
    ("## Tasks:" +:+ Py.nl_str +:+ "- [X] step1") 0
  = "## Tasks:" +:+ Py.nl_str +:+ "- [x] step1".
Proof. vm_compute. reflexivity. Qed.

(** Without the header the checkbox lines are outside the task section:
    marking leaves the text as it is, and there is no current step. *)
Lemma headerless_lines_are_not_steps :
  TodoParser.mark_step_completed two_steps 0 <> two_steps_marked
  /\ TodoParser.get_current_step (TodoParser.mark_step_completed two_steps 0)
     = None.
Proof.
  vm_compute. split; [discriminate|reflexivity].
Qed.

(** C4, as the code has it.  The step tracker reads checkbox lines only
    after a [## Tasks] (or [## Steps]) header.  Under the header, marking
    the first of the two pending steps checks its box and leaves the
    second line as it is, and the current step is then step2, at index 1.
    Without the header the text is returned unchanged and has no steps. *)
Theorem scenario_a_under_task_header :
  TodoParser.mark_step_completed (under_header two_steps) 0
  = under_header two_steps_marked
  /\ TodoParser.get_current_step
       (TodoParser.mark_step_completed (under_header two_steps) 0)
     = Some {| TodoParser.index := 1; TodoParser.text := "step2";
               TodoParser.completed := false |}
  /\ TodoParser.get_current_step (under_header two_steps)
     = Some {| TodoParser.index := 0; TodoParser.text := "step1";
               TodoParser.completed := false |}
  /\ TodoParser.mark_step_completed two_steps 0 = two_steps
  /\ TodoParser.parse_todo_steps two_steps = ([], []).
Proof.
  vm_compute. split_and!; reflexivity.
Qed.

(** * Further properties of the code *)

(** ** The step tracker: numbering, marking and progress *)

Section NumberingFacts.
Import Re TodoParser.

Lemma parse_lines_numbering lines started k :
  let '(cs, ps) := parse_lines lines started k in
  Forall (fun st => completed st = true) cs
  /\ Forall (fun st => completed st = false) ps
  /\ map index (cs ++ ps) ≡ₚ seq k (length cs + length ps)
  /\ StronglySorted lt (map index cs)
  /\ StronglySorted lt (map index ps).
Proof.
  revert started k. induction lines as [|line lines IH]; intros started k.
  - simpl. split_and!; constructor.
  - cbn [parse_lines].
    destruct (opens_tasks (Py.strip line)); [apply IH|].
    destruct (negb started); [apply IH|].
    destruct (other_section (Py.strip line));
      [simpl; split_and!; constructor|].
    destruct (re_match completed_re (Py.strip line)) as [x|].
    + specialize (IH started (S k)).
      destruct (parse_lines lines started (S k)) as [cs ps].
      destruct IH as (Hc & Hp & Hperm & Hsc & Hsp).
      split_and!.
      * constructor; [reflexivity|exact Hc].
      * exact Hp.
      * cbn [app map length Nat.add index seq]. now rewrite Hperm.
      * cbn [map index]. constructor; [exact Hsc|].
        apply Forall_forall. intros i Hi.
        assert (Hin : i ∈ seq (S k) (length cs + length ps)).
        { rewrite <- Hperm, map_app. apply elem_of_app. now left. }
        apply elem_of_seq in Hin. lia.
      * exact Hsp.
    + destruct (re_match pending_re (Py.strip line)) as [x|]; [|apply IH].
      specialize (IH started (S k)).
      destruct (parse_lines lines started (S k)) as [cs ps].
      destruct IH as (Hc & Hp & Hperm & Hsc & Hsp).
      split_and!.
      * exact Hc.
      * constructor; [reflexivity|exact Hp].
      * rewrite map_app. cbn [map index length].
        rewrite <- Permutation_middle, <- map_app, Hperm.
        replace (length cs + S (length ps))%nat
          with (S (length cs + length ps)) by lia.
        reflexivity.
      * exact Hsc.
      * cbn [map index]. constructor; [exact Hsp|].
        apply Forall_forall. intros i Hi.
        assert (Hin : i ∈ seq (S k) (length cs + length ps)).
        { rewrite <- Hperm, map_app. apply elem_of_app. now right. }
        apply elem_of_seq in Hin. lia.
Qed.

(** X1. [parse_todo_steps] numbers the checklist items of the task
    section in file order, from 0: the completed steps have the checked
    box and the pending steps the unchecked one, each of the two lists is
    in rising order of index, and together their indices are exactly
    0 .. total-1 of [get_todo_progress].  The current step, of
    [get_current_step] and of the progress alike, is the first pending
    step, and [all_done] holds exactly when no step is pending. *)
Theorem steps_are_numbered_in_file_order (todo_contents : string) :
  let '(completed_steps, pending_steps) := parse_todo_steps todo_contents in
  let progress := get_todo_progress todo_contents in
  Forall (fun st => completed st = true) completed_steps
  /\ Forall (fun st => completed st = false) pending_steps
  /\ map index (completed_steps ++ pending_steps) ≡ₚ seq 0 (total progress)
  /\ StronglySorted lt (map index completed_steps)
  /\ StronglySorted lt (map index pending_steps)
  /\ current_step progress = head pending_steps
  /\ get_current_step todo_contents = head pending_steps
  /\ (all_done progress = true <-> pending_steps = []).
Proof.
  unfold get_todo_progress, get_current_step.
  assert (H : let '(cs, ps) := parse_todo_steps todo_contents in
              Forall (fun st => completed st = true) cs
              /\ Forall (fun st => completed st = false) ps
              /\ map index (cs ++ ps) ≡ₚ seq 0 (length cs + length ps)
              /\ StronglySorted lt (map index cs)
              /\ StronglySorted lt (map index ps)).
  { unfold parse_todo_steps.
    destruct (_ || _); [simpl; split_and!; constructor|].
    apply parse_lines_numbering. }
  destruct (parse_todo_steps todo_contents) as [cs ps].
  destruct H as (H1 & H2 & H3 & H4 & H5). cbn [total current_step all_done].
  split_and!; try assumption; try reflexivity.
  destruct ps; simpl; split; congruence.
Qed.

End NumberingFacts.

Section MarkingFacts.
Import Re TodoParser.

Lemma split_nonempty s : Py.split_char Py.nl s <> [].
Proof.
  destruct s as [|c s]; simpl; [discriminate|].
  destruct (Ascii.eqb c Py.nl); [discriminate|].
  destruct (Py.split_char Py.nl s); discriminate.
Qed.

(** Joining the lines of a text gives the text back. *)
Lemma join_split s : Py.join Py.nl_str (Py.split_char Py.nl s) = s.
Proof.
  induction s as [|c s IH]; [reflexivity|].
  cbn [Py.split_char].
  destruct (Ascii.eqb_spec c Py.nl) as [->|Hc].
  - pose proof (split_nonempty s) as Hne.
    destruct (Py.split_char Py.nl s) as [|h t]; [congruence|].
    change (Py.join Py.nl_str (EmptyString :: h :: t))
      with (String Py.nl (Py.join Py.nl_str (h :: t))).
    now rewrite IH.
  - destruct (Py.split_char Py.nl s) as [|h t] eqn:E;
      [now apply split_nonempty in E|].
    rewrite <- IH. destruct t; reflexivity.
Qed.

Lemma split_lines_no_nl s :
  Forall (fun l => no_nl l = true) (Py.split_char Py.nl s).
Proof.
  induction s as [|c s IH]; [repeat constructor|].
  cbn [Py.split_char].
  destruct (Ascii.eqb c Py.nl) eqn:Hc; [constructor; [reflexivity|exact IH]|].
  destruct (Py.split_char Py.nl s) as [|h t].
  - repeat constructor. simpl. now rewrite Hc.
  - apply Forall_cons in IH. destruct IH as [Hh Ht].
    constructor; [|exact Ht]. simpl. now rewrite Hc, Hh.
Qed.

Lemma no_nl_substring n k s :
  no_nl s = true -> no_nl (String.substring n k s) = true.
Proof.
  revert n k. induction s as [|c s IH]; intros n k H.
  - destruct n, k; reflexivity.
  - simpl in H. apply andb_true_iff in H. destruct H as [Hc Hs].
    destruct n as [|n]; destruct k as [|k]; simpl; try reflexivity.
    + now rewrite Hc, IH.
    + now apply IH.
    + now apply IH.
Qed.

Lemma no_nl_drop n s : no_nl s = true -> no_nl (drop n s) = true.
Proof.
  revert s. induction n as [|n IH]; intros s H; [exact H|].
  destruct s as [|c s]; [reflexivity|]. simpl in *.
  apply andb_true_iff in H. now apply IH.
Qed.

Lemma no_nl_lstrip s : no_nl s = true -> no_nl (Py.lstrip s) = true.
Proof.
  induction s as [|c s IH]; intros H; [reflexivity|]. simpl.
  destruct (Py.is_space c); [|exact H].
  simpl in H. apply andb_true_iff in H. now apply IH.
Qed.

Lemma no_nl_rstrip s : no_nl s = true -> no_nl (Py.rstrip s) = true.
Proof.
  induction s as [|c s IH]; intros H; [reflexivity|].
  simpl in H. apply andb_true_iff in H. destruct H as [Hc Hs].
  specialize (IH Hs). simpl.
  destruct (Py.rstrip s) as [|c' r].
  - destruct (Py.is_space c); [reflexivity|]. simpl. now rewrite Hc.
  - simpl. simpl in IH. now rewrite Hc, IH.
Qed.

Lemma no_nl_strip s : no_nl s = true -> no_nl (Py.strip s) = true.
Proof. intros H. now apply no_nl_rstrip, no_nl_lstrip. Qed.

(** A substitution whose template has no newline keeps a line a line. *)
Lemma no_nl_expand t s x :
  Forall (fun it => match it with TLit l => no_nl l = true | TRef _ => True end) t ->
  no_nl s = true -> no_nl (expand t s x) = true.
Proof.
  intros Ht Hs. unfold expand.
  induction Ht as [|it t Hit Ht IH]; [reflexivity|].
  cbn [fold_right]. destruct it as [l|i].
  - now rewrite no_nl_app, Hit, IH.
  - rewrite no_nl_app, IH, andb_true_r. unfold group.
    destruct i; simpl; [now apply no_nl_substring|].
    destruct (get_cap (S i) (m_caps x)) as [[a b]|]; [|reflexivity].
    now apply no_nl_substring.
Qed.

Lemma no_nl_sub_matches t s from ms :
  Forall (fun it => match it with TLit l => no_nl l = true | TRef _ => True end) t ->
  no_nl s = true -> no_nl (sub_matches t s from ms) = true.
Proof.
  intros Ht Hs. revert from. induction ms as [|x ms IH]; intros from.
  - now apply no_nl_drop.
  - cbn [sub_matches]. rewrite !no_nl_app, IH, no_nl_expand by assumption.
    unfold Py.slice. now rewrite no_nl_substring.
Qed.

Lemma mark_lines_past lines started k i :
  (i < k)%nat -> mark_lines lines started k i = lines.
Proof.
  revert started k. induction lines as [|line lines IH]; intros started k Hlt;
    [reflexivity|].
  cbn [mark_lines].
  destruct (opens_tasks (Py.strip line)); [now rewrite IH|].
  match goal with
  | |- context [negb ?b] => destruct (negb b) eqn:E
  end; [now rewrite IH|].
  destruct (re_match task_item_re (Py.strip line)); [|now rewrite IH].
  replace (Nat.eqb k i) with false by (symmetry; apply Nat.eqb_neq; lia).
  now rewrite IH by lia.
Qed.

Lemma mark_lines_length lines started k i :
  length (mark_lines lines started k i) = length lines.
Proof.
  revert started k. induction lines as [|line lines IH]; intros started k;
    [reflexivity|].
  cbn [mark_lines].
  destruct (opens_tasks (Py.strip line)); [simpl; now rewrite IH|].
  match goal with
  | |- context [negb ?b] => destruct (negb b) eqn:E
  end; [simpl; now rewrite IH|].
  destruct (re_match task_item_re (Py.strip line)); [|simpl; now rewrite IH].
  destruct (Nat.eqb k i); simpl; now rewrite IH.
Qed.

Lemma mark_lines_one lines started k i :
  exists j, forall n, n <> j ->
    mark_lines lines started k i !! n = lines !! n.
Proof.
  revert started k. induction lines as [|line lines IH]; intros started k;
    [now exists 0%nat|].
  cbn [mark_lines].
  assert (Hkeep : forall started' k',
            exists j, forall n, n <> j ->
              (line :: mark_lines lines started' k' i) !! n = (line :: lines) !! n).
  { intros started' k'. destruct (IH started' k') as [j Hj].
    exists (S j). intros [|n] Hn; [reflexivity|]. simpl. apply Hj. lia. }
  destruct (opens_tasks (Py.strip line)); [apply Hkeep|].
  match goal with
  | |- context [negb ?b] => destruct (negb b) eqn:E
  end; [apply Hkeep|].
  destruct (re_match task_item_re (Py.strip line)); [|apply Hkeep].
  destruct (Nat.eqb_spec k i) as [->|Hne]; [|apply Hkeep].
  exists 0%nat. intros [|n] Hn; [congruence|].
  simpl. now rewrite mark_lines_past by lia.
Qed.

Lemma mark_lines_no_nl lines started k i :
  Forall (fun l => no_nl l = true) lines ->
  Forall (fun l => no_nl l = true) (mark_lines lines started k i).
Proof.
  intros H. revert started k.
  induction H as [|line lines Hl H IH]; intros started k; [constructor|].
  cbn [mark_lines].
  destruct (opens_tasks (Py.strip line)); [now constructor|].
  match goal with
  | |- context [negb ?b] => destruct (negb b) eqn:E
  end; [now constructor|].
  destruct (re_match task_item_re (Py.strip line)); [|now constructor].
  destruct (Nat.eqb k i); [|now constructor].
  constructor; [|apply IH].
  unfold re_sub. apply no_nl_sub_matches.
  - repeat constructor.
  - now apply no_nl_strip.
Qed.

(** X2. [mark_step_completed] keeps the number of lines of the todo
    text and changes one line at most: all lines but one are the lines of
    the input, whatever the text and the step index. *)
Theorem marking_changes_at_most_one_line (todo_contents : string)
  (step_index : nat) :
  let before := Py.split_char Py.nl todo_contents in
  let after :=
    Py.split_char Py.nl (mark_step_completed todo_contents step_index) in
  length after = length before
  /\ exists j, forall n, n <> j -> after !! n = before !! n.
Proof.
  intros before after. subst before after. unfold mark_step_completed.
  rewrite split_join.
  - split; [apply mark_lines_length|apply mark_lines_one].
  - intros H. apply (f_equal length) in H.
    rewrite mark_lines_length in H.
    pose proof (split_nonempty todo_contents).
    destruct (Py.split_char Py.nl todo_contents); [congruence|discriminate].
  - apply mark_lines_no_nl, split_lines_no_nl.
Qed.

Lemma mark_lines_closed lines k i :
  Forall (fun l => opens_tasks (Py.strip l) = false) lines ->
  mark_lines lines false k i = lines.
Proof.
  induction 1 as [|line lines Hl H IH]; [reflexivity|].
  cbn [mark_lines]. rewrite Hl, andb_false_r. cbn [negb]. now rewrite IH.
Qed.

Lemma parse_lines_closed lines k :
  Forall (fun l => opens_tasks (Py.strip l) = false) lines ->
  parse_lines lines false k = ([], []).
Proof.
  induction 1 as [|line lines Hl H IH]; [reflexivity|].
  cbn [parse_lines]. rewrite Hl. cbn [negb]. exact IH.
Qed.

(** X3. A todo text without a line that opens the task section has no
    steps: [parse_todo_steps] returns two empty lists, there is no
    current step, the progress reports [all_done], and
    [mark_step_completed] returns the text as it is for every index. *)
Theorem no_task_header_no_steps (todo_contents : string) :
  Forall (fun l => opens_tasks (Py.strip l) = false)
    (Py.split_char Py.nl todo_contents) ->
  parse_todo_steps todo_contents = ([], [])
  /\ get_current_step todo_contents = None
  /\ all_done (get_todo_progress todo_contents) = true
  /\ forall step_index,
       mark_step_completed todo_contents step_index = todo_contents.
Proof.
  intros H.
  assert (Hp : parse_todo_steps todo_contents = ([], [])).
  { unfold parse_todo_steps. destruct (_ || _); [reflexivity|].
    now apply parse_lines_closed. }
  unfold get_current_step, get_todo_progress. rewrite Hp.
  split_and!; try reflexivity.
  intros i. unfold mark_step_completed.
  rewrite mark_lines_closed by exact H. apply join_split.
Qed.

End MarkingFacts.

Lemma no_task_header_no_steps_witness :
  TodoParser.mark_step_completed two_steps 0 = two_steps
  /\ TodoParser.get_current_step two_steps = None.
Proof.
  assert (H : Forall (fun l => TodoParser.opens_tasks (Py.strip l) = false)
                (Py.split_char Py.nl two_steps))
    by (repeat constructor).
  destruct (no_task_header_no_steps two_steps H) as (_ & Hc & _ & Hm).
  split; [apply Hm|exact Hc].
Defined.

Section ProgressFacts.
Import TodoParser.

Lemma steps_from_length items k : length (steps_from items k) = length items.
Proof.
  revert k. induction items as [|[b t] items IH]; intros k; [reflexivity|].
  simpl. now rewrite IH.
Qed.

Lemma steps_from_flag_count (b : bool) items k :
  length (filter (fun st => completed st = b) (steps_from items k))
  = length (filter (fun it : bool * string => it.1 = b) items).
Proof.
  revert k. induction items as [|[b' t] items IH]; intros k; [reflexivity|].
  cbn [steps_from]. rewrite !filter_cons. cbn [completed fst].
  destruct (decide (b' = b)); simpl; now rewrite IH.
Qed.

Lemma flag_counts items :
  (length (filter (fun it : bool * string => it.1 = true) items)
   + length (filter (fun it : bool * string => it.1 = false) items))%nat
  = length items.
Proof.
  induction items as [|[[] t] items IH]; [reflexivity| |];
    rewrite !filter_cons; cbn [fst];
    [rewrite decide_True, decide_False by congruence
    |rewrite decide_False, decide_True by congruence];
    simpl; lia.
Qed.

Lemma flag_count_insert (b : bool) items i it it' :
  items !! i = Some it ->
  filter (fun it : bool * string => it.1 = b) (<[i := it']> items)
  = (filter (fun it : bool * string => it.1 = b) (take i items)
     ++ filter (fun it : bool * string => it.1 = b) [it']
     ++ filter (fun it : bool * string => it.1 = b) (drop (S i) items))%list.
Proof.
  intros Hi. rewrite insert_take_drop by (eapply lookup_lt_Some; eassumption).
  rewrite filter_app. f_equal. apply (filter_app _ [it']).
Qed.

Lemma flag_count_split (b : bool) items i it :
  items !! i = Some it ->
  filter (fun it : bool * string => it.1 = b) items
  = (filter (fun it : bool * string => it.1 = b) (take i items)
     ++ filter (fun it : bool * string => it.1 = b) [it]
     ++ filter (fun it : bool * string => it.1 = b) (drop (S i) items))%list.
Proof.
  intros Hi. rewrite <- (take_drop_middle items i it Hi) at 1.
  rewrite filter_app. f_equal. apply (filter_app _ [it]).
Qed.

Lemma progress_render c :
  valid c ->
  get_todo_progress (render c)
  = {| total :=
         (length (filter (fun st => completed st = true) (steps_from (items c) 0))
          + length (filter (fun st => completed st = false)
                      (steps_from (items c) 0)))%nat;
       n_completed :=
         length (filter (fun st => completed st = true) (steps_from (items c) 0));
       n_pending :=
         length (filter (fun st => completed st = false) (steps_from (items c) 0));
       current_step :=
         head (filter (fun st => completed st = false) (steps_from (items c) 0));
       all_done :=
         Nat.eqb (length (filter (fun st => completed st = false)
                            (steps_from (items c) 0))) 0 |}.
Proof.
  intros Hv. unfold get_todo_progress. now rewrite parse_render.
Qed.

(** X4. On a rendered checklist [get_todo_progress] counts the boxes:
    [total] is the number of items, [completed] the number of checked
    ones and [pending] the number of unchecked ones, and [all_done] holds
    exactly when no box is unchecked.  Marking an unchecked item keeps
    [total], adds one to [completed] and takes one from [pending]. *)
Theorem progress_counts_the_boxes (c : Checklist) :
  valid c ->
  let count (b : bool) :=
    length (filter (fun it : bool * string => it.1 = b) (items c)) in
  let progress := get_todo_progress (render c) in
  total progress = length (items c)
  /\ n_completed progress = count true
  /\ n_pending progress = count false
  /\ (all_done progress = true <-> count false = 0%nat)
  /\ forall i t,
       items c !! i = Some (false, t) ->
       let after := get_todo_progress (mark_step_completed (render c) i) in
       total after = total progress
       /\ n_completed after = S (n_completed progress)
       /\ S (n_pending after) = n_pending progress.
Proof.
  intros Hv count progress. subst count progress.
  rewrite progress_render by exact Hv. cbn [total n_completed n_pending all_done].
  rewrite !steps_from_flag_count.
  split; [apply flag_counts|].
  split; [reflexivity|]. split; [reflexivity|].
  split; [apply Nat.eqb_eq|].
  - intros i t Hi.
    rewrite mark_render by exact Hv.
    rewrite progress_render by now apply mark_valid.
    cbn [total n_completed n_pending mark items].
    rewrite !steps_from_flag_count.
    rewrite (mark_item_unchecked _ _ _ Hi).
    rewrite !(flag_count_insert _ _ _ _ _ Hi), !(flag_count_split _ _ _ _ Hi).
    rewrite !length_app. simpl. lia.
Qed.

Lemma first_pending_step items k :
  head (filter (fun st => completed st = false) (steps_from items k))
  = (fun '(i, it) => {| index := k + i; text := it.2; completed := false |})
    <$> list_find (fun it : bool * string => it.1 = false) items.
Proof.
  revert k. induction items as [|[b t] items IH]; intros k; [reflexivity|].
  cbn [steps_from list_find]. rewrite filter_cons. cbn [completed fst].
  destruct b.
  - rewrite decide_False by discriminate. rewrite decide_False by discriminate.
    rewrite IH.
    destruct (list_find _ items) as [[i it]|]; simpl; [|reflexivity].
    do 2 f_equal. lia.
  - rewrite decide_True by reflexivity. rewrite decide_True by reflexivity.
    simpl. now rewrite Nat.add_0_r.
Qed.

Lemma current_step_render c :
  valid c ->
  get_current_step (render c)
  = (fun '(i, it) => {| index := i; text := it.2; completed := false |})
    <$> list_find (fun it : bool * string => it.1 = false) (items c).
Proof.
  intros Hv. unfold get_current_step. rewrite parse_render by exact Hv.
  pose proof (first_pending_step (items c) 0) as H.
  destruct (filter _ (steps_from (items c) 0)) as [|st l]; simpl in *;
    rewrite <- H; reflexivity.
Qed.

(** X5. On a rendered checklist [get_current_step] is the first
    unchecked item, with its position as index.  After
    [mark_step_completed] on the index of the current step, the current
    step is a later item, or there is none and the progress reports
    [all_done]. *)
Theorem marking_the_current_step_moves_on (c : Checklist) :
  valid c ->
  get_current_step (render c)
  = ((fun '(i, it) => {| index := i; text := it.2; completed := false |})
     <$> list_find (fun it : bool * string => it.1 = false) (items c))
  /\ forall st,
       get_current_step (render c) = Some st ->
       match get_current_step (mark_step_completed (render c) (index st)) with
       | Some next => (index st < index next)%nat
       | None =>
           all_done (get_todo_progress
                       (mark_step_completed (render c) (index st))) = true
       end.
Proof.
  intros Hv. split; [now apply current_step_render|].
  intros st Hst. rewrite current_step_render in Hst by exact Hv.
  destruct (list_find _ (items c)) as [[i [b t]]|] eqn:Hf; [|discriminate].
  injection Hst as <-. cbn [index].
  apply list_find_Some in Hf. destruct Hf as (Hi & Hb & Hbefore).
  cbn [fst] in Hb. subst b.
  rewrite mark_render by exact Hv.
  pose proof (mark_valid i c Hv) as Hv'.
  rewrite current_step_render by exact Hv'.
  destruct (list_find _ (items (mark i c))) as [[j [b' t']]|] eqn:Hf'.
  - cbn [fmap option_fmap option_map index].
    apply list_find_Some in Hf'. destruct Hf' as (Hj & Hb' & _).
    cbn [fst] in Hb'. subst b'.
    cbn [mark items] in Hj. rewrite (mark_item_unchecked _ _ _ Hi) in Hj.
    destruct (Nat.lt_trichotomy i j) as [Hlt|[->|Hgt]]; [exact Hlt| |].
    + rewrite list_lookup_insert_eq in Hj by (eapply lookup_lt_Some; eassumption).
      discriminate Hj.
    + rewrite list_lookup_insert_ne in Hj by lia.
      exfalso. apply (Hbefore j (false, t') Hj Hgt). reflexivity.
  - cbn [fmap option_fmap option_map].
    rewrite progress_render by exact Hv'. cbn [all_done].
    pose proof (first_pending_step (items (mark i c)) 0) as H.
    rewrite Hf' in H. cbn [fmap option_fmap option_map] in H.
    destruct (filter _ (steps_from (items (mark i c)) 0));
      [reflexivity|discriminate H].
Qed.

End ProgressFacts.

Lemma valid_sample_checklist : valid sample_checklist.
Proof.
  split_and!; [reflexivity|reflexivity|].
  repeat apply Forall_cons_2; [| |apply Forall_nil_2];
    (split_and!; [discriminate|reflexivity|reflexivity]).
Qed.

Lemma progress_counts_the_boxes_witness :
  TodoParser.n_completed
    (TodoParser.get_todo_progress
       (TodoParser.mark_step_completed (render sample_checklist) 1))
  = 2%nat.
Proof.
  destruct (progress_counts_the_boxes sample_checklist valid_sample_checklist)
    as (_ & Hc & _ & _ & H).
  destruct (H 1%nat "step2" eq_refl) as (_ & -> & _).
  rewrite Hc. reflexivity.
Defined.

Lemma marking_the_current_step_moves_on_witness :
  TodoParser.get_current_step (render sample_checklist)
  = Some {| TodoParser.index := 1; TodoParser.text := "step2";
            TodoParser.completed := false |}.
Proof.
  destruct (marking_the_current_step_moves_on sample_checklist
              valid_sample_checklist) as [-> _].
  reflexivity.
Defined.

(** ** The task parser and the todo it creates *)

Section TaskParserFacts.
Import Re TodoParser.

Lemma append_assoc (a b c : string) : (a +:+ b) +:+ c = a +:+ b +:+ c.
Proof.
  induction a as [|x a IH]; [reflexivity|].
  change (String x (a +:+ b) +:+ c = String x (a +:+ b +:+ c)).
  change (String x ((a +:+ b) +:+ c) = String x (a +:+ b +:+ c)).
  now rewrite IH.
Qed.

Lemma append_nil_r (a : string) : a +:+ EmptyString = a.
Proof.
  induction a as [|x a IH]; [reflexivity|].
  change (String x (a +:+ EmptyString) = String x a). now rewrite IH.
Qed.

Lemma fold_steps steps content :
  fold_left (fun content step => content +:+ "- [ ] " +:+ step +:+ Py.nl_str)
    steps content
  = content +:+ step_lines steps.
Proof.
  revert content. induction steps as [|step steps IH]; intros content.
  - simpl. now rewrite append_nil_r.
  - cbn [fold_left step_lines]. rewrite IH.
    now rewrite !append_assoc.
Qed.

Lemma split_step_lines steps :
  Forall clean_text steps ->
  Py.split_char Py.nl (step_lines steps)
  = (map (fun step => item_line (false, step)) steps ++ [EmptyString])%list.
Proof.
  induction 1 as [|step steps Hs H IH]; [reflexivity|].
  cbn [step_lines map app].
  change ("- [ ] " +:+ step +:+ Py.nl_str +:+ step_lines steps)
    with (("- [ ] " +:+ step) +:+ Py.nl_str +:+ step_lines steps).
  rewrite split_app_nl; [now rewrite IH|].
  rewrite no_nl_app. now destruct Hs as (_ & -> & _).
Qed.

(** One item line in the task section. *)
Lemma parse_item_line (b : bool) t rest k :
  clean_text t ->
  parse_lines (item_line (b, t) :: rest) true k
  = let '(cs, ps) := parse_lines rest true (S k) in
    if b then ({| index := k; text := t; completed := true |} :: cs, ps)
    else (cs, {| index := k; text := t; completed := false |} :: ps).
Proof.
  intros Ht.
  destruct (item_line_facts (b, t) Ht) as (Hs & Ho & _ & Hx).
  destruct (clean_text_head _ Ht) as (c & s & Heq & Hc & Hnl & Hr).
  cbn [fst snd] in *. subst t.
  cbn [parse_lines]. rewrite Hs, Ho, Hx. cbn [negb].
  unfold item_line. cbn [fst snd].
  assert (Hslice : forall pre : string,
            String.length pre = 6%nat ->
            Py.slice 6 (6 + String.length (String c s)) (pre +:+ String c s)
            = String c s).
  { intros pre Hpre. unfold Py.slice.
    replace (6 + String.length (String c s) - 6)%nat
      with (String.length (String c s)) by lia.
    do 7 (destruct pre as [|? pre]; try discriminate Hpre).
    change (String.substring 0 (String.length (String c s)) (String c s)
            = String c s).
    apply substring_all. }
  destruct b.
  - rewrite completed_re_checked by assumption.
    unfold group. cbn [get_cap Nat.eqb m_caps from_option id].
    rewrite Hslice by reflexivity.
    replace (Py.strip (String c s)) with (String c s) by (symmetry; apply Ht).
    reflexivity.
  - rewrite completed_re_unchecked.
    rewrite pending_re_unchecked by assumption.
    unfold group. cbn [get_cap Nat.eqb m_caps from_option id].
    rewrite Hslice by reflexivity.
    replace (Py.strip (String c s)) with (String c s) by (symmetry; apply Ht).
    reflexivity.
Qed.

Lemma parse_pending_lines steps rest k :
  Forall clean_text steps ->
  parse_lines (map (fun step => item_line (false, step)) steps ++ rest) true k
  = let '(cs, ps) := parse_lines rest true (k + length steps) in
    (cs, (imap (fun i step => {| index := k + i; text := step; completed := false |})
            steps ++ ps)%list).
Proof.
  intros H. revert k. induction H as [|step steps Hs H IH]; intros k.
  - simpl. rewrite Nat.add_0_r. now destruct (parse_lines rest true k).
  - cbn [map app]. rewrite parse_item_line by exact Hs. rewrite IH.
    replace (S k + length steps)%nat with (k + length (step :: steps))%nat
      by (simpl; lia).
    destruct (parse_lines rest true _) as [cs ps].
    cbn [imap app]. rewrite Nat.add_0_r. do 2 f_equal.
    f_equal. apply imap_ext. intros i x _. simpl. f_equal. lia.
Qed.

Lemma parse_lines_skip l1 l2 k :
  Forall (fun l => opens_tasks (Py.strip l) = false) l1 ->
  parse_lines (l1 ++ l2) false k = parse_lines l2 false k.
Proof.
  induction 1 as [|line lines Hl H IH]; [reflexivity|].
  cbn [app parse_lines]. rewrite Hl. cbn [negb]. exact IH.
Qed.

Lemma heading_closed t : opens_tasks (Py.strip ("# " +:+ t)) = false.
Proof. exact (title_line_closed {| title := t; goal := EmptyString; items := [] |}). Qed.

Lemma goal_heading_closed g : opens_tasks (Py.strip ("## Goal: " +:+ g)) = false.
Proof. exact (goal_line_closed {| title := EmptyString; goal := g; items := [] |}). Qed.

Lemma starts_nonempty c s :
  Py.is_space c = false ->
  Py.truthy_str (String c s) = true
  /\ Py.truthy_str (Py.strip (String c s)) = true.
Proof.
  intros Hc. split; [reflexivity|].
  unfold Py.strip. cbn [Py.lstrip]. rewrite Hc.
  rewrite rstrip_cons_nonspace by exact Hc. reflexivity.
Qed.

(** The content built from an answer of the LLM, line by line. *)
Lemma content_lines (response : TaskParser.TodoStructureResponse) :
  no_nl (TaskParser.title response) = true ->
  no_nl (TaskParser.goal response) = true ->
  Forall clean_text (TaskParser.steps response) ->
  let content := TaskParser.build_content response in
  Py.split_char Py.nl content
  = (("# " +:+ TaskParser.title response) :: EmptyString
     :: ("## Goal: " +:+ TaskParser.goal response) :: EmptyString :: "## Tasks:"
     :: map (fun step => item_line (false, step)) (TaskParser.steps response)
     ++ [EmptyString])%list
  /\ Py.truthy_str content = true
  /\ Py.truthy_str (Py.strip content) = true.
Proof.
  intros Ht Hg Hs content. subst content. unfold TaskParser.build_content.
  cbv zeta. rewrite fold_steps.
  set (title := TaskParser.title response) in *.
  set (goal := TaskParser.goal response) in *.
  set (rest := step_lines (TaskParser.steps response)).
  replace (((("# " +:+ title +:+ Py.nl_str +:+ Py.nl_str)
             +:+ "## Goal: " +:+ goal +:+ Py.nl_str +:+ Py.nl_str)
            +:+ "## Tasks:" +:+ Py.nl_str) +:+ rest)
    with (("# " +:+ title) +:+ Py.nl_str
          +:+ (EmptyString +:+ Py.nl_str
               +:+ (("## Goal: " +:+ goal) +:+ Py.nl_str
                    +:+ (EmptyString +:+ Py.nl_str
                         +:+ ("## Tasks:" +:+ Py.nl_str +:+ rest)))))
    by (cbn [String.append]; rewrite !append_assoc; reflexivity).
  split.
  - rewrite split_app_nl by (rewrite no_nl_app; now rewrite Ht).
    rewrite split_app_nl by reflexivity.
    rewrite split_app_nl by (rewrite no_nl_app; now rewrite Hg).
    rewrite split_app_nl by reflexivity.
    rewrite split_app_nl by reflexivity.
    subst rest. now rewrite split_step_lines by exact Hs.
  - apply (starts_nonempty "#"). reflexivity.
Qed.

Lemma split_append s rest :
  Py.split_char Py.nl (s +:+ String Py.nl rest)
  = (Py.split_char Py.nl s ++ Py.split_char Py.nl rest)%list.
Proof.
  induction s as [|c s IH]; [reflexivity|].
  change (String c s +:+ String Py.nl rest)
    with (String c (s +:+ String Py.nl rest)).
  cbn [Py.split_char]. rewrite IH.
  destruct (Ascii.eqb c Py.nl); [reflexivity|].
  pose proof (split_nonempty s) as Hne.
  destruct (Py.split_char Py.nl s); [congruence|reflexivity].
Qed.

Lemma split_prepend pre s :
  no_nl pre = true ->
  Py.split_char Py.nl (pre +:+ s)
  = match Py.split_char Py.nl s with
    | h :: t => (pre +:+ h) :: t
    | [] => [pre]
    end.
Proof.
  induction pre as [|c pre IH]; intros H.
  - change (EmptyString +:+ s) with s. pose proof (split_nonempty s).
    destruct (Py.split_char Py.nl s); [congruence|reflexivity].
  - simpl in H. apply andb_true_iff in H. destruct H as [Hc Hp].
    apply negb_true_iff in Hc.
    change (String c pre +:+ s) with (String c (pre +:+ s)).
    cbn [Py.split_char]. rewrite Hc, IH by exact Hp.
    pose proof (split_nonempty s).
    destruct (Py.split_char Py.nl s); [congruence|reflexivity].
Qed.

(** The lines of the fallback content. *)
Lemma fallback_lines goal :
  exists h t,
    Py.split_char Py.nl goal = h :: t
    /\ Py.split_char Py.nl (TaskParser.fallback_content goal)
       = ([ "# Task"; EmptyString; "## Goal: " +:+ h ] ++ t
          ++ [ EmptyString; "## Tasks:"; "- [ ] Complete the task"; EmptyString ])%list.
Proof.
  pose proof (split_nonempty goal) as Hne.
  destruct (Py.split_char Py.nl goal) as [|h t] eqn:E; [congruence|].
  exists h, t. split; [reflexivity|].
  unfold TaskParser.fallback_content.
  change ("# Task" +:+ Py.nl_str +:+ Py.nl_str +:+ "## Goal: " +:+ goal
          +:+ Py.nl_str +:+ Py.nl_str +:+ "## Tasks:" +:+ Py.nl_str
          +:+ "- [ ] Complete the task" +:+ Py.nl_str)
    with ("# Task" +:+ Py.nl_str
          +:+ (EmptyString +:+ Py.nl_str
               +:+ ("## Goal: "
                    +:+ (goal +:+ String Py.nl
                           (Py.nl_str +:+ "## Tasks:" +:+ Py.nl_str
                            +:+ "- [ ] Complete the task" +:+ Py.nl_str))))).
  rewrite split_app_nl by reflexivity.
  rewrite split_app_nl by reflexivity.
  rewrite split_prepend by reflexivity.
  rewrite split_append, E. reflexivity.
Qed.

(** X7. The todo that [llm_create_todo_structure] creates parses back
    to its steps.  For a blank task, and for a failed LLM call on a task
    without a task-section heading of its own, [parse_todo_steps] gives
    the one pending step "Complete the task".  For an answer of the LLM
    whose title and goal have no line break and whose steps are
    single-line texts, it gives the steps of the answer, all pending and
    numbered in order, and the current step is the first of them. *)
Theorem created_todo_parses_to_its_steps (task : string)
  (llm : option TaskParser.TodoStructureResponse) :
  let todo := TaskParser.llm_create_todo_structure task llm in
  let only_step :=
    [ {| index := 0; text := "Complete the task"; completed := false |} ] in
  (Py.truthy_str (Py.strip task) = false ->
   parse_todo_steps todo = ([], only_step))
  /\ (Py.truthy_str (Py.strip task) = true -> llm = None ->
      Forall (fun l => opens_tasks (Py.strip l) = false)
        (Py.split_char Py.nl task) ->
      parse_todo_steps todo = ([], only_step))
  /\ (forall response,
        Py.truthy_str (Py.strip task) = true -> llm = Some response ->
        no_nl (TaskParser.title response) = true ->
        no_nl (TaskParser.goal response) = true ->
        Forall clean_text (TaskParser.steps response) ->
        parse_todo_steps todo
        = ([], imap (fun i step =>
                       {| index := i; text := step; completed := false |})
                 (TaskParser.steps response))
        /\ total (get_todo_progress todo) = length (TaskParser.steps response)
        /\ get_current_step todo
           = ((fun step => {| index := 0; text := step; completed := false |})
              <$> head (TaskParser.steps response))).
Proof.
  intros todo only_step. subst todo only_step.
  unfold TaskParser.llm_create_todo_structure.
  assert (Hblank : Py.truthy_str task = false -> Py.truthy_str (Py.strip task) = false).
  { unfold Py.truthy_str. intros H. apply negb_false_iff, String.eqb_eq in H.
    now subst task. }
  assert (Hfall : forall goal,
            Forall (fun l => opens_tasks (Py.strip l) = false)
              (Py.split_char Py.nl goal) ->
            parse_todo_steps (TaskParser.fallback_content goal)
            = ([], [ {| index := 0; text := "Complete the task";
                        completed := false |} ])).
  { intros goal Hg. unfold parse_todo_steps.
    replace (negb (Py.truthy_str (TaskParser.fallback_content goal))
             || negb (Py.truthy_str (Py.strip (TaskParser.fallback_content goal))))
      with false
      by (symmetry; apply orb_false_iff;
          destruct (starts_nonempty "#"
                      (" Task" +:+ Py.nl_str +:+ Py.nl_str +:+ "## Goal: " +:+ goal
                       +:+ Py.nl_str +:+ Py.nl_str +:+ "## Tasks:" +:+ Py.nl_str
                       +:+ "- [ ] Complete the task" +:+ Py.nl_str)
                      eq_refl) as [H1 H2];
          split; apply negb_false_iff; [exact H1|exact H2]).
    destruct (fallback_lines goal) as (h & t & Hsplit & ->).
    rewrite Hsplit in Hg. apply Forall_cons in Hg. destruct Hg as [_ Ht].
    rewrite app_assoc, parse_lines_skip; [vm_compute; reflexivity|].
    apply Forall_app. split; [|exact Ht].
    repeat apply Forall_cons_2; try reflexivity; [|constructor].
    apply goal_heading_closed. }
  split_and!.
  - intros Hb. rewrite Hb, orb_true_r. apply Hfall. repeat constructor.
  - intros Hb -> Hlines. rewrite Hb. cbn [negb orb].
    destruct (Py.truthy_str task) eqn:Ht; [|now rewrite Hblank in Hb].
    cbn [negb orb]. now apply Hfall.
  - intros response Hb -> Ht Hg Hs. rewrite Hb. cbn [negb orb].
    destruct (Py.truthy_str task) eqn:Htask; [|now rewrite Hblank in Hb].
    cbn [negb orb].
    destruct (content_lines response Ht Hg Hs) as (Hl & Hn1 & Hn2).
    assert (Hp : parse_todo_steps (TaskParser.build_content response)
                 = ([], imap (fun i step =>
                                {| index := i; text := step; completed := false |})
                          (TaskParser.steps response))).
    { unfold parse_todo_steps. rewrite Hn1, Hn2, Hl. cbn [negb orb].
      cbn [parse_lines]. rewrite heading_closed. cbn [negb].
      change (opens_tasks (Py.strip EmptyString)) with false. cbv iota.
      rewrite goal_heading_closed. cbn [negb].
      change (opens_tasks (Py.strip "## Tasks:")) with true. cbv iota.
      rewrite parse_pending_lines by exact Hs.
      replace (parse_lines [EmptyString] true
                 (0 + length (TaskParser.steps response)))
        with (@nil Step, @nil Step) by reflexivity.
      now rewrite app_nil_r. }
    unfold get_todo_progress, get_current_step. rewrite Hp. cbn [total].
    split_and!; [reflexivity|now rewrite length_imap|].
    destruct (TaskParser.steps response); reflexivity.
Qed.

Lemma replace_absent old new s :
  Py.contains old s = false -> Py.replace_from 0 old new s = s.
Proof.
  induction s as [|c s IH]; [reflexivity|].
  cbn [Py.contains Py.replace_from]. intros H.
  apply orb_false_iff in H. destruct H as [-> H]. now rewrite IH.
Qed.

(** X6. [extract_goal_from_todo] reads back the goal that
    [llm_create_todo_structure] wrote from the answer of the LLM, when
    the title has no line break, the goal and the steps are single-line
    texts without surrounding blanks and the goal does not itself contain
    the marker of the goal line. *)
Theorem created_todo_keeps_its_goal (task : string)
  (response : TaskParser.TodoStructureResponse) :
  Py.truthy_str (Py.strip task) = true ->
  no_nl (TaskParser.title response) = true ->
  clean_text (TaskParser.goal response) ->
  Forall clean_text (TaskParser.steps response) ->
  Py.contains "## Goal:" (TaskParser.goal response) = false ->
  extract_goal_from_todo
    (TaskParser.llm_create_todo_structure task (Some response))
  = Some (TaskParser.goal response).
Proof.
  intros Hb Ht Hg Hs Hfree.
  assert (Htask : Py.truthy_str task = true).
  { destruct (Py.truthy_str task) eqn:E; [reflexivity|].
    unfold Py.truthy_str in E. apply negb_false_iff, String.eqb_eq in E.
    subst task. discriminate Hb. }
  unfold TaskParser.llm_create_todo_structure. rewrite Hb, Htask. cbn [negb orb].
  unfold extract_goal_from_todo.
  destruct (content_lines response Ht (proj1 (proj2 Hg)) Hs) as (-> & _).
  cbn [goal_of_lines].
  replace (Py.startswith (Py.strip ("# " +:+ TaskParser.title response)) "## Goal:")
    with false.
  2:{ unfold Py.strip.
      change (Py.lstrip ("# " +:+ TaskParser.title response))
        with (String "#" (String " " (TaskParser.title response))).
      rewrite rstrip_cons_nonspace by reflexivity.
      cbn [Py.rstrip]. destruct (Py.rstrip (TaskParser.title response)); reflexivity. }
  change (Py.startswith (Py.strip EmptyString) "## Goal:") with false. cbv iota.
  destruct (clean_text_head _ Hg) as (c & s & Heq & Hc & Hnl & Hr).
  assert (Hline : Py.strip ("## Goal: " +:+ TaskParser.goal response)
                  = "## Goal: " +:+ TaskParser.goal response).
  { unfold Py.strip.
    change (Py.lstrip ("## Goal: " +:+ TaskParser.goal response))
      with ("## Goal: " +:+ TaskParser.goal response).
    apply rstrip_app; rewrite Heq; [exact Hr|discriminate]. }
  rewrite Hline.
  change (Py.startswith ("## Goal: " +:+ TaskParser.goal response) "## Goal:")
    with true. cbv iota.
  assert (Hrep : Py.replace "## Goal:" EmptyString
                   ("## Goal: " +:+ TaskParser.goal response)
                 = String " " (TaskParser.goal response)).
  { unfold Py.replace.
    change (Py.replace_from 0 "## Goal:" EmptyString
              ("## Goal: " +:+ TaskParser.goal response))
      with (Py.replace_from 0 "## Goal:" EmptyString
              (String " " (TaskParser.goal response))).
    cbn [Py.replace_from].
    change (String.prefix "## Goal:" (String " " (TaskParser.goal response)))
      with false. cbv iota.
    now rewrite replace_absent. }
  rewrite Hrep.
  assert (Hstrip : Py.strip (String " " (TaskParser.goal response))
                   = TaskParser.goal response).
  { unfold Py.strip. cbn [Py.lstrip].
    change (Py.is_space " ") with true. cbv iota.
    apply Hg. }
  rewrite Hstrip.
  rewrite Heq. reflexivity.
Qed.

End TaskParserFacts.

Lemma created_todo_parses_to_its_steps_witness :
  TodoParser.get_current_step
    (TaskParser.llm_create_todo_structure "Sign in to the site"
       (Some sample_response))
  = Some {| TodoParser.index := 0;
            TodoParser.text := "Navigate to the login page";
            TodoParser.completed := false |}.
Proof.
  destruct (created_todo_parses_to_its_steps "Sign in to the site"
              (Some sample_response)) as (_ & _ & H).
  destruct (H sample_response eq_refl eq_refl eq_refl eq_refl) as (_ & _ & ->).
  - repeat constructor; discriminate.
  - reflexivity.
Defined.

Lemma created_todo_keeps_its_goal_witness :
  TodoParser.extract_goal_from_todo
    (TaskParser.llm_create_todo_structure "Sign in to the site"
       (Some sample_response))
  = Some "Reach the dashboard".
Proof.
  apply (created_todo_keeps_its_goal "Sign in to the site" sample_response);
    try reflexivity.
  - split_and!; [discriminate|reflexivity|reflexivity].
  - repeat constructor; discriminate.
Defined.

(** ** The error detector: summary, element scan and severities *)

Section SummaryFacts.
Import Re ErrorDetector.

Lemma add_by_type_types error by_type ty :
  ty ∈ map fst (add_by_type error by_type)
  <-> ty = error_type error \/ ty ∈ map fst by_type.
Proof.
  induction by_type as [|[ty' es] rest IH]; simpl.
  - rewrite list_elem_of_singleton, elem_of_nil. tauto.
  - destruct (String.eqb_spec (error_type error) ty') as [Heq|Hne]; simpl.
    + rewrite !elem_of_cons. split; [tauto|].
      intros [->|H]; [now left|exact H].
    + rewrite !elem_of_cons, IH. tauto.
Qed.

Lemma add_by_type_nodup error by_type :
  NoDup (map fst by_type) -> NoDup (map fst (add_by_type error by_type)).
Proof.
  induction by_type as [|[ty' es] rest IH]; simpl; intros Hnd.
  - apply NoDup_singleton.
  - apply NoDup_cons in Hnd. destruct Hnd as [Hnot Hnd].
    destruct (String.eqb_spec (error_type error) ty') as [Heq|Hne]; simpl.
    + now apply NoDup_cons.
    + apply NoDup_cons. split; [|now apply IH].
      rewrite add_by_type_types. intros [->|H]; [congruence|contradiction].
Qed.

Lemma filter_none {A} (P : A -> Prop) `{forall x, Decision (P x)} (l : list A) :
  (forall x, x ∈ l -> ~ P x) -> filter P l = [].
Proof.
  induction l as [|x l IH]; intros Hl; [reflexivity|].
  rewrite filter_cons. rewrite decide_False by (apply Hl; left).
  apply IH. intros y Hy. apply Hl. now right.
Qed.

Lemma filter_snoc_type (done : list ExtractedError) error ty :
  filter (fun e => error_type e = ty) (done ++ [error])%list
  = (filter (fun e => error_type e = ty) done
     ++ (if decide (error_type error = ty) then [error] else []))%list.
Proof.
  rewrite filter_app. reflexivity.
Qed.

Lemma entry_kept done error (entry : string * list ExtractedError) :
  error_type error <> entry.1 ->
  entry.2 = filter (fun e => error_type e = entry.1) done /\ entry.2 <> [] ->
  entry.2 = filter (fun e => error_type e = entry.1) (done ++ [error])%list
  /\ entry.2 <> [].
Proof.
  intros Hne [He Hn]. split; [|exact Hn].
  rewrite filter_snoc_type. rewrite decide_False by exact Hne.
  now rewrite app_nil_r.
Qed.

Lemma add_by_type_entries done error by_type :
  NoDup (map fst by_type) ->
  Forall (fun entry : string * list ExtractedError =>
            entry.2 = filter (fun e => error_type e = entry.1) done
            /\ entry.2 <> []) by_type ->
  (error_type error ∉ map fst by_type ->
   filter (fun e => error_type e = error_type error) done = []) ->
  Forall (fun entry : string * list ExtractedError =>
            entry.2 = filter (fun e => error_type e = entry.1)
                        (done ++ [error])%list
            /\ entry.2 <> []) (add_by_type error by_type).
Proof.
  induction by_type as [|[ty' es] rest IH]; simpl; intros Hnd Hall Hnew.
  - repeat constructor; simpl; [|discriminate].
    rewrite filter_snoc_type. rewrite Hnew by apply not_elem_of_nil.
    now rewrite decide_True by reflexivity.
  - apply NoDup_cons in Hnd. destruct Hnd as [Hnot Hnd].
    apply Forall_cons in Hall. destruct Hall as [[Hes Hne] Hall].
    simpl in Hes, Hne.
    destruct (String.eqb_spec (error_type error) ty') as [Heq|Hneq].
    + constructor; simpl.
      * rewrite filter_snoc_type. rewrite decide_True by exact Heq.
        split; [now rewrite Hes|]. now destruct es.
      * apply Forall_forall. intros entry Hin.
        apply entry_kept.
        -- intros Hty. apply Hnot. rewrite <- Heq, Hty.
           apply list_elem_of_fmap. now exists entry.
        -- rewrite Forall_forall in Hall. now apply Hall.
    + constructor; simpl.
      * now apply (entry_kept done error (ty', es)).
      * apply IH; [exact Hnd|exact Hall|].
        intros Hrest. apply Hnew. rewrite not_elem_of_cons. now split.
Qed.

Lemma add_by_type_grouped done error by_type :
  grouped done by_type -> grouped (done ++ [error]) (add_by_type error by_type).
Proof.
  intros (Hnd & Hall & Hin). split_and!.
  - now apply add_by_type_nodup.
  - apply add_by_type_entries; [exact Hnd|exact Hall|].
    intros Hnot. apply filter_none. intros e He Hty.
    apply Hnot. rewrite <- Hty. now apply Hin.
  - intros e He. apply add_by_type_types.
    apply elem_of_app in He. destruct He as [He|He].
    + right. now apply Hin.
    + left. apply list_elem_of_singleton in He. now subst.
Qed.

Lemma group_by_type_grouped errors : grouped errors (group_by_type errors).
Proof.
  unfold group_by_type.
  assert (H : forall done by_type,
            grouped done by_type ->
            grouped (done ++ errors)
              (fold_left (fun by_type error => add_by_type error by_type)
                 errors by_type)).
  { induction errors as [|e errors IH]; intros done by_type Hg; simpl.
    - now rewrite app_nil_r.
    - replace (done ++ e :: errors)%list with ((done ++ [e]) ++ errors)%list
        by (now rewrite <- app_assoc).
      apply IH. now apply add_by_type_grouped. }
  apply (H [] []). split_and!.
  - constructor.
  - constructor.
  - intros e He. now apply elem_of_nil in He.
Qed.

(** X8. [get_error_summary] of no errors is "No errors detected";
    otherwise it joins one part per error type with " | ".  The groups
    have distinct types, every type of an error has a group, a group
    holds the errors of its type in their order, and its part is the type
    followed by the first 80 characters of the message of the first error
    of that type. *)
Theorem summary_has_one_part_per_type (errors : list ExtractedError) :
  get_error_summary [] = "No errors detected"
  /\ (errors <> [] ->
      get_error_summary errors
      = Py.join " | " (map summary_part (group_by_type errors)))
  /\ NoDup (map fst (group_by_type errors))
  /\ (forall e, e ∈ errors -> error_type e ∈ map fst (group_by_type errors))
  /\ Forall (fun entry : string * list ExtractedError =>
               exists first rest,
                 filter (fun e => error_type e = entry.1) errors = first :: rest
                 /\ entry.2 = first :: rest
                 /\ summary_part entry
                    = entry.1 +:+ ": " +:+ Py.take 80 (message first))
       (group_by_type errors).
Proof.
  destruct (group_by_type_grouped errors) as (Hnd & Hall & Hin).
  split; [reflexivity|].
  split; [intros Hne; now destruct errors|].
  split; [exact Hnd|]. split; [exact Hin|].
  eapply Forall_impl; [exact Hall|].
  intros [ty es] [Hes Hne]. simpl in *.
  destruct es as [|first rest]; [congruence|].
  exists first, rest. split_and!; [now rewrite <- Hes|reflexivity|reflexivity].
Qed.

End SummaryFacts.

Section DetectorFacts.
Import Re ErrorDetector.

(** X9. [has_page_errors] runs the extraction without a browser
    session.  When it reports an error, [extract_errors_from_dom]
    returns a non-empty list with any session; without a DOM it reports
    none; and it reports an error exactly when the pattern scan of the DOM
    text or the scan of the clickable elements finds one. *)
Theorem quick_check_is_sound (browser_state : BrowserState) :
  (has_page_errors browser_state = true ->
   forall browser_session,
     extract_errors_from_dom browser_state browser_session <> [])
  /\ (dom browser_state = None -> has_page_errors browser_state = false)
  /\ (has_page_errors browser_state = true <->
      exists d, dom browser_state = Some d
                /\ (_scan_for_error_patterns (_extract_dom_text d)
                    ++ _find_error_elements d)%list <> []).
Proof.
  unfold has_page_errors, extract_errors_from_dom. simpl.
  split_and!.
  - intros H browser_session.
    destruct (console_errors_of browser_session) as [|e l]; [|discriminate].
    destruct (dom browser_state) as [d|]; [|discriminate H].
    intros Hnil. rewrite Hnil in H. discriminate H.
  - intros ->. reflexivity.
  - split.
    + intros H. destruct (dom browser_state) as [d|]; [|discriminate H].
      exists d. split; [reflexivity|]. intros Hnil. rewrite Hnil in H.
      discriminate H.
    + intros (d & -> & Hne).
      destruct (_ ++ _)%list; [congruence|reflexivity].
Qed.

Lemma element_error_cases elem :
  element_error elem = []
  \/ (Py.truthy_str (Py.strip (default EmptyString (elem_text elem))) = true
      /\ element_error elem
         = [ {| error_type := "validation";
                message := Py.strip (default EmptyString (elem_text elem));
                element_id := elem_element_id elem; field_name := None;
                severity := "high";
                recovery_hint := Some "Fix the validation error" |} ]).
Proof.
  unfold element_error.
  destruct (existsb _ error_indicators) eqn:E; [|now left].
  right. split; [|reflexivity].
  apply existsb_exists in E. destruct E as (ind & _ & H).
  now apply andb_true_iff in H.
Qed.

Lemma find_error_elements_forall (d : Dom) :
  Forall (fun e =>
            error_type e = "validation" /\ severity e = "high"
            /\ recovery_hint e = Some "Fix the validation error"
            /\ message e <> EmptyString
            /\ exists elem,
                 elem ∈ default [] (clickable_elements d)
                 /\ message e = Py.strip (default EmptyString (elem_text elem))
                 /\ element_id e = elem_element_id elem)
    (_find_error_elements d).
Proof.
  unfold _find_error_elements.
  destruct (clickable_elements d) as [elems|]; simpl; [|constructor].
  induction elems as [|elem elems IHf]; simpl; [constructor|].
  destruct (element_error_cases elem) as [->|[Ht ->]]; simpl.
  - eapply Forall_impl; [exact IHf|].
    intros e (? & ? & ? & ? & x & Hx & ?). split_and!; try assumption.
    exists x. split; [now right|assumption].
  - constructor.
    + simpl. split_and!; try reflexivity.
      * intros Hm. rewrite Hm in Ht. discriminate Ht.
      * exists elem. split; [now left|split; reflexivity].
    + eapply Forall_impl; [exact IHf|].
      intros e (? & ? & ? & ? & x & Hx & ?). split_and!; try assumption.
      exists x. split; [now right|assumption].
Qed.

Lemma classify_severity_range error_type :
  _classify_severity error_type = "high" \/ _classify_severity error_type = "medium".
Proof.
  unfold _classify_severity. simpl.
  repeat match goal with
         | |- context [if ?b then _ else _] => destruct b
         end; simpl; auto.
Qed.

Lemma add_validation_errors_forall (P : ExtractedError -> Prop) errors val_errs :
  Forall P errors -> (forall v, P (validation_error v)) ->
  Forall P (add_validation_errors errors val_errs).
Proof.
  intros He Hv. revert errors He.
  induction val_errs as [|v rest IH]; intros errors He; simpl; [exact He|].
  destruct (existsb _ errors); apply IH; [exact He|].
  apply Forall_app. split; [exact He|]. now repeat constructor.
Qed.

(** X10. [_find_error_elements] reports each clickable element at most
    once.  Every error it returns is a "validation" error of severity
    "high" with the hint "Fix the validation error", whose message is the
    stripped text, not empty, of a clickable element and whose element id
    is the id of that element. *)
Theorem one_error_per_element_at_most (d : Dom) :
  let elems := default [] (clickable_elements d) in
  let errors := _find_error_elements d in
  (length errors <= length elems)%nat
  /\ Forall (fun e =>
               error_type e = "validation" /\ severity e = "high"
               /\ recovery_hint e = Some "Fix the validation error"
               /\ message e <> EmptyString
               /\ exists elem,
                    elem ∈ elems
                    /\ message e = Py.strip (default EmptyString (elem_text elem))
                    /\ element_id e = elem_element_id elem) errors.
Proof.
  split; [|exact (find_error_elements_forall d)].
  unfold _find_error_elements.
  destruct (clickable_elements d) as [elems|]; simpl; [|lia].
  induction elems as [|elem elems IH]; simpl; [lia|].
  destruct (element_error_cases elem) as [->|[_ ->]]; simpl; lia.
Qed.

(** X11. Every error that [extract_errors_from_dom] or
    [extract_errors_from_action_result] returns has severity "high" or
    "medium", never "low"; an action result yields three errors at
    most. *)
Theorem detected_severity_is_high_or_medium :
  (forall browser_state browser_session,
     Forall (fun e => severity e = "high" \/ severity e = "medium")
       (extract_errors_from_dom browser_state browser_session))
  /\ (forall action_result,
        Forall (fun e => severity e = "high" \/ severity e = "medium")
          (extract_errors_from_action_result action_result)
        /\ (length (extract_errors_from_action_result action_result) <= 3)%nat).
Proof.
  split.
  - intros browser_state browser_session. unfold extract_errors_from_dom.
    assert (Hc : Forall (fun e => severity e = "high" \/ severity e = "medium")
                   (console_errors_of browser_session)).
    { unfold console_errors_of.
      destruct browser_session as [session|]; [|constructor].
      destruct (console_watchdog session) as [watchdog|]; [|constructor].
      apply add_validation_errors_forall; [|now right].
      apply Forall_map, Forall_forall. intros m _.
      apply classify_severity_range. }
    destruct (console_errors_of browser_session) as [|e l]; [|exact Hc].
    destruct (dom browser_state) as [d|]; [|constructor].
    apply Forall_app. split.
    + unfold _scan_for_error_patterns. apply Forall_flat_map, Forall_forall.
      intros [ty patterns] _. apply Forall_flat_map, Forall_forall.
      intros p _. unfold pattern_errors. apply Forall_map, Forall_forall.
      intros x _. apply classify_severity_range.
    + pose proof (find_error_elements_forall d) as H.
      eapply Forall_impl; [exact H|]. intros e' (_ & -> & _). now left.
  - intros action_result. unfold extract_errors_from_action_result.
    repeat match goal with
           | |- context [match ?x with Some _ => _ | None => _ end] => destruct x
           | |- context [if ?b then _ else _] => destruct b
           end; simpl;
      (split; [|lia]);
      repeat first [apply Forall_nil_2 | apply Forall_cons_2]; simpl;
      try (now right); apply classify_severity_range.
Qed.

End DetectorFacts.

(** ** The page-context analyzer: page types, validation and recovery *)

Section PageRangeFacts.
Import PageContext.

Variable urlparse_path : string -> option string.

Ltac split_ifs' :=
  repeat match goal with
         | |- context [if ?b then _ else _] => destruct b eqn:?
         end.

(** X12. [infer_current_page] returns one of thirteen page types.  For
    an analyzer built by [__init__] it never returns "login": both tests
    of the login page need the signal [password], which
    [_extract_text_elements] never emits. *)
Theorem inferred_page_range :
  (forall self : PageContextAnalyzer,
     In (infer_current_page urlparse_path self) PAGE_TYPES)
  /\ (forall browser_state : option BrowserStateSummary,
        In (infer_current_page urlparse_path (init browser_state))
          (tail PAGE_TYPES)).
Proof.
  split.
  - intros self. unfold infer_current_page, PAGE_TYPES. simpl.
    split_ifs'; tauto.
  - intros browser_state. unfold infer_current_page, PAGE_TYPES.
    rewrite ?(not_signal_absent urlparse_path browser_state "password"
                password_not_signal).
    simpl. rewrite ?andb_false_r. simpl. split_ifs'; tauto.
Qed.

End PageRangeFacts.

Section ElementCountFacts.
Import PageContext.

Lemma types_total_insert_new (types : gmap string nat) k n :
  types !! k = None ->
  types_total (<[k := n]> types) = (n + types_total types)%nat.
Proof.
  intros Hk. unfold types_total.
  apply (map_fold_insert_L (fun (_ : string) (n acc : nat) => (n + acc)%nat));
    [|exact Hk].
  intros. lia.
Qed.

Lemma types_total_count (types : gmap string nat) k :
  types_total (<[k := (default 0 (types !! k) + 1)%nat]> types)
  = S (types_total types).
Proof.
  destruct (types !! k) as [n|] eqn:Hk; simpl.
  - rewrite <- (insert_delete_id types k n Hk) at 2.
    rewrite <- insert_delete_eq.
    rewrite !types_total_insert_new by apply lookup_delete_eq. lia.
  - rewrite types_total_insert_new by exact Hk. lia.
Qed.

Lemma get_element_types_total selector_map (types : gmap string nat) :
  types_total
    (fold_left
       (fun (types : gmap string nat) '((_, elem_info) : Z * string) =>
          let elem_type := element_type_of elem_info in
          <[elem_type := (default 0 (types !! elem_type) + 1)%nat]> types)
       selector_map types)
  = (types_total types + length selector_map)%nat.
Proof.
  revert types. induction selector_map as [|[i elem_info] l IH]; intros types.
  - simpl. lia.
  - cbn [fold_left length]. rewrite IH. cbv zeta.
    rewrite types_total_count. lia.
Qed.

(** X29. [_get_element_types] counts every element of the selector map
    once: the counts add up to the number of elements, each count is
    positive, and the [element_count] of [_extract_dom_info] is the sum
    of its [element_types]. *)
Theorem element_types_count_every_element :
  (forall selector_map : list (Z * string),
     types_total (_get_element_types selector_map) = length selector_map)
  /\ (forall browser_state d,
        _extract_dom_info browser_state = Some d ->
        element_count d = types_total (element_types d))
  /\ (forall selector_map ty n,
        _get_element_types selector_map !! ty = Some n ->
        (0 < n <= length selector_map)%nat).
Proof.
  assert (Htotal : forall selector_map : list (Z * string),
            types_total (_get_element_types selector_map) = length selector_map).
  { intros selector_map. unfold _get_element_types.
    rewrite get_element_types_total. reflexivity. }
  split; [exact Htotal|]. split.
  - intros browser_state d. unfold _extract_dom_info.
    destruct browser_state as [bs|]; [|discriminate].
    destruct (dom_state bs) as [ds|]; [|discriminate].
    intros [= <-]. cbn [element_count element_types]. now rewrite Htotal.
  - intros selector_map ty n Hty.
    assert (Hpos : forall (l : list (Z * string)) (types : gmap string nat),
              (forall k v, types !! k = Some v -> (0 < v)%nat) ->
              forall k v,
                fold_left
                  (fun (types : gmap string nat) '((_, elem_info) : Z * string) =>
                     let elem_type := element_type_of elem_info in
                     <[elem_type := (default 0 (types !! elem_type) + 1)%nat]> types)
                  l types !! k = Some v -> (0 < v)%nat).
    { induction l as [|[i elem_info] l IH]; intros types Ht k v; [apply Ht|].
      cbn [fold_left]. apply IH. intros k' v'. cbv zeta.
      destruct (decide (k' = element_type_of elem_info)) as [->|Hne].
      - rewrite lookup_insert_eq. intros [= <-]. lia.
      - rewrite lookup_insert_ne by congruence. apply Ht. }
    split.
    + eapply (Hpos selector_map ∅); [|exact Hty].
      intros k v Hk. rewrite lookup_empty in Hk. discriminate Hk.
    + rewrite <- (Htotal selector_map).
      rewrite <- (insert_delete_id _ ty n Hty).
      rewrite <- insert_delete_eq.
      rewrite types_total_insert_new by apply lookup_delete_eq. lia.
Qed.

End ElementCountFacts.

Section RecoveryFacts.
Import PageContext.

Variable urlparse_path : string -> option string.

Lemma action_in_steps action keywords kw step_lower :
  In (action, keywords) action_keywords -> In kw keywords ->
  Py.contains kw step_lower = true ->
  action ∈ step_actions_of step_lower.
Proof.
  intros Ha Hk Hc. unfold step_actions_of.
  apply list_elem_of_fmap. exists (action, keywords). split; [reflexivity|].
  apply list_elem_of_filter. split.
  - unfold Py.any_in. apply existsb_exists. now exists kw.
  - now apply list_elem_of_In.
Qed.

Lemma page_in_expected action pages page step_actions :
  action ∈ step_actions ->
  ErrorDetector.lookup_str action action_to_page_patterns = Some (Some pages) ->
  In page pages ->
  page ∈ expected_pages_of step_actions.
Proof.
  intros Ha Hl Hp. unfold expected_pages_of.
  apply elem_of_list_to_set, list_elem_of_In, in_flat_map.
  exists action. split; [now apply list_elem_of_In|]. now rewrite Hl.
Qed.

(** The page that a step aims at is among the pages expected for it. *)
Lemma target_is_expected step_lower target_page :
  target_page_of step_lower = Some target_page ->
  target_page ∈ expected_pages_of (step_actions_of step_lower).
Proof.
  unfold target_page_of, action_to_page. cbn [List.find].
  repeat match goal with
         | |- context [Py.contains ?kw ?s] =>
             destruct (Py.contains kw s) eqn:?
         end; cbn [fmap option_fmap option_map snd]; intros [= <-].
  all: match goal with
       | H : Py.contains ?kw _ = true |- ?page ∈ _ =>
           first
             [ eapply (page_in_expected "login" _ page);
               [eapply (action_in_steps "login" _ kw);
                [simpl; tauto|simpl; tauto|exact H]
               |reflexivity|simpl; tauto]
             | eapply (page_in_expected "signup" _ page);
               [eapply (action_in_steps "signup" _ kw);
                [simpl; tauto|simpl; tauto|exact H]
               |reflexivity|simpl; tauto]
             | eapply (page_in_expected "search" _ page);
               [eapply (action_in_steps "search" _ kw);
                [simpl; tauto|simpl; tauto|exact H]
               |reflexivity|simpl; tauto]
             | eapply (page_in_expected "checkout" _ page);
               [eapply (action_in_steps "checkout" _ kw);
                [simpl; tauto|simpl; tauto|exact H]
               |reflexivity|simpl; tauto]
             | eapply (page_in_expected "profile" _ page);
               [eapply (action_in_steps "profile" _ kw);
                [simpl; tauto|simpl; tauto|exact H]
               |reflexivity|simpl; tauto] ]
       end.
Qed.

Lemma valid_on_expected_page self current_step_text :
  infer_current_page urlparse_path self
    ∈ expected_pages_of (step_actions_of (Py.lower current_step_text)) ->
  fst (validate_against_todo_step urlparse_path self current_step_text) = true.
Proof.
  intros Hin. unfold validate_against_todo_step.
  destruct (_ && _); [reflexivity|].
  rewrite (bool_decide_eq_true_2 _ Hin).
  rewrite bool_decide_eq_false_2; [reflexivity|].
  intros He. rewrite He in Hin. now apply elem_of_empty in Hin.
Qed.

Lemma rejected_step_has_suggestion (self : PageContextAnalyzer)
  (current_step : string) (last_action : option string) :
  fst (validate_against_todo_step urlparse_path self current_step) = false ->
  exists suggestion,
    suggest_recovery urlparse_path self current_step last_action = Some suggestion
    /\ Py.truthy_str suggestion = true.
Proof.
  unfold suggest_recovery.
  destruct (validate_against_todo_step urlparse_path self current_step)
    as [is_valid reason] eqn:Ev.
  cbn [fst]. intros ->.
  destruct (target_page_of (Py.lower current_step)) as [target_page|] eqn:Et.
  - destruct (String.eqb_spec (infer_current_page urlparse_path self) target_page)
      as [Heq|Hne].
    + exfalso. apply target_is_expected in Et. rewrite <- Heq in Et.
      apply valid_on_expected_page in Et. rewrite Ev in Et. discriminate Et.
    + repeat match goal with
             | |- context [if ?b then _ else _] => destruct b
             end; eexists; split; reflexivity.
  - repeat match goal with
           | |- context [if ?b then _ else _] => destruct b
           end; eexists; split; reflexivity.
Qed.

(** X13. [suggest_recovery] returns [None] exactly when
    [validate_against_todo_step] accepts the step; a suggestion, when
    there is one, is not the empty text. *)
Theorem recovery_exactly_when_rejected (self : PageContextAnalyzer)
  (current_step : string) (last_action : option string) :
  (suggest_recovery urlparse_path self current_step last_action = None
   <-> fst (validate_against_todo_step urlparse_path self current_step) = true)
  /\ (forall suggestion,
        suggest_recovery urlparse_path self current_step last_action
        = Some suggestion ->
        Py.truthy_str suggestion = true).
Proof.
  unfold suggest_recovery.
  destruct (validate_against_todo_step urlparse_path self current_step)
    as [is_valid reason] eqn:Ev.
  destruct is_valid; [split; [tauto|discriminate]|].
  cbn [fst].
  destruct (target_page_of (Py.lower current_step)) as [target_page|] eqn:Et.
  - destruct (String.eqb_spec (infer_current_page urlparse_path self) target_page)
      as [Heq|Hne].
    + exfalso. apply target_is_expected in Et. rewrite <- Heq in Et.
      apply valid_on_expected_page in Et. rewrite Ev in Et. discriminate Et.
    + split.
      * split; [|discriminate].
        repeat match goal with
               | |- context [if ?b then _ else _] => destruct b
               end; discriminate.
      * intros suggestion.
        repeat match goal with
               | |- context [if ?b then _ else _] => destruct b
               end; intros [= <-]; reflexivity.
  - split.
    + split; [|discriminate].
      repeat match goal with
             | |- context [if ?b then _ else _] => destruct b
             end; discriminate.
    + intros suggestion.
      repeat match goal with
             | |- context [if ?b then _ else _] => destruct b
             end; intros [= <-]; reflexivity.
Qed.

Lemma no_action_no_target step_lower :
  step_actions_of step_lower = [] -> target_page_of step_lower = None.
Proof.
  intros H. destruct (target_page_of step_lower) as [t|] eqn:Et; [|reflexivity].
  apply target_is_expected in Et. rewrite H in Et.
  unfold expected_pages_of in Et. simpl in Et. now apply elem_of_empty in Et.
Qed.

(** X14. A step whose text names none of the actions that
    [validate_against_todo_step] knows is rejected on every page, with no
    detected action and no expected page, and [suggest_recovery] gives a
    suggestion for it. *)
Theorem step_outside_vocabulary_is_rejected (self : PageContextAnalyzer)
  (current_step : string) (last_action : option string) :
  step_actions_of (Py.lower current_step) = [] ->
  validate_against_todo_step urlparse_path self current_step
  = (false, PageMismatch [] ∅ (infer_current_page urlparse_path self))
  /\ exists suggestion,
       suggest_recovery urlparse_path self current_step last_action
       = Some suggestion
       /\ Py.truthy_str suggestion = true.
Proof.
  intros H.
  assert (Hv : validate_against_todo_step urlparse_path self current_step
               = (false, PageMismatch [] ∅ (infer_current_page urlparse_path self))).
  { unfold validate_against_todo_step. rewrite H. reflexivity. }
  split; [exact Hv|].
  apply rejected_step_has_suggestion. now rewrite Hv.
Qed.

End RecoveryFacts.

Lemma step_outside_vocabulary_is_rejected_witness :
  fst (PageContext.validate_against_todo_step PageContext.simple_urlparse_path
         (PageContext.init (Some credentials_page)) "Click the submit button")
  = false.
Proof.
  destruct (step_outside_vocabulary_is_rejected PageContext.simple_urlparse_path
              (PageContext.init (Some credentials_page))
              "Click the submit button" None) as [-> _];
    [vm_compute|]; reflexivity.
Defined.

(** ** The page gate of the ACT wrapper *)

Section PageGateFacts.
Import Workflow.

Variable urlparse_path : string -> option string.

Lemma validate_page_context_cases browser_state todo_contents :
  let info := validate_page_context urlparse_path browser_state todo_contents in
  (is_valid info = true /\ recovery_suggestion info = None)
  \/ (is_valid info = false
      /\ exists suggestion,
           recovery_suggestion info = Some suggestion
           /\ Py.truthy_str suggestion = true).
Proof.
  unfold validate_page_context.
  destruct todo_contents as [todo_contents|]; [|now left].
  destruct (_ || _); [now left|].
  destruct (TodoParser.current_step _) as [current_step|]; [|now left].
  destruct (Py.any_in NAVIGATION_HINTS _); [now left|].
  destruct (PageContext.validate_against_todo_step _ _ _) as [valid reason] eqn:Ev.
  destruct valid; [now left|]. right. cbn [negb is_valid recovery_suggestion].
  split; [reflexivity|].
  apply rejected_step_has_suggestion. now rewrite Ev.
Qed.

(** X15. [validate_page_context] reports a recovery suggestion exactly
    when the page is not valid, and the suggestion is then not empty.
    When [act_wrapper_node] finds the page not valid, it runs nothing:
    no executed actions, no results, success false, the suggestion as
    error context, and no history entry. *)
Theorem wrong_page_blocks_execution :
  (forall browser_state todo_contents,
     let info := validate_page_context urlparse_path browser_state todo_contents in
     (is_valid info = true <-> recovery_suggestion info = None)
     /\ (is_valid info = false -> Py.truthy_ostr (recovery_suggestion info) = true))
  /\ (forall env state update info,
        act_wrapper_try urlparse_path env state = Some update ->
        update !! "page_validation" = Some (VPageValidation info) ->
        is_valid info = false ->
        update !! "executed_actions" = Some (VActions [])
        /\ update !! "action_results" = Some (VResults [])
        /\ update !! "last_act_result_success" = Some (VBool false)
        /\ update !! "act_error_context"
           = Some (VStr (default EmptyString (recovery_suggestion info)))
        /\ update !! "history" = None).
Proof.
  split.
  - intros browser_state todo_contents info. subst info.
    destruct (validate_page_context_cases browser_state todo_contents)
      as [[-> ->]|(-> & s & -> & Hs)].
    + split; [tauto|discriminate].
    + split; [split; discriminate|]. intros _. exact Hs.
  - intros env state update info. unfold act_wrapper_try.
    destruct (negb (truthy (get state "browser_session_id"))); [discriminate|].
    destruct (w_session env) as [browser_session|]; [|discriminate].
    destruct (w_browser_state env) as [[summary browser_state]|]; [|discriminate].
    cbn [mbind option_bind].
    destruct (validate_page_context_cases (Some summary) (w_todo_contents env))
      as [[Hv Hr]|(Hv & s & Hr & Hs)].
    + rewrite Hv. cbn [negb andb].
      destruct (Nat.eqb _ 0).
      * intros [= <-]. lookup_literal. discriminate.
      * destruct (act_node _ _) as [result|]; [|discriminate].
        cbn [mbind option_bind].
        destruct (as_actions _); [|discriminate]. cbn [mbind option_bind].
        destruct (as_results _); [|discriminate]. cbn [mbind option_bind].
        intros [= <-]. lookup_literal. intros [= <-]. congruence.
    + rewrite Hv, Hr. cbn [negb andb Py.truthy_ostr]. rewrite Hs.
      intros [= <-]. lookup_literal. intros [= <-] _. cbn [recovery_suggestion].
      rewrite Hr. split_and!; reflexivity.
Qed.

End PageGateFacts.

(** ** The routers and the step budget *)

Section RouterRangeFacts.
Import Workflow.

Variable settings_max_steps : Z.
Variable settings_max_retries : Z.

Lemma steps_exhausted_done (state : State) :
  steps_exhausted settings_max_steps state = Some true ->
  should_continue_after_think settings_max_steps state = Done.
Proof.
  intros H.
  unfold should_continue_after_think, should_continue_after_think_try.
  rewrite H.
  destruct (truthy (get state "completed")); [reflexivity|].
  destruct (truthy (get state "error")); [reflexivity|].
  destruct (failures_exhausted state) as [[|]|]; reflexivity.
Qed.

(** X16. [should_continue_after_think] returns "continue" or "done",
    never "replan".  It returns "continue" exactly when the state is
    neither completed nor in error, the failure and step budgets are not
    used up, and [think_output] is set and not empty. *)
Theorem post_think_router_continues_exactly_when (state : State) :
  let route := should_continue_after_think settings_max_steps state in
  (route = Continue \/ route = Done)
  /\ (route = Continue <->
      truthy (get state "completed") = false
      /\ truthy (get state "error") = false
      /\ failures_exhausted state = Some false
      /\ steps_exhausted settings_max_steps state = Some false
      /\ truthy (get state "think_output") = true).
Proof.
  unfold should_continue_after_think, should_continue_after_think_try.
  destruct (truthy (get state "completed"));
    [simpl; split; [now right|split; [discriminate|intros (H & _); discriminate H]]|].
  destruct (truthy (get state "error"));
    [simpl; split; [now right
                   |split; [discriminate|intros (_ & H & _); discriminate H]]|].
  destruct (failures_exhausted state) as [[|]|]; simpl;
    try (split; [now right
                |split; [discriminate|intros (_ & _ & H & _); discriminate H]]).
  destruct (steps_exhausted settings_max_steps state) as [[|]|]; simpl;
    try (split; [now right
                |split; [discriminate|intros (_ & _ & _ & H & _); discriminate H]]).
  destruct (truthy (get state "think_output")); simpl.
  - split; [now left|]. split; [intros _; now split_and!|reflexivity].
  - split; [now right|].
    split; [discriminate|intros (_ & _ & _ & _ & H); discriminate H].
Qed.

Lemma trailing_skips (others rest : list HistoryEntry) :
  Forall (fun entry => node entry <> Some "verify") others ->
  trailing_verify_failures (others ++ rest) = trailing_verify_failures rest.
Proof.
  induction 1 as [|entry others Hn H IH]; [reflexivity|].
  cbn [app trailing_verify_failures].
  now rewrite bool_decide_eq_false_2 by exact Hn.
Qed.

Lemma trailing_bounds (l : list HistoryEntry) :
  (0 <= trailing_verify_failures l <= Z.of_nat (length l))%Z.
Proof.
  induction l as [|entry l IH]; simpl; [lia|].
  destruct (bool_decide (node entry = Some "verify"));
    [destruct (bool_decide (verification_status entry = Some "fail"))|]; lia.
Qed.

(** X17. On a failed verification that passed the earlier checks,
    [should_continue] returns "retry" exactly when the number of trailing
    failed verify entries of the history is below [max_retries], and
    "done" otherwise.  That number is at most the length of the history,
    is not changed by later entries of other nodes, grows by one with a
    failed verify entry and falls to zero with any other verify entry. *)
Theorem verify_router_counts_trailing_failures (state : State)
  (history : list HistoryEntry) :
  truthy (get state "completed") = false ->
  truthy (get state "error") = false ->
  failures_exhausted state = Some false ->
  steps_exhausted settings_max_steps state = Some false ->
  get state "verification_status" = VStr "fail" ->
  getd state "history" (VHistory []) = VHistory history ->
  let route := should_continue settings_max_steps settings_max_retries state in
  let failures := trailing_verify_failures (rev history) in
  (route = Retry <-> (failures < settings_max_retries)%Z)
  /\ (route = Done <-> (settings_max_retries <= failures)%Z)
  /\ (0 <= failures <= Z.of_nat (length history))%Z
  /\ (forall others,
        Forall (fun entry => node entry <> Some "verify") others ->
        trailing_verify_failures (rev (history ++ others)) = failures)
  /\ (forall entry,
        node entry = Some "verify" ->
        trailing_verify_failures (rev (history ++ [entry]))
        = if bool_decide (verification_status entry = Some "fail")
          then (1 + failures)%Z else 0%Z).
Proof.
  intros Hc He Hf Hs Hv Hh route failures. subst route failures.
  unfold should_continue, should_continue_try.
  rewrite Hc, He, Hf, Hs, Hv, Hh. simpl.
  split; [|split; [|split; [|split]]].
  - destruct (Z.ltb_spec (trailing_verify_failures (rev history))
                settings_max_retries); simpl; split;
      intros; try reflexivity; try discriminate; try assumption; lia.
  - destruct (Z.ltb_spec (trailing_verify_failures (rev history))
                settings_max_retries); simpl; split;
      intros; try reflexivity; try discriminate; try assumption; lia.
  - pose proof (trailing_bounds (rev history)) as H.
    now rewrite length_rev in H.
  - intros others Ho. rewrite rev_app_distr. apply trailing_skips.
    apply Forall_forall. intros entry Hin. rewrite Forall_forall in Ho.
    apply Ho. apply list_elem_of_In in Hin. apply list_elem_of_In.
    now apply in_rev.
  - intros entry Hn. rewrite rev_app_distr. simpl.
    now rewrite bool_decide_eq_true_2 by exact Hn.
Qed.

End RouterRangeFacts.

Lemma verify_router_counts_trailing_failures_witness :
  Workflow.should_continue 50 3 failing_verification = Workflow.Retry.
Proof.
  destruct (verify_router_counts_trailing_failures 50 3 failing_verification _
              eq_refl eq_refl eq_refl eq_refl eq_refl eq_refl) as [H _].
  apply H. reflexivity.
Defined.

Section BudgetFacts.
Import Workflow.

Variable urlparse_path : string -> option string.

Lemma act_wrapper_keeps_steps env state :
  act_wrapper_node urlparse_path env state !! "step_count" = None
  /\ act_wrapper_node urlparse_path env state !! "max_steps" = None.
Proof.
  unfold act_wrapper_node, act_wrapper_try, wrapper_except.
  node_paths; split; lookup_literal; reflexivity.
Qed.

Lemma minimal_think_try_counts env state update n :
  getd state "step_count" (VInt 0) = VInt n ->
  Minimal.think_node_try env state = Some update ->
  update !! "step_count" = Some (VInt (n + 1))
  /\ update !! "max_steps" = None.
Proof.
  intros Hn. unfold Minimal.think_node_try. rewrite Hn.
  cbn [as_int mbind option_bind].
  destruct (negb (truthy (get state "browser_session_id"))); [discriminate|].
  destruct (negb (Minimal.t_session_found env)); [discriminate|].
  destruct (TodoParser.current_step _) as [current_step|];
    [|intros [= <-]; split; lookup_literal; reflexivity].
  destruct (Minimal.as_feedback _) as [previous_result|]; [|discriminate].
  cbn [mbind option_bind].
  node_paths; intros [= <-]; split; lookup_literal; reflexivity.
Qed.

Lemma minimal_think_counts env state n :
  getd state "step_count" (VInt 0) = VInt n ->
  exists update,
    Minimal.think_node env state = Some update
    /\ update !! "step_count" = Some (VInt (n + 1))
    /\ update !! "max_steps" = None.
Proof.
  intros Hn. unfold Minimal.think_node.
  destruct (Minimal.think_node_try env state) as [update|] eqn:E.
  - exists update. split; [reflexivity|].
    eapply minimal_think_try_counts; eassumption.
  - rewrite Hn. simpl. eexists. split; [reflexivity|].
    split; lookup_literal; reflexivity.
Qed.

Lemma hierarchical_step state t n :
  hierarchical t ->
  getd state "step_count" (VInt 0) = VInt n ->
  getd (loop_step urlparse_path state t) "step_count" (VInt 0)
  = VInt (n + think_passes [t])
  /\ loop_step urlparse_path state t !! "max_steps" = state !! "max_steps".
Proof.
  intros Ht Hn. destruct t as [actions|env|env]; [destruct Ht| |]; simpl.
  - destruct (minimal_think_counts env state n Hn) as (update & -> & Hs & Hm).
    rewrite getd_apply_update, apply_update_lookup by discriminate.
    rewrite Hs, Hm. split; [f_equal; lia|reflexivity].
  - destruct (act_wrapper_keeps_steps env state) as [Hs Hm].
    rewrite getd_apply_update, apply_update_lookup by discriminate.
    rewrite Hs, Hm, Hn. split; [f_equal; lia|reflexivity].
Qed.

Lemma hierarchical_run ts state n :
  Forall hierarchical ts ->
  getd state "step_count" (VInt 0) = VInt n ->
  getd (loop_run urlparse_path ts state) "step_count" (VInt 0)
  = VInt (n + think_passes ts)
  /\ loop_run urlparse_path ts state !! "max_steps" = state !! "max_steps".
Proof.
  intros H. revert state n. unfold loop_run.
  induction H as [|t ts Ht H IH]; intros state n Hn; simpl.
  - split; [now rewrite Z.add_0_r|reflexivity].
  - destruct (hierarchical_step state t n Ht Hn) as [Hs Hm].
    destruct (IH _ _ Hs) as [Hs' Hm']. rewrite Hs', Hm', Hm.
    split; [|reflexivity]. f_equal.
    destruct t; simpl; lia.
Qed.

(** X18. In a run of the hierarchical loop (minimal THINK node and
    ACT wrapper) [step_count] grows by one with each THINK pass and
    [max_steps] stays as it is; once the count has reached [max_steps],
    [should_continue_after_think] returns "done". *)
Theorem step_budget_ends_the_loop (settings_max_steps : Z)
  (ts : list Transition) (state : State) (n max_steps : Z) :
  Forall hierarchical ts ->
  getd state "step_count" (VInt 0) = VInt n ->
  getd state "max_steps" (VInt settings_max_steps) = VInt max_steps ->
  let final := loop_run urlparse_path ts state in
  getd final "step_count" (VInt 0) = VInt (n + think_passes ts)
  /\ getd final "max_steps" (VInt settings_max_steps) = VInt max_steps
  /\ ((max_steps <= n + think_passes ts)%Z ->
      should_continue_after_think settings_max_steps final = Done).
Proof.
  intros Hts Hn Hmax final. subst final.
  destruct (hierarchical_run ts state n Hts Hn) as [Hs Hm].
  assert (Hm' : getd (loop_run urlparse_path ts state) "max_steps"
                  (VInt settings_max_steps) = VInt max_steps)
    by (unfold getd in *; now rewrite Hm).
  split; [exact Hs|]. split; [exact Hm'|].
  intros Hle.
  apply steps_exhausted_done.
  unfold steps_exhausted. rewrite Hs, Hm'. simpl.
  f_equal. apply Z.leb_le. lia.
Qed.

End BudgetFacts.

Lemma step_budget_ends_the_loop_witness :
  Workflow.should_continue_after_think 50
    (loop_run PageContext.simple_urlparse_path
       [Plan planning_env; Act (wrapper_env [click7]); Plan planning_env]
       two_step_budget)
  = Workflow.Done.
Proof.
  destruct (step_budget_ends_the_loop PageContext.simple_urlparse_path 50
              [Plan planning_env; Act (wrapper_env [click7]); Plan planning_env]
              two_step_budget 0 2) as (_ & _ & H).
  - repeat constructor.
  - reflexivity.
  - reflexivity.
  - apply H. vm_compute. discriminate.
Defined.

(** ** The minimal THINK node and the planned actions *)

Section CompletionFacts.
Import Workflow.

Lemma pending_step_not_done todo_contents current_step :
  TodoParser.current_step (TodoParser.get_todo_progress todo_contents)
  = Some current_step ->
  TodoParser.all_done (TodoParser.get_todo_progress todo_contents) = false.
Proof.
  unfold TodoParser.get_todo_progress.
  destruct (TodoParser.parse_todo_steps todo_contents) as [cs ps]. simpl.
  destruct ps; [discriminate|reflexivity].
Qed.

Lemma no_pending_step_done todo_contents :
  TodoParser.current_step (TodoParser.get_todo_progress todo_contents) = None ->
  TodoParser.all_done (TodoParser.get_todo_progress todo_contents) = true.
Proof.
  unfold TodoParser.get_todo_progress.
  destruct (TodoParser.parse_todo_steps todo_contents) as [cs ps]. simpl.
  destruct ps; [reflexivity|discriminate].
Qed.

Lemma minimal_think_completed_flag
  (env : Minimal.ThinkEnv) (state update : State) :
  Minimal.think_node_try env state = Some update ->
  update !! "completed"
  = Some (VBool (TodoParser.all_done
                   (TodoParser.get_todo_progress (todo_seen env state)))).
Proof.
  unfold Minimal.think_node_try, todo_seen.
  destruct (as_int (getd state "step_count" (VInt 0))) as [n|]; [|discriminate].
  cbn [mbind option_bind].
  destruct (negb (truthy (get state "browser_session_id"))); [discriminate|].
  destruct (negb (Minimal.t_session_found env)); [discriminate|].
  set (todo_contents :=
         match Minimal.t_todo_contents env with
         | Some t =>
             if negb (Py.truthy_str t) || String.eqb (Py.strip t) EMPTY_TODO
             then Minimal.default_todo
                    (Minimal.task_text (getd state "task" (VStr EmptyString)))
             else t
         | None =>
             Minimal.default_todo
               (Minimal.task_text (getd state "task" (VStr EmptyString)))
         end).
  destruct (TodoParser.current_step (TodoParser.get_todo_progress todo_contents))
    as [current_step|] eqn:Ec.
  - rewrite (pending_step_not_done _ _ Ec).
    node_paths; intros [= <-]; lookup_literal; reflexivity.
  - rewrite (no_pending_step_done _ Ec). intros [= <-].
    lookup_literal; reflexivity.
Qed.

(** X19. When the minimal THINK node returns without raising,
    [completed] is set exactly when the todo it reads has no pending
    step.  In that case it reports "All todo items completed", plans no
    action and writes no history entry; otherwise it writes exactly one
    history entry. *)
Theorem minimal_think_completes_without_pending_step
  (env : Minimal.ThinkEnv) (state update : State) :
  Minimal.think_node_try env state = Some update ->
  let progress := TodoParser.get_todo_progress (todo_seen env state) in
  update !! "completed" = Some (VBool (TodoParser.all_done progress))
  /\ (TodoParser.all_done progress = true ->
      update !! "think_output" = Some (VStr "All todo items completed")
      /\ update !! "planned_actions" = Some (VActions [])
      /\ update !! "history" = None)
  /\ (TodoParser.all_done progress = false ->
      exists entry, update !! "history" = Some (VHistory [entry])).
Proof.
  unfold Minimal.think_node_try, todo_seen.
  destruct (as_int (getd state "step_count" (VInt 0))) as [n|]; [|discriminate].
  cbn [mbind option_bind].
  destruct (negb (truthy (get state "browser_session_id"))); [discriminate|].
  destruct (negb (Minimal.t_session_found env)); [discriminate|].
  set (todo_contents :=
         match Minimal.t_todo_contents env with
         | Some t =>
             if negb (Py.truthy_str t) || String.eqb (Py.strip t) EMPTY_TODO
             then Minimal.default_todo
                    (Minimal.task_text (getd state "task" (VStr EmptyString)))
             else t
         | None =>
             Minimal.default_todo
               (Minimal.task_text (getd state "task" (VStr EmptyString)))
         end).
  destruct (TodoParser.current_step (TodoParser.get_todo_progress todo_contents))
    as [current_step|] eqn:Ec.
  - rewrite (pending_step_not_done _ _ Ec).
    node_paths; intros [= <-]; cbv zeta;
      (split; [lookup_literal; reflexivity|]);
      (split; [discriminate|]); intros _; eexists; lookup_literal; reflexivity.
  - rewrite (no_pending_step_done _ Ec). intros [= <-]. cbv zeta.
    split; [lookup_literal; reflexivity|].
    split; [|discriminate]. intros _.
    split; [|split]; lookup_literal; reflexivity.
Qed.

End CompletionFacts.

Lemma minimal_think_completes_without_pending_step_witness :
  default ∅ (Workflow.Minimal.think_node_try planning_env two_step_budget)
    !! "completed"
  = Some (Workflow.VBool false).
Proof.
  destruct (minimal_think_completes_without_pending_step planning_env
              two_step_budget
              (default ∅ (Workflow.Minimal.think_node_try planning_env
                            two_step_budget))) as [-> _].
  - vm_compute. reflexivity.
  - vm_compute. reflexivity.
Defined.

Section PlanFacts.
Import Workflow.

Variable urlparse_path : string -> option string.

Lemma act_node_ignores_planned env state v :
  act_node env (<["planned_actions" := v]> state) = act_node env state.
Proof.
  unfold act_node, get, getd.
  now rewrite !lookup_insert_ne by discriminate.
Qed.

(** With no actions in the state the node returns at once. *)
Lemma idle_act_node env state :
  state !! "actions" = None ->
  exists result,
    act_node env state = Some result
    /\ getd result "executed_actions" (VActions []) = VActions []
    /\ getd result "action_results" (VResults []) = VResults [].
Proof.
  intros Hact. unfold act_node, getd. rewrite Hact. simpl.
  destruct (negb (truthy (get state "browser_session_id")));
    [eexists; split; [reflexivity|split; lookup_literal; reflexivity]|].
  destruct (negb (session_found env));
    eexists; (split; [reflexivity|split; lookup_literal; reflexivity]).
Qed.

(** X20. The ACT wrapper uses the planned actions only as a gate: with
    any two non-empty lists of planned actions its result is the same.
    [act_node] reads the actions from the key [actions] of the state, which
    the wrapper does not set: when the state has no such key, nothing is
    executed and the pass is not a success. *)
Theorem planned_actions_only_open_the_gate :
  (forall env planned state,
     w_planned_actions env <> [] -> planned <> [] ->
     act_wrapper_node urlparse_path (with_planned env planned) state
     = act_wrapper_node urlparse_path env state)
  /\ (forall env state update,
        state !! "actions" = None ->
        act_wrapper_try urlparse_path env state = Some update ->
        update !! "executed_actions" = Some (VActions [])
        /\ update !! "last_act_result_success" = Some (VBool false)).
Proof.
  split.
  - intros env planned state Hne Hp.
    unfold act_wrapper_node, act_wrapper_try.
    cbn [with_planned w_session w_browser_state w_todo_contents
           w_planned_actions w_act_env].
    destruct (w_planned_actions env) as [|a l]; [congruence|].
    destruct planned as [|a' l']; [congruence|].
    cbn [length Nat.eqb]. now rewrite !act_node_ignores_planned.
  - intros env state update Hact. unfold act_wrapper_try.
    rewrite act_node_ignores_planned.
    destruct (idle_act_node (w_act_env env) state Hact) as (result & -> & He & Hr).
    destruct (negb (truthy (get state "browser_session_id"))); [discriminate|].
    destruct (w_session env); [|discriminate].
    destruct (w_browser_state env) as [[summary browser_state]|]; [|discriminate].
    cbn [mbind option_bind].
    destruct (_ && _); [intros [= <-]; split; lookup_literal; reflexivity|].
    destruct (Nat.eqb _ 0); [intros [= <-]; split; lookup_literal; reflexivity|].
    rewrite He, Hr. cbn [as_actions as_results mbind option_bind].
    intros [= <-]. split; lookup_literal; reflexivity.
Qed.

End PlanFacts.

(** ** The execution loop of the ACT node *)

Section ExecutionFacts.
Import Workflow.

Lemma filter_length_cons {A} (f : A -> bool) (x : A) (l : list A) :
  length (filter (fun a => f a = true) (x :: l))
  = ((if f x then 1 else 0) + length (filter (fun a => f a = true) l))%nat.
Proof.
  rewrite filter_cons. destruct (f x) eqn:E.
  - now rewrite decide_True by reflexivity.
  - now rewrite decide_False by discriminate.
Qed.

Lemma execute_actions_counts env i actions :
  let '(executed, results) := execute_actions env i actions in
  sublist executed actions
  /\ Forall known executed
  /\ (length (filter (fun r => succeeded r = true) results) <= length executed)%nat
  /\ (length executed <= length results)%nat
  /\ length results = length (filter (fun a => typed a = true) actions).
Proof.
  revert i. induction actions as [|action actions IH]; intros i.
  - simpl. split_and!; try constructor; reflexivity.
  - cbn [execute_actions]. specialize (IH (S i)).
    destruct (execute_actions env (S i) actions) as [executed results].
    destruct IH as (Hsub & Hknown & Hsucc & Hle & Hlen).
    rewrite (filter_length_cons typed). unfold typed at 1.
    destruct (action_type action) as [ty|] eqn:Ety.
    2:{ split_and!; try assumption. now apply sublist_cons. }
    destruct (Py.truthy_str ty) eqn:Hty; cbn [negb].
    2:{ split_and!; try assumption. now apply sublist_cons. }
    destruct (PageContext.str_in ty TOOL_NAMES) eqn:Htool; cbn [negb].
    2:{ rewrite (filter_length_cons succeeded).
        split_and!; try assumption; simpl; try lia.
        now apply sublist_cons. }
    destruct (ainvoke env i action) as [e|result].
    + rewrite (filter_length_cons succeeded).
      split_and!; try assumption; simpl; try lia.
      now apply sublist_cons.
    + rewrite (filter_length_cons succeeded).
      split_and!.
      * now apply sublist_skip.
      * constructor; [|exact Hknown]. exists ty. now split.
      * destruct (succeeded _); simpl; lia.
      * simpl. lia.
      * simpl. now rewrite Hlen.
Qed.

(** X21. The execution loop of [act_node] gives one result for each
    action that has a type, and none for the others.  The executed
    actions are taken from the given ones in their order, each is of a
    known tool, and there are at least as many of them as successful
    results and at most as many as results. *)
Theorem one_result_per_typed_action (env : ActEnv) (i : nat)
  (actions : list Action) :
  let executed := fst (execute_actions env i actions) in
  let results := snd (execute_actions env i actions) in
  sublist executed actions
  /\ Forall known executed
  /\ length results = length (filter (fun a => typed a = true) actions)
  /\ (length (filter (fun r => succeeded r = true) results) <= length executed)%nat
  /\ (length executed <= length results)%nat
  /\ (length results <= length actions)%nat.
Proof.
  pose proof (execute_actions_counts env i actions) as H.
  destruct (execute_actions env i actions) as [executed results]. simpl.
  destruct H as (Hsub & Hknown & Hsucc & Hle & Hlen).
  split_and!; try assumption.
  rewrite Hlen. apply length_filter.
Qed.

End ExecutionFacts.

Section SuccessFacts.
Import Workflow.

Variable urlparse_path : string -> option string.

Lemma act_node_outcome env state result :
  act_node env state = Some result ->
  exists actions,
    getd result "executed_actions" (VActions [])
    = VActions (fst (execute_actions env 1 actions))
    /\ getd result "action_results" (VResults [])
       = VResults (snd (execute_actions env 1 actions)).
Proof.
  unfold act_node.
  destruct (negb (truthy (get state "browser_session_id")));
    [intros [= <-]; exists []; split; unfold getd; lookup_literal; reflexivity|].
  destruct (negb (session_found env));
    [intros [= <-]; exists []; split; unfold getd; lookup_literal; reflexivity|].
  destruct (negb (truthy (getd state "actions" (VActions []))));
    [intros [= <-]; exists []; split; unfold getd; lookup_literal; reflexivity|].
  destruct (getd state "actions" (VActions [])) as [| | | |actions| | | | | | |];
    try discriminate.
  destruct (match ids_before env with
            | Some ids => Some ids
            | None => as_ids (getd state "previous_element_ids" (VIds ∅))
            end); [|discriminate].
  cbn [mbind option_bind].
  destruct (execute_actions env 1 actions) as [executed results] eqn:Ex.
  destruct (fresh_ids env); [|discriminate]. cbn [mbind option_bind].
  destruct (as_history _); [|discriminate]. cbn [mbind option_bind].
  intros H. apply (inj Some) in H. subst result. exists actions.
  unfold getd. cbn [list_to_map foldr fst snd app].
  rewrite lookup_insert_eq.
  rewrite lookup_insert_ne by discriminate. rewrite lookup_insert_eq.
  rewrite Ex. split; reflexivity.
Qed.

Lemma forallb_filter {A} (f : A -> bool) (l : list A) :
  forallb f l = true -> filter (fun x => f x = true) l = l.
Proof.
  induction l as [|x l IH]; [reflexivity|]. simpl. intros H.
  apply andb_true_iff in H. destruct H as [Hx Hl].
  rewrite filter_cons, decide_True by exact Hx. now rewrite IH.
Qed.

Lemma all_succeeded_executed env actions :
  all_succeeded_of (fst (execute_actions env 1 actions))
    (snd (execute_actions env 1 actions)) = true ->
  fst (execute_actions env 1 actions) <> []
  /\ Forall (fun r => succeeded r = true) (snd (execute_actions env 1 actions)).
Proof.
  pose proof (execute_actions_counts env 1 actions) as Hc.
  destruct (execute_actions env 1 actions) as [executed results].
  destruct Hc as (_ & _ & Hsucc & _ & _). simpl in *.
  unfold all_succeeded_of. destruct results as [|r results].
  - intros H. split; [|constructor]. now destruct executed.
  - intros H. change (forallb succeeded (r :: results) = true) in H.
    rewrite (forallb_filter _ _ H) in Hsucc. split.
    + destruct executed; [simpl in Hsucc; lia|discriminate].
    + rewrite <- (forallb_filter _ _ H). apply Forall_forall.
      intros x Hx. now apply list_elem_of_filter in Hx.
Qed.

(** X22. When the ACT wrapper reports success, at least one action was
    executed, every result is a success, and [think_retries] is reset to
    zero. *)
Theorem success_means_something_ran (env : WrapperEnv) (state update : State) :
  act_wrapper_try urlparse_path env state = Some update ->
  update !! "last_act_result_success" = Some (VBool true) ->
  exists executed results,
    update !! "executed_actions" = Some (VActions executed)
    /\ update !! "action_results" = Some (VResults results)
    /\ executed <> []
    /\ Forall (fun r => succeeded r = true) results
    /\ update !! "think_retries" = Some (VInt 0).
Proof.
  unfold act_wrapper_try.
  destruct (negb (truthy (get state "browser_session_id"))); [discriminate|].
  destruct (w_session env); [|discriminate].
  destruct (w_browser_state env) as [[summary browser_state]|]; [|discriminate].
  cbn [mbind option_bind].
  destruct (_ && _); [intros [= <-]; lookup_literal; discriminate|].
  destruct (Nat.eqb _ 0); [intros [= <-]; lookup_literal; discriminate|].
  destruct (act_node _ _) as [result|] eqn:Er; [|discriminate].
  cbn [mbind option_bind].
  destruct (act_node_outcome _ _ _ Er) as (actions & -> & ->).
  cbn [as_actions as_results mbind option_bind].
  intros [= <-]. lookup_literal. intros [= Hall].
  destruct (all_succeeded_executed _ _ Hall) as [Hne Hs].
  eexists _, _. split_and!; try reflexivity; assumption.
Qed.

End SuccessFacts.

Lemma success_means_something_ran_witness :
  exists executed,
    default ∅ (Workflow.act_wrapper_try PageContext.simple_urlparse_path
                 (wrapper_env [click7]) two_failures_state)
      !! "executed_actions"
    = Some (Workflow.VActions executed)
    /\ executed <> [].
Proof.
  destruct (success_means_something_ran PageContext.simple_urlparse_path
              (wrapper_env [click7]) two_failures_state
              (default ∅ (Workflow.act_wrapper_try PageContext.simple_urlparse_path
                            (wrapper_env [click7]) two_failures_state)))
    as (executed & results & He & _ & Hne & _).
  - vm_compute. reflexivity.
  - vm_compute. reflexivity.
  - exists executed. now split.
Defined.

(** ** The order of the detected errors and the new elements *)

Section SortFacts.
Import Workflow.

Lemma insert_by_rank_perm e l : insert_by_rank e l ≡ₚ e :: l.
Proof.
  induction l as [|x l IH]; [reflexivity|]. simpl.
  destruct (_ <=? _)%nat; [reflexivity|].
  rewrite IH. apply Permutation_swap.
Qed.

Lemma insert_by_rank_sorted e l :
  StronglySorted (fun a b => (rank_of a <= rank_of b)%nat) l ->
  StronglySorted (fun a b => (rank_of a <= rank_of b)%nat) (insert_by_rank e l).
Proof.
  induction 1 as [|x l Hs IH Hx]; simpl.
  - repeat constructor.
  - fold (rank_of e) (rank_of x).
    destruct (Nat.leb_spec (rank_of e) (rank_of x)) as [Hle|Hgt].
    + constructor; [now constructor|].
      constructor; [exact Hle|].
      eapply Forall_impl; [exact Hx|]. intros y Hy. simpl in Hy. lia.
    + constructor; [exact IH|].
      rewrite insert_by_rank_perm. constructor; [lia|exact Hx].
Qed.

Lemma insert_by_rank_stable r e l :
  StronglySorted (fun a b => (rank_of a <= rank_of b)%nat) l ->
  filter (fun x => rank_of x = r) (insert_by_rank e l)
  = filter (fun x => rank_of x = r) (e :: l).
Proof.
  induction 1 as [|x l Hs IH Hx]; [reflexivity|]. simpl.
  fold (rank_of e) (rank_of x).
  destruct (Nat.leb_spec (rank_of e) (rank_of x)) as [Hle|Hgt]; [reflexivity|].
  rewrite (filter_cons _ x), IH, !(filter_cons _ e), (filter_cons _ x).
  destruct (decide (rank_of e = r)), (decide (rank_of x = r));
    try reflexivity. lia.
Qed.

Lemma sort_by_severity_sorted l :
  StronglySorted (fun a b => (rank_of a <= rank_of b)%nat) (sort_by_severity l).
Proof.
  unfold sort_by_severity. induction l as [|e l IH]; simpl; [constructor|].
  now apply insert_by_rank_sorted.
Qed.

(** X23. The ACT wrapper sorts the detected errors by severity, high
    before medium before low: the sorted list is a rearrangement of the
    input in rising rank, errors of equal rank keep their order, and the
    primary error, the first one, has the least rank of all. *)
Theorem detected_errors_sorted_by_severity
  (l : list ErrorDetector.ExtractedError) :
  sort_by_severity l ≡ₚ l
  /\ StronglySorted (fun a b => (rank_of a <= rank_of b)%nat) (sort_by_severity l)
  /\ (forall r,
        filter (fun x => rank_of x = r) (sort_by_severity l)
        = filter (fun x => rank_of x = r) l)
  /\ (forall primary_error rest,
        sort_by_severity l = primary_error :: rest ->
        forall e, e ∈ l -> (rank_of primary_error <= rank_of e)%nat).
Proof.
  assert (Hperm : sort_by_severity l ≡ₚ l).
  { unfold sort_by_severity. induction l as [|e l IH]; simpl; [reflexivity|].
    now rewrite insert_by_rank_perm, IH. }
  split; [exact Hperm|]. split; [apply sort_by_severity_sorted|]. split.
  - intros r. unfold sort_by_severity.
    induction l as [|e l IH]; simpl; [reflexivity|].
    rewrite insert_by_rank_stable by apply sort_by_severity_sorted.
    rewrite !(filter_cons _ e).
    assert (IH' : filter (fun x => rank_of x = r) (sort_by_severity l)
                  = filter (fun x => rank_of x = r) l).
    { apply IH. unfold sort_by_severity.
      clear. induction l as [|e l IH]; simpl; [reflexivity|].
      now rewrite insert_by_rank_perm, IH. }
    unfold sort_by_severity in IH'. now rewrite IH'.
  - intros primary_error rest Hsort e He.
    pose proof (sort_by_severity_sorted l) as Hs. rewrite Hsort in Hs.
    apply StronglySorted_inv in Hs. destruct Hs as [_ Hall].
    rewrite <- Hperm, Hsort in He. apply elem_of_cons in He.
    destruct He as [->|He]; [lia|].
    rewrite Forall_forall in Hall. now apply Hall.
Qed.

End SortFacts.

Section DeltaRangeFacts.
Import Workflow.

Lemma new_element_ids_of_range (b : bool) (previous detected current : gset Z) :
  let new := new_element_ids_of b previous detected current in
  new ## previous
  /\ new ⊆ detected ∪ current
  /\ (previous = ∅ -> new = ∅).
Proof.
  intros new.
  assert (Hcases : new = detected ∖ previous \/ new = current ∖ previous
                   \/ new = ∅).
  { subst new. unfold new_element_ids_of.
    repeat match goal with
           | |- context [if ?c then _ else _] => destruct c
           end; tauto. }
  split; [|split].
  - apply elem_of_disjoint. intros x Hx Hp.
    destruct Hcases as [H|[H|H]]; rewrite H in Hx.
    + apply elem_of_difference in Hx. tauto.
    + apply elem_of_difference in Hx. tauto.
    + now apply elem_of_empty in Hx.
  - intros x Hx. apply elem_of_union.
    destruct Hcases as [H|[H|H]]; rewrite H in Hx.
    + apply elem_of_difference in Hx. tauto.
    + apply elem_of_difference in Hx. tauto.
    + now apply elem_of_empty in Hx.
  - intros ->. subst new. unfold new_element_ids_of.
    rewrite (bool_decide_eq_true_2 ((∅ : gset Z) = ∅)) by reflexivity.
    cbn [negb]. rewrite !andb_false_r. reflexivity.
Qed.

(** X24. The new element ids that [act_node] reports when it knows the
    ids before the pass are disjoint from those, and each of them was
    detected during the actions or is in the fresh state, whose ids
    become the previous ids of the next pass.  With no id before the
    pass, no id is reported as new. *)
Theorem new_elements_were_not_there_before (env : ActEnv)
  (state update : State) (previous new : gset Z) :
  act_node env state = Some update ->
  ids_before env = Some previous ->
  update !! "new_element_ids" = Some (VIds new) ->
  new ## previous
  /\ (exists current,
        fresh_ids env = Some current
        /\ update !! "previous_element_ids" = Some (VIds current)
        /\ new ⊆ detected_ids env ∪ current)
  /\ (previous = ∅ -> new = ∅).
Proof.
  unfold act_node. intros Hrun Hprev. rewrite Hprev in Hrun. revert Hrun.
  destruct (negb (truthy (get state "browser_session_id")));
    [intros [= <-]; lookup_literal; discriminate|].
  destruct (negb (session_found env));
    [intros [= <-]; lookup_literal; discriminate|].
  destruct (negb (truthy (getd state "actions" (VActions []))));
    [intros [= <-]; lookup_literal; discriminate|].
  destruct (getd state "actions" (VActions [])) as [| | | |actions| | | | | | |];
    try discriminate.
  cbn [mbind option_bind].
  destruct (execute_actions env 1 actions) as [executed results].
  destruct (fresh_ids env) as [current|]; [|discriminate].
  cbn [mbind option_bind].
  destruct (as_history _); [|discriminate]. cbn [mbind option_bind].
  intros H. apply (inj Some) in H. subst update.
  cbn [list_to_map foldr fst snd app].
  rewrite !(lookup_insert_ne _ _ "new_element_ids") by discriminate.
  rewrite lookup_insert_eq. intros [= <-].
  destruct (new_element_ids_of_range
              (has_action_in DOM_CHANGING_ACTIONS executed)
              previous (detected_ids env) current) as (Hd & Hs & He).
  split; [exact Hd|]. split; [|exact He].
  exists current. split; [reflexivity|]. split; [|exact Hs].
  rewrite !(lookup_insert_ne _ _ "previous_element_ids") by discriminate.
  now rewrite lookup_insert_eq.
Qed.

End DeltaRangeFacts.

Lemma new_elements_were_not_there_before_witness :
  ({[ 4; 5 ]} : gset Z) ## {[ 1; 2; 3 ]}.
Proof.
  apply (new_elements_were_not_there_before menu_opens (acting_state [click7])
           menu_update {[ 1; 2; 3 ]} {[ 4; 5 ]}); vm_compute; reflexivity.
Defined.

(** ** The default todo and the recovery pass of the minimal THINK node *)

Section DefaultTodoFacts.
Import Workflow TodoParser.

Lemma default_todo_lines task :
  Py.split_char Py.nl (Minimal.default_todo task)
  = ("## Goal" :: Py.split_char Py.nl task
     ++ [ EmptyString; "## Tasks:"; "- [ ] Complete the task"; EmptyString ])%list.
Proof.
  unfold Minimal.default_todo.
  change ("## Goal" +:+ Py.nl_str +:+ task +:+ Py.nl_str +:+ Py.nl_str
          +:+ "## Tasks:" +:+ Py.nl_str +:+ "- [ ] Complete the task"
          +:+ Py.nl_str)
    with ("## Goal" +:+ Py.nl_str
          +:+ (task +:+ String Py.nl
                 (Py.nl_str +:+ "## Tasks:" +:+ Py.nl_str
                  +:+ "- [ ] Complete the task" +:+ Py.nl_str))).
  rewrite split_app_nl by reflexivity.
  rewrite split_append. reflexivity.
Qed.

(** X26. Without a todo file the minimal THINK node works on the
    default todo built from the task.  When no line of the task opens a
    task section, this todo has the one pending step "Complete the task",
    so a pass that returns does not set [completed]. *)
Theorem missing_todo_is_one_pending_step (env : Minimal.ThinkEnv)
  (state : State) :
  let task := Minimal.task_text (getd state "task" (VStr EmptyString)) in
  Minimal.t_todo_contents env = None ->
  Forall (fun l => opens_tasks (Py.strip l) = false) (Py.split_char Py.nl task) ->
  todo_seen env state = Minimal.default_todo task
  /\ parse_todo_steps (todo_seen env state)
     = ([], [ {| index := 0; text := "Complete the task"; completed := false |} ])
  /\ forall update,
       Minimal.think_node_try env state = Some update ->
       update !! "completed" = Some (VBool false).
Proof.
  intros task Hnone Hlines.
  assert (Hseen : todo_seen env state = Minimal.default_todo task).
  { unfold todo_seen. now rewrite Hnone. }
  assert (Hparse : parse_todo_steps (Minimal.default_todo task)
                   = ([], [ {| index := 0; text := "Complete the task";
                               completed := false |} ])).
  { unfold parse_todo_steps.
    replace (negb (Py.truthy_str (Minimal.default_todo task))
             || negb (Py.truthy_str (Py.strip (Minimal.default_todo task))))
      with false
      by (symmetry; apply orb_false_iff;
          destruct (starts_nonempty "#"
                      ("# Goal" +:+ Py.nl_str +:+ task +:+ Py.nl_str +:+ Py.nl_str
                       +:+ "## Tasks:" +:+ Py.nl_str
                       +:+ "- [ ] Complete the task" +:+ Py.nl_str)
                      eq_refl) as [H1 H2];
          split; apply negb_false_iff; [exact H1|exact H2]).
    rewrite default_todo_lines.
    change ("## Goal" :: Py.split_char Py.nl task
            ++ [ EmptyString; "## Tasks:"; "- [ ] Complete the task"; EmptyString ])%list
      with (("## Goal" :: Py.split_char Py.nl task)
            ++ [ EmptyString; "## Tasks:"; "- [ ] Complete the task"; EmptyString ])%list.
    rewrite parse_lines_skip; [vm_compute; reflexivity|].
    constructor; [reflexivity|exact Hlines]. }
  split; [exact Hseen|]. split; [now rewrite Hseen|].
  intros update Hrun.
  rewrite (minimal_think_completed_flag env state update Hrun).
  unfold get_todo_progress. rewrite Hseen, Hparse. reflexivity.
Qed.

End DefaultTodoFacts.

Lemma missing_todo_is_one_pending_step_witness :
  TodoParser.parse_todo_steps (todo_seen planning_env two_step_budget)
  = ([], [ {| TodoParser.index := 0; TodoParser.text := "Complete the task";
              TodoParser.completed := false |} ]).
Proof.
  destruct (missing_todo_is_one_pending_step planning_env two_step_budget)
    as (_ & H & _).
  - reflexivity.
  - vm_compute. repeat constructor.
  - exact H.
Defined.

Section RecoveryBypassFacts.
Import Workflow.

(** X28. When the feedback of the ACT wrapper holds detected errors
    after a failed pass, or a page that is not valid while retries are
    left, the minimal THINK node does not depend on the answer of the
    LLM.  If it returns without completing, it has counted one more
    retry, plans no action, and its output is the recovery text for the
    primary error or the suggestion of the page validation. *)
Theorem recovery_does_not_consult_the_llm (env : Minimal.ThinkEnv)
  (state : State) (feedback : ActFeedback) (retries : Z) :
  get state "act_feedback" = VFeedback feedback ->
  getd state "think_retries" (VInt 0) = VInt retries ->
  (fb_detected_errors feedback <> []
   /\ truthy (getd state "last_act_result_success" (VBool false)) = false)
  \/ ((exists info, fb_page_validation feedback = Some info
                    /\ is_valid info = false)
      /\ (retries + 1 <= 3)%Z) ->
  (forall llm,
     Minimal.think_node_try (with_llm env llm) state
     = Minimal.think_node_try env state)
  /\ forall update,
       Minimal.think_node_try env state = Some update ->
       update !! "completed" = Some (VBool false) ->
       update !! "think_retries" = Some (VInt (retries + 1))
       /\ update !! "planned_actions" = Some (VActions [])
       /\ ((exists primary_error rest,
              fb_detected_errors feedback = primary_error :: rest
              /\ truthy (getd state "last_act_result_success" (VBool false)) = false
              /\ update !! "think_output"
                 = Some (VStr (Minimal.recovery_output primary_error (retries + 1))))
           \/ (exists info,
                 fb_page_validation feedback = Some info
                 /\ update !! "think_output"
                    = Some (Minimal.value_of_ostr (recovery_suggestion info)))).
Proof.
  intros Hf Hr Hcase. unfold Minimal.think_node_try.
  cbn [with_llm Minimal.t_session_found Minimal.t_todo_contents
         Minimal.t_llm_next_step].
  rewrite Hf, Hr. cbn [Minimal.as_feedback as_int mbind option_bind].
  destruct (as_int (getd state "step_count" (VInt 0))) as [n|];
    [|split; [reflexivity|discriminate]].
  cbn [mbind option_bind].
  destruct (negb (truthy (get state "browser_session_id")));
    [split; [reflexivity|discriminate]|].
  destruct (negb (Minimal.t_session_found env));
    [split; [reflexivity|discriminate]|].
  destruct (TodoParser.current_step _) as [current_step|].
  2:{ split; [reflexivity|]. intros update [= <-]. lookup_literal. discriminate. }
  destruct (fb_detected_errors feedback) as [|primary_error rest] eqn:Ed.
  - destruct Hcase as [[Hne _]|[(info & Hi & Hv) Hle]]; [congruence|].
    rewrite Hi, Hv. cbn [negb].
    replace (3 <? retries + 1)%Z with false by (symmetry; apply Z.ltb_ge; lia).
    split; [reflexivity|]. intros update [= <-]. lookup_literal. intros _.
    split; [reflexivity|]. split; [reflexivity|]. right.
    exists info. split; [reflexivity|]. reflexivity.
  - destruct (truthy (getd state "last_act_result_success" (VBool false))) eqn:Es.
    + destruct Hcase as [[_ Hs]|[(info & Hi & Hv) Hle]]; [discriminate Hs|].
      rewrite Hi, Hv. cbn [negb].
      replace (3 <? retries + 1)%Z with false by (symmetry; apply Z.ltb_ge; lia).
      split; [reflexivity|]. intros update [= <-]. lookup_literal. intros _.
      split; [reflexivity|]. split; [reflexivity|]. right.
      exists info. split; [reflexivity|]. reflexivity.
    + split; [reflexivity|]. intros update [= <-]. lookup_literal. intros _.
      split; [reflexivity|]. split; [reflexivity|]. left.
      exists primary_error, rest. split; [reflexivity|]. split; reflexivity.
Qed.

End RecoveryBypassFacts.

Lemma recovery_does_not_consult_the_llm_witness :
  Workflow.Minimal.think_node_try
    (with_llm planning_env None)
    (failed_pass {| Workflow.fb_success := false; Workflow.fb_error := None;
                    Workflow.fb_page_validation := None;
                    Workflow.fb_detected_errors := [taken_email] |})
  = Workflow.Minimal.think_node_try planning_env
      (failed_pass {| Workflow.fb_success := false; Workflow.fb_error := None;
                      Workflow.fb_page_validation := None;
                      Workflow.fb_detected_errors := [taken_email] |}).
Proof.
  destruct (recovery_does_not_consult_the_llm planning_env
              (failed_pass {| Workflow.fb_success := false;
                              Workflow.fb_error := None;
                              Workflow.fb_page_validation := None;
                              Workflow.fb_detected_errors := [taken_email] |})
              {| Workflow.fb_success := false; Workflow.fb_error := None;
                 Workflow.fb_page_validation := None;
                 Workflow.fb_detected_errors := [taken_email] |}
              1 eq_refl eq_refl) as [H _].
  - left. split; [discriminate|reflexivity].
  - apply H.
Defined.

(** ** The tool calls of the THINK node *)

Section ThinkCallFacts.
Import Workflow.

Lemma typed_filter_all actions :
  Forall (fun a => typed a = true) actions ->
  filter (fun a => typed a = true) actions = actions.
Proof.
  induction 1 as [|a l Ha H IH]; [reflexivity|].
  rewrite filter_cons, decide_True by exact Ha. now rewrite IH.
Qed.

(** X25. The actions that [think_node] reads off the tool calls all
    have a type, so the execution loop of [act_node] gives one result for
    each.  The list is empty exactly when no tool call has a name and the
    response has no content; with content and no named tool call it is
    the single [done] action, and the node then marks the state as
    completed unless the step count cannot be read. *)
Theorem parsed_actions_are_typed (raw_tool_calls : list (option ToolCall))
  (assistant_content : option string) :
  let actions := actions_of_response raw_tool_calls assistant_content in
  Forall (fun a => typed a = true) actions
  /\ (forall env i, length (snd (execute_actions env i actions)) = length actions)
  /\ (actions = [] <->
      Forall (fun tool_call =>
                typed (_tool_call_to_action tool_call) = false) raw_tool_calls
      /\ Py.truthy_ostr assistant_content = false)
  /\ (Forall (fun tool_call =>
                typed (_tool_call_to_action tool_call) = false) raw_tool_calls ->
      Py.truthy_ostr assistant_content = true ->
      actions = [done_action]
      /\ forall state, think_node state actions !! "completed" = Some (VBool true)
                       \/ think_node state actions !! "error"
                          = Some (VStr "Think node error")).
Proof.
  intros actions.
  assert (Hfilter : Forall (fun a => typed a = true)
                      (List.filter
                         (fun normalized => Py.truthy_ostr (action_type normalized))
                         (map _tool_call_to_action raw_tool_calls))).
  { apply Forall_forall. intros a Ha. apply list_elem_of_In, filter_In in Ha.
    destruct Ha as [_ Ha]. unfold typed.
    destruct (action_type a); [exact Ha|discriminate Ha]. }
  assert (Hnone : Forall (fun tool_call =>
                            typed (_tool_call_to_action tool_call) = false)
                    raw_tool_calls
                  <-> List.filter
                        (fun normalized => Py.truthy_ostr (action_type normalized))
                        (map _tool_call_to_action raw_tool_calls) = []).
  { clear. induction raw_tool_calls as [|c l IH]; simpl.
    - split; [reflexivity|constructor].
    - change (Py.truthy_ostr (action_type (_tool_call_to_action c)))
        with (typed (_tool_call_to_action c)).
      destruct (typed (_tool_call_to_action c)) eqn:E.
      + split; [|discriminate]. intros H. apply Forall_cons in H.
        destruct H as [H _]. congruence.
      + rewrite <- IH. split.
        * intros H. now apply Forall_cons in H.
        * intros H. now constructor. }
  assert (Htyped : Forall (fun a => typed a = true) actions).
  { subst actions. unfold actions_of_response.
    destruct (_ && _); [repeat constructor|exact Hfilter]. }
  split; [exact Htyped|]. split; [|split].
  - intros env i.
    pose proof (execute_actions_counts env i actions) as Hc.
    destruct (execute_actions env i actions) as [executed results].
    destruct Hc as (_ & _ & _ & _ & Hlen). simpl. rewrite Hlen.
    now rewrite typed_filter_all.
  - subst actions. unfold actions_of_response. rewrite Hnone.
    destruct (List.filter _ _) as [|a l]; simpl.
    + destruct (Py.truthy_ostr assistant_content); split;
        try discriminate; try tauto. intros [_ H]. discriminate H.
    + split; [discriminate|]. intros [H _]. discriminate H.
  - intros Hcalls Hcontent. apply Hnone in Hcalls.
    assert (Ha : actions = [done_action]).
    { subst actions. unfold actions_of_response. now rewrite Hcalls, Hcontent. }
    split; [exact Ha|]. intros state. rewrite Ha.
    unfold think_node.
    destruct (as_int (getd state "step_count" (VInt 0))) as [n|];
      [left|right; lookup_literal; reflexivity].
    unfold think_node_end, think_node_try.
    change (existsb is_done [done_action]) with true. cbv iota.
    cbn [from_option id default]. lookup_literal. reflexivity.
Qed.

(** The cases of the unit tests of the repository. *)
Example tool_call_tests :
  _tool_call_to_action
    (Some {| tc_name := Some "click";
             tc_args := Some {| arg_index := Some 5; arg_element_index := None |} |})
  = {| action_type := Some "click"; params_index := Some 5;
       params_element_index := None |}
  /\ _tool_call_to_action (Some {| tc_name := None; tc_args := None |}) = no_action.
Proof. split; reflexivity. Qed.

End ThinkCallFacts.

(** ** The port manager *)

Section PortFacts.
Import PortManager.

Variable check_port_available : Z -> string -> bool.

Lemma find_from_least port attempts host :
  match find_from check_port_available port attempts host with
  | Some p =>
      check_port_available p host = true
      /\ (port <= p < port + Z.of_nat attempts)%Z
      /\ forall q, (port <= q < p)%Z -> check_port_available q host = false
  | None =>
      forall q, (port <= q < port + Z.of_nat attempts)%Z ->
                check_port_available q host = false
  end.
Proof.
  revert port. induction attempts as [|attempts IH]; intros port.
  - simpl. intros q Hq. lia.
  - cbn [find_from].
    destruct (check_port_available port host) eqn:E.
    + split; [exact E|]. split; [lia|]. intros q Hq. lia.
    + specialize (IH (port + 1)%Z).
      destruct (find_from check_port_available (port + 1) attempts host) as [p|].
      * destruct IH as (Hp & Hr & Hl). split; [exact Hp|]. split; [lia|].
        intros q Hq. destruct (Z.eq_dec q port) as [->|Hne]; [exact E|].
        apply Hl. lia.
      * intros q Hq. destruct (Z.eq_dec q port) as [->|Hne]; [exact E|].
        apply IH. lia.
Qed.

(** X27. [find_available_port] returns the first free port of its
    range and [None] when the range has none.  [get_available_cdp_port]
    returns the first free port among the requested (or default) port and
    the ten after it and, for a positive port, raises exactly when all
    eleven are in use; for the same free ports
    [get_available_streaming_port] gives the same result. *)
Theorem chosen_port_is_the_first_free (requested_port : option Z)
  (default_port : Z) :
  let port := port_or requested_port default_port in
  (forall start_port max_attempts host p,
     find_available_port check_port_available start_port max_attempts host
     = Some p ->
     check_port_available p host = true
     /\ (start_port <= p < start_port + Z.max 0 max_attempts)%Z
     /\ forall q, (start_port <= q < p)%Z -> check_port_available q host = false)
  /\ (forall p,
        get_available_cdp_port check_port_available requested_port default_port
        = Some p ->
        check_port_available p "localhost" = true
        /\ (port <= p <= port + 10)%Z
        /\ forall q, (port <= q < p)%Z ->
                     check_port_available q "localhost" = false)
  /\ ((0 < port)%Z ->
      (get_available_cdp_port check_port_available requested_port default_port
       = None
       <-> forall q, (port <= q <= port + 10)%Z ->
                     check_port_available q "localhost" = false))
  /\ get_available_streaming_port check_port_available requested_port default_port
     = get_available_cdp_port check_port_available requested_port default_port.
Proof.
  intros port. split; [|split; [|split]].
  - intros start_port max_attempts host p Hf. unfold find_available_port in Hf.
    pose proof (find_from_least start_port (Z.to_nat max_attempts) host) as H.
    rewrite Hf in H. destruct H as (Hp & Hr & Hl).
    split; [exact Hp|]. split; [lia|exact Hl].
  - intros p. unfold get_available_cdp_port, find_available_port. fold port.
    destruct (check_port_available port "localhost") eqn:E.
    + intros [= <-]. split; [exact E|]. split; [lia|]. intros q Hq. lia.
    + pose proof (find_from_least (port + 1) (Z.to_nat 10) "localhost") as H.
      destruct (find_from check_port_available (port + 1) (Z.to_nat 10) "localhost")
        as [alternative|]; [|discriminate].
      destruct (alternative =? 0)%Z; [discriminate|]. intros [= <-].
      destruct H as (Hp & Hr & Hl). split; [exact Hp|]. split; [lia|].
      intros q Hq. destruct (Z.eq_dec q port) as [->|Hne]; [exact E|].
      apply Hl. lia.
  - intros Hpos. unfold get_available_cdp_port, find_available_port. fold port.
    destruct (check_port_available port "localhost") eqn:E.
    + split; [discriminate|]. intros H. rewrite H in E by lia. discriminate E.
    + pose proof (find_from_least (port + 1) (Z.to_nat 10) "localhost") as H.
      destruct (find_from check_port_available (port + 1) (Z.to_nat 10) "localhost")
        as [alternative|].
      * destruct H as (Hp & Hr & Hl).
        replace (alternative =? 0)%Z with false
          by (symmetry; apply Z.eqb_neq; lia).
        split; [discriminate|]. intros H. rewrite H in Hp by lia. discriminate Hp.
      * split; [|reflexivity]. intros _ q Hq.
        destruct (Z.eq_dec q port) as [->|Hne]; [exact E|]. apply H. lia.
  - reflexivity.
Qed.

End PortFacts.

Lemma chosen_port_is_the_first_free_witness :
  PortManager.get_available_cdp_port busy_9222 None 9222 = Some 9223%Z
  /\ busy_9222 9223 "localhost" = true.
Proof.
  split; [reflexivity|].
  destruct (chosen_port_is_the_first_free busy_9222 None 9222) as (_ & H & _).
  apply (H 9223%Z eq_refl).
Defined.
